(** * Cashflow backend: period aggregation and analytics engine

    A shallow embedding of the aggregation code of the cashflow backend
    (analytics controller, dashboard controller, transaction controller)
    together with the properties its specification states about it.

    Modelling conventions, used throughout:

    - A JavaScript [number] holding an amount is an exact integer ([Z], an
      amount in minor units).  Sums and differences of such numbers are exact
      in IEEE doubles below 2^53.  Quotients are formed in exact rationals
      ([Q]) and rounded by [Math_round]; the rounding error double precision
      adds to a quotient is not modelled.
    - A JavaScript object used as a dictionary is the list of its own
      properties in creation order ([JsObject]); its keys are enumerated in
      the order the language prescribes (array-index keys first, ascending,
      then the other keys in creation order).  Only own properties are
      modelled: keys are taken not to name a member inherited from
      [Object.prototype].
    - Strings are sequences of 8-bit code units; the default comparison of
      [Array.prototype.sort] on strings is [String.leb].
    - The storage collaborator answers every command; a handler is a function
      from the request and the store to the response and the store, which
      also records the commands it sent.

    The later sections embed the code around it: the listing and deleting
    handlers of the transaction controller, the financial context of the
    insights controller, the expense ratio and the phone number of the
    notification service, and the file upload controller.  There the
    fixed table of allowed file types is read with the members an object
    literal inherits, the signing service is a parameter, and a
    conditional update that fails raises the error of the store. *)

From stdpp Require Import base list strings gmap sorting.
From Stdlib Require Import ZArith QArith Qround Qabs Qpower Lia Lqa Ascii String
  DecimalString SpecFloat.

Local Open Scope Z_scope.

(** ** JavaScript numbers: rounding of exact quotients *)

(** [Math.round]: the nearest integer, a tie going up. *)
Definition Math_round (x : Q) : Z := Qfloor (x + (1 # 2)).

(** ** JavaScript numbers: double precision *)

(** A JavaScript number is an IEEE 754 binary64 value.  A finite one is
    held as the rational it denotes, and every operation gives the exact
    result rounded to the nearest representable value, a tie going to the
    even significand.  The sign of zero is left out: no operation of the
    code tells the two zeros apart. *)
Module Number.

(** [2^k] *)
Definition pow2 (k : Z) : Q := (2 ^ k)%Q.

(** [floor(log2 |q|)] for a rational other than zero. *)
Definition ilog2 (q : Q) : Z :=
  let k := Z.log2 (Z.abs (Qnum q)) - Z.log2 (Z.pos (Qden q)) in
  if Qle_bool (pow2 k) (Qabs q) then k else k - 1.

(** The nearest integer, a tie going to the even one. *)
Definition roundHalfEven (x : Q) : Z :=
  let f := Qfloor x in
  match (x - inject_Z f ?= 1 # 2)%Q with
  | Lt => f
  | Gt => f + 1
  | Eq => if Z.even f then f else f + 1
  end.

Inductive t :=
| NaN
| Infinity (negative : bool)
| Finite (q : Q).

Definition round (q : Q) : t :=
  if Qeq_bool q 0 then Finite 0
  else
    let e := ilog2 q in
    let ex := Z.max e (-1022) - 52 in
    let m := roundHalfEven (q * pow2 (- ex)) in
    if (1024 <=? e) || ((e =? 1023) && (Z.abs m =? 2 ^ 53))
    then Infinity (Qnum q <? 0)
    else Finite (Qred (inject_Z m * pow2 ex)).

(** A JavaScript number literal or JSON number with the value [q], and
    the number an integer denotes. *)
Definition ofQ (q : Q) : t := round q.
Definition ofZ (n : Z) : t := round (inject_Z n).

(** [a + b] *)
Definition add (a b : t) : t :=
  match a, b with
  | NaN, _ | _, NaN => NaN
  | Infinity s, Infinity s' => if Bool.eqb s s' then Infinity s else NaN
  | Infinity s, Finite _ | Finite _, Infinity s => Infinity s
  | Finite x, Finite y => round (x + y)
  end.

(** [a - b] *)
Definition sub (a b : t) : t :=
  match a, b with
  | NaN, _ | _, NaN => NaN
  | Infinity s, Infinity s' => if Bool.eqb s s' then NaN else Infinity s
  | Infinity s, Finite _ => Infinity s
  | Finite _, Infinity s => Infinity (negb s)
  | Finite x, Finite y => round (x - y)
  end.

(** [a * b] *)
Definition mul (a b : t) : t :=
  match a, b with
  | NaN, _ | _, NaN => NaN
  | Infinity s, Infinity s' => Infinity (xorb s s')
  | Infinity s, Finite y | Finite y, Infinity s =>
      if Qeq_bool y 0 then NaN else Infinity (xorb s (Qnum y <? 0))
  | Finite x, Finite y => round (x * y)
  end.

(** [a / b] *)
Definition div (a b : t) : t :=
  match a, b with
  | NaN, _ | _, NaN => NaN
  | Infinity _, Infinity _ => NaN
  | Infinity s, Finite y => Infinity (xorb s (Qnum y <? 0))
  | Finite _, Infinity _ => Finite 0
  | Finite x, Finite y =>
      if Qeq_bool y 0
      then (if Qeq_bool x 0 then NaN else Infinity (Qnum x <? 0))
      else round (x / y)
  end.

(** [a === b] *)
Definition eqb (a b : t) : bool :=
  match a, b with
  | Finite x, Finite y => Qeq_bool x y
  | Infinity s, Infinity s' => Bool.eqb s s'
  | _, _ => false
  end.

(** [a <= b] and [a < b]; a comparison with [NaN] is false. *)
Definition leb (a b : t) : bool :=
  match a, b with
  | NaN, _ | _, NaN => false
  | Infinity s, Infinity s' => s || negb s'
  | Infinity s, Finite _ => s
  | Finite _, Infinity s => negb s
  | Finite x, Finite y => Qle_bool x y
  end.

Definition ltb (a b : t) : bool := leb a b && negb (eqb a b).

(** [a >= b] and [a > b] *)
Definition geb (a b : t) : bool := leb b a.
Definition gtb (a b : t) : bool := ltb b a.

(** [Math.max(a, b)] and [Math.min(a, b)] *)
Definition Math_max (a b : t) : t :=
  match a, b with
  | NaN, _ | _, NaN => NaN
  | _, _ => if leb a b then b else a
  end.

Definition Math_min (a b : t) : t :=
  match a, b with
  | NaN, _ | _, NaN => NaN
  | _, _ => if leb a b then a else b
  end.

(** [Math.round(a)]: the nearest integer, a tie going up. *)
Definition Math_round (a : t) : t :=
  match a with
  | Finite q => Finite (inject_Z (Math_round q))
  | _ => a
  end.

(** [a || 0] *)
Definition orZero (a : t) : t :=
  match a with
  | NaN => Finite 0
  | _ => a
  end.

End Number.

(** ** JavaScript arrays: [Array.prototype.sort] *)

(** [Array.prototype.sort] is stable.  [after x y] says that the comparator
    is positive on [(x, y)], so that [x] has to come after [y].  An element
    moves to the right only past the elements it has to come after. *)
Section ArraySort.
Context {A : Type} (after : A -> A -> bool).

Fixpoint insertSorted (x : A) (l : list A) : list A :=
  match l with
  | [] => [x]
  | y :: l' => if after x y then y :: insertSorted x l' else x :: l
  end.

Definition Array_sort (l : list A) : list A := foldr insertSorted [] l.

(** The order the comparator asks for: [x] may precede [y]. *)
Definition mayPrecede (x y : A) : Prop := after x y = false.
End ArraySort.

(** The default comparator of [sort()] on strings: code unit order. *)
Definition stringAfter (x y : string) : bool := negb (String.leb x y).

(** ** JavaScript objects used as dictionaries *)

Module JsObject.

(** A decimal digit. *)
Definition digit (c : ascii) : option N :=
  let n := N_of_ascii c in
  if ((48 <=? n) && (n <=? 57))%N then Some (n - 48)%N else None.

Fixpoint digits (s : string) (acc : N) : option N :=
  match s with
  | EmptyString => Some acc
  | String c s' =>
      match digit c with
      | Some d => digits s' (10 * acc + d)%N
      | None => None
      end
  end.

(** A property key is an array index when it is the canonical decimal
    form of an integer below 2^32 - 1. *)
Definition arrayIndex (k : string) : option N :=
  match k with
  | EmptyString => None
  | String c s' =>
      if (Ascii.eqb c "0" && negb (String.eqb s' ""))%bool then None
      else
        match digits k 0 with
        | Some n => if (n <? 4294967295)%N then Some n else None
        | None => None
        end
  end.

Definition isArrayIndex (k : string) : bool :=
  match arrayIndex k with Some _ => true | None => false end.

Definition indexOf (k : string) : N :=
  match arrayIndex k with Some n => n | None => 0%N end.

Section Obj.
Context {V : Type}.

(** The own properties, in creation order. *)
Definition t := list (string * V).

Definition empty : t := [].

(** [o[k]] *)
Fixpoint get (k : string) (o : t) : option V :=
  match o with
  | [] => None
  | (k', v) :: o' => if String.eqb k k' then Some v else get k o'
  end.

(** [o[k] = v]: an existing property keeps its place, a new one is
    created last. *)
Fixpoint set (k : string) (v : V) (o : t) : t :=
  match o with
  | [] => [(k, v)]
  | (k', v') :: o' =>
      if String.eqb k k' then (k, v) :: o' else (k', v') :: set k v o'
  end.

(** [Object.entries(o)]: array-index keys in ascending numeric order,
    then the other keys in creation order. *)
Definition entries (o : t) : list (string * V) :=
  Array_sort (fun x y => (indexOf (fst y) <? indexOf (fst x))%N)
    (List.filter (fun kv => isArrayIndex (fst kv)) o)
  ++ List.filter (fun kv => negb (isArrayIndex (fst kv))) o.

(** [Object.keys(o)] *)
Definition keys (o : t) : list string := map fst (entries o).
End Obj.

Arguments t : clear implicits.
End JsObject.

(** ** JavaScript dates *)

Module JsDate.

Definition msPerDay : Z := 86400000.

(** Day number (days since 1970-01-01) of a proleptic Gregorian date,
    [m] in 1..12. *)
Definition daysFromCivil (y m d : Z) : Z :=
  let y' := if m <=? 2 then y - 1 else y in
  let era := y' / 400 in
  let yoe := y' - era * 400 in
  let doy := (153 * (if m >? 2 then m - 3 else m + 9) + 2) / 5 + d - 1 in
  let doe := yoe * 365 + yoe / 4 - yoe / 100 + doy in
  era * 146097 + doe - 719468.

(** Year, month (1..12) and day of the month of a day number. *)
Definition civilFromDays (z : Z) : Z * Z * Z :=
  let z := z + 719468 in
  let era := z / 146097 in
  let doe := z - era * 146097 in
  let yoe := (doe - doe / 1460 + doe / 36524 - doe / 146096) / 365 in
  let y := yoe + era * 400 in
  let doy := doe - (365 * yoe + yoe / 4 - yoe / 100) in
  let mp := (5 * doy + 2) / 153 in
  let d := doy - (153 * mp + 2) / 5 + 1 in
  let m := if mp <? 10 then mp + 3 else mp - 9 in
  (if m <=? 2 then y + 1 else y, m, d).

(** [MakeDay]: the month is 0-based and may lie outside 0..11, the date
    may lie outside the month. *)
Definition MakeDay (year month date : Z) : Z :=
  let ym := year + month / 12 in
  let mn := month mod 12 in
  daysFromCivil ym (mn + 1) 1 + date - 1.

Definition MakeTime (hour min sec ms : Z) : Z :=
  hour * 3600000 + min * 60000 + sec * 1000 + ms.

Definition MakeDate (day time : Z) : Z := day * msPerDay + time.

(** Decimal digits of [n], least significant last, on [width] places. *)
Fixpoint pad (width : nat) (n : Z) : string :=
  match width with
  | O => EmptyString
  | S w =>
      (pad w (n / 10) ++ String (ascii_of_N (Z.to_N (48 + n mod 10))) "")%string
  end.

(** [Date.prototype.toISOString] of a time value in milliseconds. *)
Definition toISOString (t : Z) : string :=
  let '(y, m, d) := civilFromDays (t / msPerDay) in
  let tod := t mod msPerDay in
  let year :=
    if ((0 <=? y) && (y <=? 9999))%Z then pad 4 y
    else ((if (y <? 0)%Z then "-" else "+") ++ pad 6 (Z.abs y))%string in
  (year ++ "-" ++ pad 2 m ++ "-" ++ pad 2 d ++ "T"
     ++ pad 2 (tod / 3600000) ++ ":" ++ pad 2 (tod / 60000 mod 60) ++ ":"
     ++ pad 2 (tod / 1000 mod 60) ++ "." ++ pad 3 (tod mod 1000) ++ "Z")%string.

(** The calendar functions of the host read local time.  The offset of
    local time from UTC is a constant of the host ([LocalTZA], in
    milliseconds); a change of offset during the year is not modelled. *)
Section Local.
Variable LocalTZA : Z.

Definition LocalTime (t : Z) : Z := t + LocalTZA.
Definition UTC (t : Z) : Z := t - LocalTZA.

Definition getFullYear (t : Z) : Z :=
  fst (fst (civilFromDays (LocalTime t / msPerDay))).

Definition getMonth (t : Z) : Z :=
  snd (fst (civilFromDays (LocalTime t / msPerDay))) - 1.

(** [new Date(year, month, date, hours, minutes, seconds)]; a year in
    0..99 stands for 1900 + year. *)
Definition newDate (year month date hours minutes seconds : Z) : Z :=
  let yr := if ((0 <=? year) && (year <=? 99))%Z then 1900 + year else year in
  UTC (MakeDate (MakeDay yr month date) (MakeTime hours minutes seconds 0)).
End Local.
End JsDate.

(** ** Data model (models/Transaction.ts) *)

(** ['income' | 'expense']: the declared type of the field, which
    [createTransaction] enforces; a stored transaction has no other type, so
    the [else] branches of the grouping code see expenses only. *)
Inductive TransactionType := Income | Expense.

Definition TransactionType_eqb (a b : TransactionType) : bool :=
  match a, b with
  | Income, Income | Expense, Expense => true
  | _, _ => false
  end.

(** A stored transaction.  [category] is always present:
    [createTransaction] assigns a default. *)
Record Transaction := {
  transactionId : string;
  userId : string;
  amount : Z;
  description : string;
  category : string;
  type : TransactionType;
  date : string;
  createdAt : string;
  updatedAt : string
}.

(** The [summary] object of the period and analytics responses. *)
Module Summary.
Record t := {
  totalIncome : Z;
  totalExpenses : Z;
  netAmount : Z;
  transactionCount : Z
}.
End Summary.

(** [transactions.filter(t => t.type === ty).reduce((sum, t) => sum + t.amount, 0)] *)
Definition sumOfType (ty : TransactionType) (transactions : list Transaction) : Z :=
  fold_left (fun sum t => sum + amount t)
    (List.filter (fun t => TransactionType_eqb (type t) ty) transactions) 0.

(** ** Analytics controller *)

Module DayData.
Record t := {
  income : Z;
  expense : Z;
  transactions : list Transaction
}.
End DayData.

Module ChartPoint.
Record t := {
  date : string;
  income : Z;
  expense : Z;
  net : Z;
  cumulativeBalance : Z
}.
End ChartPoint.

Module Slice.
Record t := {
  category : string;
  amount : Z;
  percentage : Z
}.
End Slice.

Module CategoryBreakdown.
Record t := {
  income : list Slice.t;
  expense : list Slice.t
}.
End CategoryBreakdown.

Module Analytics.

(** [s.split('T')[0]] *)
Fixpoint splitT0 (s : string) : string :=
  match s with
  | EmptyString => EmptyString
  | String c s' => if Ascii.eqb c "T" then EmptyString else String c (splitT0 s')
  end.

(** The body of the [forEach] of [groupTransactionsByDate].  The day's
    record is created with zero sums when the day is met first, and is
    updated in place afterwards. *)
Definition groupStep (grouped : JsObject.t DayData.t) (transaction : Transaction)
  : JsObject.t DayData.t :=
  let date := splitT0 (date transaction) in
  let dayData :=
    match JsObject.get date grouped with
    | Some d => d
    | None => {| DayData.income := 0; DayData.expense := 0; DayData.transactions := [] |}
    end in
  let dayData :=
    match type transaction with
    | Income =>
        {| DayData.income := DayData.income dayData + amount transaction;
           DayData.expense := DayData.expense dayData;
           DayData.transactions := DayData.transactions dayData |}
    | Expense =>
        {| DayData.income := DayData.income dayData;
           DayData.expense := DayData.expense dayData + amount transaction;
           DayData.transactions := DayData.transactions dayData |}
    end in
  JsObject.set date
    {| DayData.income := DayData.income dayData;
       DayData.expense := DayData.expense dayData;
       DayData.transactions := DayData.transactions dayData ++ [transaction] |}
    grouped.

Definition groupTransactionsByDate (transactions : list Transaction)
  : JsObject.t DayData.t :=
  fold_left groupStep transactions JsObject.empty.

(** The [map] of [generateChartData] over the sorted day keys, with the
    running [cumulativeBalance].  [None] is the [TypeError] of reading a
    day that the object does not have. *)
Fixpoint chartPoints (groupedData : JsObject.t DayData.t) (sortedDates : list string)
    (cumulativeBalance : Z) : option (list ChartPoint.t) :=
  match sortedDates with
  | [] => Some []
  | date :: rest =>
      match JsObject.get date groupedData with
      | None => None
      | Some dayData =>
          let net := DayData.income dayData - DayData.expense dayData in
          let cumulativeBalance := cumulativeBalance + net in
          match chartPoints groupedData rest cumulativeBalance with
          | None => None
          | Some points =>
              Some ({| ChartPoint.date := date;
                       ChartPoint.income := DayData.income dayData;
                       ChartPoint.expense := DayData.expense dayData;
                       ChartPoint.net := net;
                       ChartPoint.cumulativeBalance := cumulativeBalance |} :: points)
          end
      end
  end.

Definition generateChartData (groupedData : JsObject.t DayData.t) (startingBalance : Z)
  : option (list ChartPoint.t) :=
  let sortedDates := Array_sort stringAfter (JsObject.keys groupedData) in
  chartPoints groupedData sortedDates startingBalance.

(** The state of the [forEach] of [calculateCategoryBreakdown]. *)
Record Categories := {
  incomeCategories : JsObject.t Z;
  expenseCategories : JsObject.t Z;
  totalIncome : Z;
  totalExpenses : Z
}.

(** [(categories[c] || 0) + amount] *)
Definition addTo (categories : JsObject.t Z) (c : string) (amount : Z) : JsObject.t Z :=
  let old := match JsObject.get c categories with Some n => n | None => 0 end in
  JsObject.set c (old + amount) categories.

Definition categoryStep (acc : Categories) (transaction : Transaction) : Categories :=
  match type transaction with
  | Income =>
      {| incomeCategories :=
           addTo (incomeCategories acc) (category transaction) (amount transaction);
         expenseCategories := expenseCategories acc;
         totalIncome := totalIncome acc + amount transaction;
         totalExpenses := totalExpenses acc |}
  | Expense =>
      {| incomeCategories := incomeCategories acc;
         expenseCategories :=
           addTo (expenseCategories acc) (category transaction) (amount transaction);
         totalIncome := totalIncome acc;
         totalExpenses := totalExpenses acc + amount transaction |}
  end.

Definition collectCategories (transactions : list Transaction) : Categories :=
  fold_left categoryStep transactions
    {| incomeCategories := JsObject.empty; expenseCategories := JsObject.empty;
       totalIncome := 0; totalExpenses := 0 |}.

(** The comparator [(a, b) => b.amount - a.amount] is positive when [b]
    has the larger amount. *)
Definition sliceAfter (a b : Slice.t) : bool := Slice.amount b - Slice.amount a >? 0.

Definition toSlice (total : Z) (entry : string * Z) : Slice.t :=
  let '(category, amount) := entry in
  {| Slice.category := category;
     Slice.amount := amount;
     Slice.percentage :=
       if total >? 0 then Math_round ((inject_Z amount / inject_Z total) * 100)%Q
       else 0 |}.

Definition formatCategories (categories : JsObject.t Z) (total : Z) : list Slice.t :=
  Array_sort sliceAfter (map (toSlice total) (JsObject.entries categories)).

Definition calculateCategoryBreakdown (transactions : list Transaction)
  : CategoryBreakdown.t :=
  let acc := collectCategories transactions in
  {| CategoryBreakdown.income := formatCategories (incomeCategories acc) (totalIncome acc);
     CategoryBreakdown.expense := formatCategories (expenseCategories acc) (totalExpenses acc) |}.

(** [validPeriods.includes(period)] *)
Definition validPeriods : list string := ["7d"; "30d"; "90d"; "1y"]%string.

Definition includes (l : list string) (s : string) : bool :=
  existsb (String.eqb s) l.

(** The [switch] on the period token: the length of the window in days. *)
Definition periodDays (period : string) : Z :=
  if String.eqb period "7d" then 7
  else if String.eqb period "30d" then 30
  else if String.eqb period "90d" then 90
  else if String.eqb period "1y" then 365
  else 30.

(** [getDateRanges], at the time value [now] of the clock. *)
Definition getDateRanges (now : Z) (period : string) : string * string :=
  let startDate := now - periodDays period * 24 * 60 * 60 * 1000 in
  (JsDate.toISOString startDate, JsDate.toISOString now).

(** The summary computed by [getAnalytics]. *)
Definition summarize (transactions : list Transaction) : Summary.t :=
  let totalIncome := sumOfType Income transactions in
  let totalExpenses := sumOfType Expense transactions in
  let netAmount := totalIncome - totalExpenses in
  {| Summary.totalIncome := totalIncome;
     Summary.totalExpenses := totalExpenses;
     Summary.netAmount := netAmount;
     Summary.transactionCount := Z.of_nat (List.length transactions) |}.

End Analytics.

(** ** Dashboard controller: scores, changes and month ranges *)

Module Metric.
Record t := {
  value : Z;
  percentageChange : Z;
  trend : string
}.
End Metric.

Module DashboardData.
Record t := {
  monthlyIncome : Metric.t;
  monthlyExpense : Metric.t;
  currentBalance : Metric.t;
  healthScore : Metric.t
}.
End DashboardData.

(** A [{start, end}] pair of ISO 8601 strings. *)
Module Range.
Record t := {
  start : string;
  finish : string
}.

(** [d BETWEEN start AND end] of the storage filter: both ends inclusive,
    strings compared code unit by code unit. *)
Definition between (d : string) (r : t) : bool :=
  String.leb (start r) d && String.leb d (finish r).
End Range.

Module MonthRanges.
Record t := {
  current : Range.t;
  previous : Range.t
}.
End MonthRanges.

Module Dashboard.

(** [calculateHealthScore] *)
Definition calculateHealthScore (income expenses : Z) : Z :=
  if income =? 0 then (if expenses =? 0 then 100 else 0)
  else
    let ratio := (inject_Z (income - expenses) / inject_Z income)%Q in
    Z.max 0 (Z.min 100 (Math_round ((ratio + 1) * 50)%Q)).

(** [calculatePercentageChange] *)
Definition calculatePercentageChange (current previous : Z) : Z :=
  if previous =? 0 then (if current >? 0 then 100 else 0)
  else
    Math_round ((inject_Z (current - previous) / inject_Z previous) * 100)%Q.

(** The four [Date] values of [getMonthRanges], as time values. *)
Record MonthDates := {
  currentMonthStart : Z;
  currentMonthEnd : Z;
  prevMonthStart : Z;
  prevMonthEnd : Z
}.

Section Host.
Variable LocalTZA : Z.

Definition monthDates (now : Z) : MonthDates :=
  let year := JsDate.getFullYear LocalTZA now in
  let month := JsDate.getMonth LocalTZA now in
  {| currentMonthStart := JsDate.newDate LocalTZA year month 1 0 0 0;
     currentMonthEnd := JsDate.newDate LocalTZA year (month + 1) 0 23 59 59;
     prevMonthStart := JsDate.newDate LocalTZA year (month - 1) 1 0 0 0;
     prevMonthEnd := JsDate.newDate LocalTZA year month 0 23 59 59 |}.

(** [getMonthRanges], at the time value [now] of the clock. *)
Definition getMonthRanges (now : Z) : MonthRanges.t :=
  let d := monthDates now in
  {| MonthRanges.current :=
       {| Range.start := JsDate.toISOString (currentMonthStart d);
          Range.finish := JsDate.toISOString (currentMonthEnd d) |};
     MonthRanges.previous :=
       {| Range.start := JsDate.toISOString (prevMonthStart d);
          Range.finish := JsDate.toISOString (prevMonthEnd d) |} |}.
End Host.

(** [change >= 0 ? 'up' : 'down'] *)
Definition trendOf (change : Z) : string :=
  if change >=? 0 then "up"%string else "down"%string.

(** The [dashboard] object [getDashboard] answers with, from the stored
    balance and the transactions of the two months. *)
Definition dashboardOf (currentBalance : Z)
    (currentTransactions previousTransactions : list Transaction) : DashboardData.t :=
  let currentIncome := sumOfType Income currentTransactions in
  let currentExpenses := sumOfType Expense currentTransactions in
  let previousIncome := sumOfType Income previousTransactions in
  let previousExpenses := sumOfType Expense previousTransactions in
  let currentHealthScore := calculateHealthScore currentIncome currentExpenses in
  let previousHealthScore := calculateHealthScore previousIncome previousExpenses in
  let incomeChange := calculatePercentageChange currentIncome previousIncome in
  let expenseChange := calculatePercentageChange currentExpenses previousExpenses in
  let healthScoreChange :=
    calculatePercentageChange currentHealthScore previousHealthScore in
  let estimatedPreviousBalance := currentBalance - (currentIncome - currentExpenses) in
  let balanceChange :=
    calculatePercentageChange currentBalance estimatedPreviousBalance in
  {| DashboardData.monthlyIncome :=
       {| Metric.value := currentIncome;
          Metric.percentageChange := incomeChange;
          Metric.trend := trendOf incomeChange |};
     DashboardData.monthlyExpense :=
       {| Metric.value := currentExpenses;
          Metric.percentageChange := expenseChange;
          Metric.trend := trendOf expenseChange |};
     DashboardData.currentBalance :=
       {| Metric.value := currentBalance;
          Metric.percentageChange := balanceChange;
          Metric.trend := trendOf balanceChange |};
     DashboardData.healthScore :=
       {| Metric.value := currentHealthScore;
          Metric.percentageChange := healthScoreChange;
          Metric.trend := trendOf healthScoreChange |} |}.

End Dashboard.

(** ** Requests, responses and the store *)

(** The values a JSON body field can hold, as far as the handlers tell
    them apart. *)
Inductive JsValue :=
| JsUndefined
| JsNull
| JsBoolean (b : bool)
| JsNumber (n : Z)
| JsNaN
| JsString (s : string)
| JsOther.

(** [!!v] *)
Definition truthy (v : JsValue) : bool :=
  match v with
  | JsUndefined | JsNull | JsNaN => false
  | JsBoolean b => b
  | JsNumber n => negb (n =? 0)
  | JsString s => negb (String.eqb s "")
  | JsOther => true
  end.

(** [typeof v === 'number'] *)
Definition typeofNumber (v : JsValue) : bool :=
  match v with JsNumber _ | JsNaN => true | _ => false end.

(** [typeof v === 'string'] *)
Definition typeofString (v : JsValue) : bool :=
  match v with JsString _ => true | _ => false end.

(** [isNaN(v)], read on numbers only. *)
Definition isNaN (v : JsValue) : bool :=
  match v with JsNaN => true | _ => false end.

(** [v <= 0], read on numbers only; a comparison with [NaN] is false. *)
Definition leZero (v : JsValue) : bool :=
  match v with JsNumber n => n <=? 0 | _ => false end.

Definition numberOf (v : JsValue) : Z :=
  match v with JsNumber n => n | _ => 0 end.

Definition stringOf (v : JsValue) : string :=
  match v with JsString s => s | _ => EmptyString end.

(** [list.includes(v)] for a list of strings. *)
Definition includesValue (l : list string) (v : JsValue) : bool :=
  match v with JsString s => Analytics.includes l s | _ => false end.

Module Request.
(** [user] is the identifier the authentication layer left in [req.user],
    [period] is [req.params.period]; the other fields are those of
    [req.body].  [category], [date] and [tags] are not inspected by the
    handlers and have their declared types when present. *)
Record t := {
  user : option string;
  period : option string;
  type : JsValue;
  amount : JsValue;
  description : JsValue;
  category : option string;
  date : option string;
  tags : option (list string)
}.
End Request.

Inductive Body :=
| ErrorBody (error : string)
| CreatedBody (message : string) (transaction : Transaction) (currentBalance : Z)
| PeriodBody (period : string) (dateRange : string * string) (summary : Summary.t)
    (transactions : list Transaction) (count : Z)
| AnalyticsBody (period : string) (dateRange : string * string) (summary : Summary.t)
    (chartData : list ChartPoint.t) (categoryBreakdown : CategoryBreakdown.t)
| DashboardBody (dashboard : DashboardData.t) (period : MonthRanges.t).

Record Response := {
  status : Z;
  body : Body
}.

Definition badRequest (error : string) : Response :=
  {| status := 400; body := ErrorBody error |}.

Module User.
(** The attributes of a user item that the handlers read or write. *)
Record t := {
  startingBalance : option Z;
  updatedAt : string
}.
End User.

(** The commands sent to the store. *)
Inductive Command :=
| GetUser (userId : string)
| QueryTransactions (userId : string) (startDate : string) (endDate : option string)
| PutTransaction (item : Transaction)
| AddBalance (userId : string) (balanceChange : Z) (updatedAt : string)
| SetBalance (userId : string) (balanceChange : Z) (updatedAt : string).

(** The two tables and the commands received so far. *)
Record Store := {
  TRANSACTIONS : gmap string Transaction;
  USERS : gmap string User.t;
  sent : list Command
}.

Definition record (c : Command) (s : Store) : Store :=
  {| TRANSACTIONS := TRANSACTIONS s; USERS := USERS s; sent := sent s ++ [c] |}.

(** [GetCommand] on the users table. *)
Definition getUser (userId : string) (s : Store) : option User.t * Store :=
  (USERS s !! userId, record (GetUser userId) s).

(** [userResult.Item?.startingBalance || 0] *)
Definition balanceOf (item : option User.t) : Z :=
  match item with
  | Some u => match User.startingBalance u with Some b => b | None => 0 end
  | None => 0
  end.

(** [QueryCommand] on the user index with a filter on the date: from
    [startDate] on, and up to [endDate] when the filter is a [BETWEEN].  The
    order in which the index lists the items is that of the table. *)
Definition queryTransactions (user startDate : string) (endDate : option string)
    (s : Store) : list Transaction * Store :=
  (List.filter
     (fun t =>
        String.eqb (userId t) user && String.leb startDate (date t)
        && match endDate with Some e => String.leb (date t) e | None => true end)
     (map snd (map_to_list (TRANSACTIONS s))),
   record (QueryTransactions user startDate endDate) s).

(** [PutCommand] on the transactions table. *)
Definition putTransaction (item : Transaction) (s : Store) : Store :=
  record (PutTransaction item)
    {| TRANSACTIONS := <[transactionId item := item]> (TRANSACTIONS s);
       USERS := USERS s; sent := sent s |}.

(** [ADD startingBalance :balanceChange SET updatedAt = :updatedAt] under
    the condition [attribute_exists(userId)]; the answer is [false], and
    nothing is written, when the condition fails. *)
Definition addBalance (user : string) (balanceChange : Z) (now : string) (s : Store)
  : bool * Store :=
  match USERS s !! user with
  | Some u =>
      let b := match User.startingBalance u with Some b => b | None => 0 end in
      (true,
       record (AddBalance user balanceChange now)
         {| TRANSACTIONS := TRANSACTIONS s;
            USERS := <[user := {| User.startingBalance := Some (b + balanceChange);
                                  User.updatedAt := now |}]> (USERS s);
            sent := sent s |})
  | None => (false, record (AddBalance user balanceChange now) s)
  end.

(** [SET startingBalance = if_not_exists(startingBalance, :zero) + :balanceChange,
    updatedAt = :updatedAt], which creates the item when there is none. *)
Definition setBalance (user : string) (balanceChange : Z) (now : string) (s : Store)
  : Store :=
  let b := balanceOf (USERS s !! user) in
  record (SetBalance user balanceChange now)
    {| TRANSACTIONS := TRANSACTIONS s;
       USERS := <[user := {| User.startingBalance := Some (b + balanceChange);
                             User.updatedAt := now |}]> (USERS s);
       sent := sent s |}.

(** ** Transaction controller *)

Module TransactionController.

(** [categorizeTransaction] *)
Definition categorizeTransaction (description : string) (amount : Z) (type : string)
  : string :=
  if String.eqb type "income" then "General Income"%string
  else if String.eqb type "expense" then "General Expense"%string
  else "Uncategorized"%string.

(** [type as 'income' | 'expense'] *)
Definition asType (type : string) : TransactionType :=
  if String.eqb type "income" then Income else Expense.

(** [!userId] for [req.user?.sub]. *)
Definition missing (userId : option string) : bool :=
  match userId with
  | Some u => String.eqb u ""
  | None => true
  end.

Definition userOf (userId : option string) : string :=
  match userId with Some u => u | None => EmptyString end.

(** [a || b] on an optional string. *)
Definition orElse (a : option string) (b : string) : string :=
  match a with
  | Some x => if String.eqb x "" then b else x
  | None => b
  end.

(** [createTransaction]; [uuid] is the answer of [randomUUID()] and
    [clock] the time value of [new Date()]. *)
Definition createTransaction (uuid : string) (clock : Z) (req : Request.t) (s : Store)
  : Response * Store :=
  let userId := Request.user req in
  if missing userId then (badRequest "User ID not found in token", s)
  else if negb (truthy (Request.type req))
          || negb (includesValue ["income"; "expense"]%string (Request.type req))
  then (badRequest "Invalid or missing transaction type", s)
  else if negb (typeofNumber (Request.amount req)) || isNaN (Request.amount req)
          || leZero (Request.amount req)
  then (badRequest "Amount must be a positive number", s)
  else if negb (truthy (Request.description req))
          || negb (typeofString (Request.description req))
  then (badRequest "Description is required", s)
  else
    let userId := userOf userId in
    let type := stringOf (Request.type req) in
    let amount := numberOf (Request.amount req) in
    let description := stringOf (Request.description req) in
    let now := JsDate.toISOString clock in
    let finalCategory :=
      orElse (Request.category req) (categorizeTransaction description amount type) in
    let transaction :=
      {| transactionId := uuid;
         userId := userId;
         amount := amount;
         description := description;
         category := finalCategory;
         type := asType type;
         date := orElse (Request.date req) now;
         createdAt := now;
         updatedAt := now |} in
    let s := putTransaction transaction s in
    let balanceChange := if String.eqb type "income" then amount else - amount in
    let s :=
      match addBalance userId balanceChange now s with
      | (true, s') => s'
      | (false, s') => setBalance userId balanceChange now s'
      end in
    let '(userResult, s) := getUser userId s in
    let currentBalance := balanceOf userResult in
    ({| status := 201;
        body := CreatedBody "Transaction added successfully" transaction currentBalance |},
     s).

(** [validPeriods.includes(period)] for [req.params.period]. *)
Definition includesParam (l : list string) (period : option string) : bool :=
  match period with
  | Some p => Analytics.includes l p
  | None => false
  end.

(** [getTransactionsByPeriod]; [clock] is the time value of [new Date()]. *)
Definition getTransactionsByPeriod (clock : Z) (req : Request.t) (s : Store)
  : Response * Store :=
  let userId := Request.user req in
  if missing userId then (badRequest "User ID not found in token", s)
  else
    let validPeriods := ["7d"; "30d"; "90d"; "1y"]%string in
    if negb (includesParam validPeriods (Request.period req))
    then (badRequest "Invalid period. Use: 7d, 30d, 90d, or 1y", s)
    else
      let period := userOf (Request.period req) in
      let now := clock in
      let startDate := now - Analytics.periodDays period * 24 * 60 * 60 * 1000 in
      let '(transactions, s) :=
        queryTransactions (userOf userId) (JsDate.toISOString startDate) None s in
      let income := sumOfType Income transactions in
      let expenses := sumOfType Expense transactions in
      ({| status := 200;
          body :=
            PeriodBody period (JsDate.toISOString startDate, JsDate.toISOString now)
              {| Summary.totalIncome := income;
                 Summary.totalExpenses := expenses;
                 Summary.netAmount := income - expenses;
                 Summary.transactionCount := Z.of_nat (List.length transactions) |}
              transactions (Z.of_nat (List.length transactions)) |},
       s).

End TransactionController.

(** ** Analytics and dashboard handlers *)

Module AnalyticsController.

(** [getAnalytics]; [clock] is the time value of [new Date()].  The
    period defaults to ['30d'] when the route has none. *)
Definition getAnalytics (clock : Z) (req : Request.t) (s : Store) : Response * Store :=
  let userId := Request.user req in
  let period := match Request.period req with Some p => p | None => "30d"%string end in
  if TransactionController.missing userId
  then (badRequest "User ID not found in token", s)
  else if negb (Analytics.includes Analytics.validPeriods period)
  then (badRequest "Invalid period. Use: 7d, 30d, 90d, or 1y", s)
  else
    let userId := TransactionController.userOf userId in
    let dateRange := Analytics.getDateRanges clock period in
    let '(userResult, s) := getUser userId s in
    let currentBalance := balanceOf userResult in
    let '(transactions, s) :=
      queryTransactions userId (fst dateRange) (Some (snd dateRange)) s in
    let summary := Analytics.summarize transactions in
    let groupedData := Analytics.groupTransactionsByDate transactions in
    match Analytics.generateChartData groupedData
            (currentBalance - Summary.netAmount summary) with
    | None =>
        ({| status := 500;
            body := ErrorBody "Cannot read properties of undefined (reading 'income')" |},
         s)
    | Some chartData =>
        let categoryBreakdown := Analytics.calculateCategoryBreakdown transactions in
        ({| status := 200;
            body := AnalyticsBody period dateRange summary chartData categoryBreakdown |},
         s)
    end.

End AnalyticsController.

Module DashboardController.
Section Host.
Variable LocalTZA : Z.

(** [getDashboard]; [clock] is the time value of [new Date()]. *)
Definition getDashboard (clock : Z) (req : Request.t) (s : Store) : Response * Store :=
  let userId := Request.user req in
  if TransactionController.missing userId
  then (badRequest "User ID not found in token", s)
  else
    let userId := TransactionController.userOf userId in
    let ranges := Dashboard.getMonthRanges LocalTZA clock in
    let '(userResult, s) := getUser userId s in
    let currentBalance := balanceOf userResult in
    let '(currentTransactions, s) :=
      queryTransactions userId (Range.start (MonthRanges.current ranges))
        (Some (Range.finish (MonthRanges.current ranges))) s in
    let '(previousTransactions, s) :=
      queryTransactions userId (Range.start (MonthRanges.previous ranges))
        (Some (Range.finish (MonthRanges.previous ranges))) s in
    ({| status := 200;
        body :=
          DashboardBody
            (Dashboard.dashboardOf currentBalance currentTransactions
               previousTransactions)
            ranges |},
     s).
End Host.
End DashboardController.

(** ** The earlier transaction controller, on the document store *)

Module Legacy.

(** [date ? new Date(date) : new Date()] *)
Inductive DateValue :=
| DateOf (text : string)
| DateAt (clock : Z).

Module Doc.
Record t := {
  userId : string;
  type : string;
  amount : Z;
  description : string;
  category : string;
  date : DateValue;
  tags : list string;
  source : string
}.
End Doc.

(** The saved transactions and the [currentBalance] of every user. *)
Record Store := {
  saved : list Doc.t;
  balances : gmap string Z
}.

Inductive Body :=
| ErrorBody (error : string)
| CreatedBody (message : string) (transaction : Doc.t) (currentBalance : Z).

Record Response := {
  status : Z;
  body : Body
}.

Section Schema.
(** The transaction schema is not part of the sources: [validate] is
    the message of the error [save()] raises on a document, if any. *)
Variable validate : Doc.t -> option string.

(** [createTransaction]; [clock] is the time value of [new Date()]. *)
Definition createTransaction (clock : Z) (req : Request.t) (s : Store)
  : Response * Store :=
  if negb (truthy (Request.type req))
     || negb (includesValue ["income"; "expense"]%string (Request.type req))
  then ({| status := 400; body := ErrorBody "Invalid or missing transaction type" |}, s)
  else if negb (typeofNumber (Request.amount req)) || isNaN (Request.amount req)
          || leZero (Request.amount req)
  then ({| status := 400; body := ErrorBody "Amount must be a positive number" |}, s)
  else if negb (truthy (Request.description req))
          || negb (typeofString (Request.description req))
  then ({| status := 400; body := ErrorBody "Description is required" |}, s)
  else
    let type := stringOf (Request.type req) in
    let amount := numberOf (Request.amount req) in
    let description := stringOf (Request.description req) in
    let finalCategory :=
      TransactionController.orElse (Request.category req)
        (TransactionController.categorizeTransaction description amount type) in
    match Request.user req with
    | None =>
        ({| status := 500;
            body := ErrorBody "Cannot read properties of undefined (reading '_id')" |},
         s)
    | Some user =>
        let transaction :=
          {| Doc.userId := user;
             Doc.type := type;
             Doc.amount := amount;
             Doc.description := description;
             Doc.category := finalCategory;
             Doc.date :=
               match Request.date req with
               | Some d => if String.eqb d "" then DateAt clock else DateOf d
               | None => DateAt clock
               end;
             Doc.tags := match Request.tags req with Some l => l | None => [] end;
             Doc.source := "manual" |} in
        match validate transaction with
        | Some error => ({| status := 500; body := ErrorBody error |}, s)
        | None =>
            let s := {| saved := saved s ++ [transaction]; balances := balances s |} in
            let balanceChange := if String.eqb type "income" then amount else - amount in
            match balances s !! user with
            | None => ({| status := 404; body := ErrorBody "User not found" |}, s)
            | Some b =>
                let s :=
                  {| saved := saved s;
                     balances := <[user := b + balanceChange]> (balances s) |} in
                ({| status := 201;
                    body :=
                      CreatedBody "Transaction added successfully" transaction
                        (b + balanceChange) |},
                 s)
            end
        end
    end.
End Schema.
End Legacy.

(** ** The specification's reading of the computations *)

Module Spec.

(** [round(num / den)]: the nearest integer to the quotient, a tie going
    up, in integer arithmetic ([Z.div] rounds down for either sign of
    the divisor). *)
Definition nearestHalfUp (num den : Z) : Z := (2 * num + den) / (2 * den).

(** [r = round(x)]: the integer [r] is nearest to the rational [x], a tie
    going up. *)
Definition rounds (x : Q) (r : Z) : Prop :=
  (inject_Z r - (1 # 2) <= x /\ x < inject_Z r + (1 # 2))%Q.

Definition clamp (x lo hi : Z) : Z := Z.max lo (Z.min hi x).

(** [Σ amount where type = ty] *)
Fixpoint sumWhere (ty : TransactionType) (transactions : list Transaction) : Z :=
  match transactions with
  | [] => 0
  | t :: rest =>
      (if TransactionType_eqb (type t) ty then amount t else 0) + sumWhere ty rest
  end.

(** [Σ sign(type) * amount] *)
Fixpoint signedSum (transactions : list Transaction) : Z :=
  match transactions with
  | [] => 0
  | t :: rest =>
      (match type t with Income => amount t | Expense => - amount t end)
      + signedSum rest
  end.

(** [Σ amount where type = ty and day = day], the day of a transaction
    being the text of its date before the first ['T']. *)
Fixpoint dayTotal (ty : TransactionType) (day : string)
    (transactions : list Transaction) : Z :=
  match transactions with
  | [] => 0
  | t :: rest =>
      (if TransactionType_eqb (type t) ty && String.eqb (Analytics.splitT0 (date t)) day
       then amount t else 0)
      + dayTotal ty day rest
  end.

(** Health score: 100 or 0 without income, else the clamped rounding of
    [(ratio + 1) * 50] with [ratio = (income - expenses) / income], that
    is of [(2 * income - expenses) * 50 / income]. *)
Definition healthScore (income expenses : Z) : Z :=
  if income =? 0 then (if expenses =? 0 then 100 else 0)
  else clamp (nearestHalfUp ((2 * income - expenses) * 50) income) 0 100.

(** Percentage change: 100 or 0 without a baseline, else the rounding of
    [(current - previous) / previous * 100]. *)
Definition percentageChange (current previous : Z) : Z :=
  if previous =? 0 then (if current >? 0 then 100 else 0)
  else nearestHalfUp ((current - previous) * 100) previous.

(** The distinct elements of a list in the order of their first
    occurrence. *)
Fixpoint firstSeen (l : list string) : list string :=
  match l with
  | [] => []
  | x :: l' => x :: List.filter (fun y => negb (String.eqb y x)) (firstSeen l')
  end.


(** [Σ amount where type = ty and category = c] *)
Fixpoint categoryTotal (ty : TransactionType) (c : string)
    (transactions : list Transaction) : Z :=
  match transactions with
  | [] => 0
  | t :: rest =>
      (if TransactionType_eqb (type t) ty && String.eqb (category t) c
       then amount t else 0)
      + categoryTotal ty c rest
  end.




(** An amount that is not a number, is [NaN], or is not positive. *)
Definition badAmount (v : JsValue) : Prop :=
  match v with
  | JsNumber n => n <= 0
  | _ => True
  end.

(** The client error of an unrecognised period token. *)
Definition InvalidPeriod : Response :=
  {| status := 400; body := ErrorBody "Invalid period. Use: 7d, 30d, 90d, or 1y" |}.


End Spec.

(** ** Auxiliary notions of the proofs *)

(** The sum of a list of integers. *)
Definition sumZ (l : list Z) : Z := foldr Z.add 0 l.

(** The net amount of a day. *)
Definition netOf (d : DayData.t) : Z := DayData.income d - DayData.expense d.

(** [sign(type) * amount] *)
Definition signedAmount (t : Transaction) : Z :=
  match type t with Income => amount t | Expense => - amount t end.

(** The sum of one type that a day's record holds, and the one an object of
    days holds for a key. *)
Definition dayValue (ty : TransactionType) (d : DayData.t) : Z :=
  match ty with
  | Income => DayData.income d
  | Expense => DayData.expense d
  end.

Definition dayValueAt (ty : TransactionType) (g : JsObject.t DayData.t) (k : string) : Z :=
  match JsObject.get k g with Some d => dayValue ty d | None => 0 end.

Definition pointValue (ty : TransactionType) (p : ChartPoint.t) : Z :=
  match ty with
  | Income => ChartPoint.income p
  | Expense => ChartPoint.expense p
  end.

(** The net amount an object of days holds for a key. *)
Definition netAt (g : JsObject.t DayData.t) (k : string) : Z :=
  match JsObject.get k g with Some d => netOf d | None => 0 end.

(** The part of [categoryStep] that concerns the object of one type. *)
Definition addOfType (ty : TransactionType) (g : JsObject.t Z) (t : Transaction)
  : JsObject.t Z :=
  if TransactionType_eqb (type t) ty then Analytics.addTo g (category t) (amount t)
  else g.




(** The amount check of [createTransaction]. *)
Definition amountRejected (v : JsValue) : bool :=
  negb (typeofNumber v) || isNaN v || leZero v.

(** A transaction of the given type, category, amount and date, for the
    examples. *)
Definition sample (ty : TransactionType) (c : string) (a : Z) (d : string)
  : Transaction :=
  {| transactionId := EmptyString; userId := "u1"; amount := a;
     description := "sample"; category := c; type := ty; date := d;
     createdAt := d; updatedAt := d |}.

(** A store without items, and a request of user "u1" with a period token
    and an amount, for the examples. *)
Definition emptyStore : Store := {| TRANSACTIONS := ∅; USERS := ∅; sent := [] |}.

Definition sampleRequest (period : option string) (amount : JsValue) : Request.t :=
  {| Request.user := Some "u1"%string;
     Request.period := period;
     Request.type := JsString "expense";
     Request.amount := amount;
     Request.description := JsString "rent";
     Request.category := None;
     Request.date := None;
     Request.tags := None |}.

(** ** Notification service: the expense ratio *)

Module Notification.

(** [calculateExpenseRatio] *)
Definition calculateExpenseRatio (income expenses : Z) : Z :=
  if income =? 0 then (if expenses >? 0 then 100 else 0)
  else Math_round ((inject_Z expenses / inject_Z income) * 100)%Q.

(** [shouldSendAlert] *)
Definition shouldSendAlert (expenseRatio : Z) : bool := expenseRatio >=? 80.

(** [phoneNumber.startsWith('+')] *)
Definition startsWithPlus (phoneNumber : string) : bool :=
  match phoneNumber with
  | String c _ => Ascii.eqb c "+"
  | EmptyString => false
  end.

(** A code unit the pattern [\D] does not match. *)
Definition isDigit (c : ascii) : bool :=
  let n := N_of_ascii c in ((48 <=? n) && (n <=? 57))%N.

(** [phoneNumber.replace(/\D/g, '')] *)
Fixpoint removeNonDigits (phoneNumber : string) : string :=
  match phoneNumber with
  | EmptyString => EmptyString
  | String c rest =>
      if isDigit c then String c (removeNonDigits rest) else removeNonDigits rest
  end.

(** The [formattedPhone] of [subscribeUserToAlerts]. *)
Definition formattedPhone (phoneNumber : string) : string :=
  if startsWithPlus phoneNumber then phoneNumber
  else ("+1" ++ removeNonDigits phoneNumber)%string.

End Notification.

(** ** Insights controller: the financial context *)

Module TopCategory.
Record t := {
  category : string;
  amount : Z
}.
End TopCategory.

Module Financials.
Record t := {
  currentBalance : Z;
  monthlyIncome : Z;
  monthlyExpenses : Z;
  netCashFlow : Z;
  topExpenseCategories : list TopCategory.t;
  transactionCount : Z
}.
End Financials.

Module Insights.

(** The [forEach] of [buildFinancialContext]: the totals of the expense
    categories. *)
Definition categoryTotals (transactions : list Transaction) : JsObject.t Z :=
  fold_left
    (fun categoryTotals t =>
       match type t with
       | Expense => Analytics.addTo categoryTotals (category t) (amount t)
       | Income => categoryTotals
       end)
    transactions JsObject.empty.

(** The comparator [([,a], [,b]) => b - a] is positive when the second
    amount is the larger. *)
Definition entryAfter (x y : string * Z) : bool := snd y - snd x >? 0.

(** [Object.entries(categoryTotals).sort(...).slice(0, 5).map(...)] *)
Definition topCategories (transactions : list Transaction) : list TopCategory.t :=
  map (fun entry : string * Z =>
         let '(category, amount) := entry in
         {| TopCategory.category := category; TopCategory.amount := amount |})
    (firstn 5 (Array_sort entryAfter (JsObject.entries (categoryTotals transactions)))).

(** The [financials] object of [buildFinancialContext], from the stored
    balance ([user.startingBalance || 0]) and the transactions of the last
    90 days. *)
Definition financials (currentBalance : Z) (transactions : list Transaction)
  : Financials.t :=
  let totalIncome := sumOfType Income transactions in
  let totalExpenses := sumOfType Expense transactions in
  {| Financials.currentBalance := currentBalance;
     Financials.monthlyIncome := Math_round (inject_Z totalIncome / 3)%Q;
     Financials.monthlyExpenses := Math_round (inject_Z totalExpenses / 3)%Q;
     Financials.netCashFlow := Math_round (inject_Z (totalIncome - totalExpenses) / 3)%Q;
     Financials.topExpenseCategories := topCategories transactions;
     Financials.transactionCount := Z.of_nat (List.length transactions) |}.

End Insights.

(** ** Transaction controller: listing and deleting *)

Module Ledger.

(** The bodies of the answers of [getTransactions] and
    [deleteTransaction]. *)
Inductive Body :=
| ErrorBody (error : string)
| ListBody (transactions : list Transaction) (count : Z)
| DeletedBody (message : string) (transactionId : string) (currentBalance : Z).

Record Response := {
  status : Z;
  body : Body
}.

(** [GetCommand] and [DeleteCommand] on the transactions table.  The
    record of sent commands lists the kinds of command of the handlers
    above; the reading and the deletion of a single transaction are applied
    to the table without an entry in it. *)
Definition getTransaction (id : string) (s : Store) : option Transaction :=
  TRANSACTIONS s !! id.

Definition deleteItem (id : string) (s : Store) : Store :=
  {| TRANSACTIONS := delete id (TRANSACTIONS s); USERS := USERS s; sent := sent s |}.

(** [QueryCommand] on the user index without a filter. *)
Definition queryUser (user : string) (s : Store) : list Transaction :=
  List.filter (fun t => String.eqb (userId t) user)
    (map snd (map_to_list (TRANSACTIONS s))).

(** [getTransactions]; [user] is [req.user?.sub]. *)
Definition getTransactions (user : option string) (s : Store) : Response * Store :=
  if TransactionController.missing user
  then ({| status := 400; body := ErrorBody "User ID not found in token" |}, s)
  else
    let items := queryUser (TransactionController.userOf user) s in
    ({| status := 200; body := ListBody items (Z.of_nat (List.length items)) |}, s).

(** [deleteTransaction]; [user] is [req.user?.sub], [id] is
    [req.params.id] and [clock] the time value of [new Date()].  The update
    of the balance is conditional on the user item and is not guarded: when
    the condition fails the handler answers 500 with the message of the
    store. *)
Definition deleteTransaction (clock : Z) (user id : option string) (s : Store)
  : Response * Store :=
  if TransactionController.missing user
  then ({| status := 400; body := ErrorBody "User ID not found in token" |}, s)
  else if TransactionController.missing id
  then ({| status := 400; body := ErrorBody "Transaction ID is required" |}, s)
  else
    let userId' := TransactionController.userOf user in
    let id := TransactionController.userOf id in
    match getTransaction id s with
    | None => ({| status := 404; body := ErrorBody "Transaction not found" |}, s)
    | Some transaction =>
        if negb (String.eqb (userId transaction) userId')
        then ({| status := 403;
                 body := ErrorBody "Not authorized to delete this transaction" |}, s)
        else
          let now := JsDate.toISOString clock in
          let s := deleteItem id s in
          let balanceChange :=
            match type transaction with
            | Income => - amount transaction
            | Expense => amount transaction
            end in
          match addBalance userId' balanceChange now s with
          | (false, s') =>
              ({| status := 500; body := ErrorBody "The conditional request failed" |}, s')
          | (true, s') =>
              let '(userResult, s') := getUser userId' s' in
              ({| status := 200;
                  body := DeletedBody "Transaction deleted successfully" id
                            (balanceOf userResult) |},
               s')
          end
    end.

End Ledger.

(** ** File upload controller *)

Module FileUpload.

(** ['pending' | 'uploaded' | 'processed' | 'failed'] *)
Inductive Status := Pending | Uploaded | Processed | Failed.

(** A record of the uploads table; [contentType] is
    [metadata.contentType]. *)
Record t := {
  fileId : string;
  userId : string;
  originalName : string;
  fileName : string;
  s3Key : string;
  fileType : string;
  fileSize : option Z;
  uploadedAt : string;
  status : Status;
  contentType : string;
  createdAt : string;
  updatedAt : string
}.

End FileUpload.

Module Upload.

(** The outcome of a call: a value, an exception with its message, or a
    point the model does not go beyond. *)
Inductive Outcome (A : Type) :=
| Returned (a : A)
| Thrown (message : string)
| Beyond.

Arguments Returned {A} a.
Arguments Thrown {A} message.
Arguments Beyond {A}.

Fixpoint hasDot (s : string) : bool :=
  match s with
  | EmptyString => false
  | String c s' => Ascii.eqb c "." || hasDot s'
  end.

(** [s.split('.').pop()]: the text after the last dot, the whole text when
    there is no dot. *)
Fixpoint lastSegment (s : string) : string :=
  match s with
  | EmptyString => EmptyString
  | String c s' => if hasDot s then lastSegment s' else s
  end.

(** The lower case of a code unit below 256. *)
Definition lowerUnit (c : ascii) : ascii :=
  let n := N_of_ascii c in
  if ((65 <=? n) && (n <=? 90)
      || (192 <=? n) && (n <=? 222) && negb (n =? 215))%N
  then ascii_of_N (n + 32)
  else c.

(** [s.toLowerCase()] *)
Fixpoint toLowerCase (s : string) : string :=
  match s with
  | EmptyString => EmptyString
  | String c s' => String (lowerUnit c) (toLowerCase s')
  end.

(** The members every object literal inherits from [Object.prototype]. *)
Definition objectPrototypeMembers : list string :=
  ["constructor"; "__defineGetter__"; "__defineSetter__"; "hasOwnProperty";
   "__lookupGetter__"; "__lookupSetter__"; "isPrototypeOf";
   "propertyIsEnumerable"; "toString"; "valueOf"; "__proto__";
   "toLocaleString"]%string.

(** What reading a key of [ALLOWED_FILE_TYPES] gives: the MIME type of an
    own key, an inherited member, or [undefined]. *)
Inductive Entry :=
| Own (mime : string)
| Inherited
| Absent.

Definition ALLOWED_FILE_TYPES (key : string) : Entry :=
  if String.eqb key "pdf" then Own "application/pdf"
  else if String.eqb key "csv" then Own "text/csv"
  else if Analytics.includes objectPrototypeMembers key then Inherited
  else Absent.

(** The value [getContentType] returns: a string, or the inherited member
    the table lookup has found. *)
Inductive ContentType :=
| Mime (text : string)
| Member.

(** [getContentType] *)
Definition getContentType (fileName : string) : ContentType :=
  let extension := toLowerCase (lastSegment fileName) in
  match ALLOWED_FILE_TYPES extension with
  | Own mime => Mime mime
  | Inherited => Member
  | Absent => Mime "application/octet-stream"
  end.

Module Validation.
Record t := {
  isValid : bool;
  error : option string;
  fileType : option string
}.
End Validation.

(** [validateFile] *)
Definition validateFile (fileName : string) : Validation.t :=
  let extension := toLowerCase (lastSegment fileName) in
  if String.eqb extension ""
  then {| Validation.isValid := false;
          Validation.error := Some "File must have an extension"%string;
          Validation.fileType := None |}
  else
    match ALLOWED_FILE_TYPES extension with
    | Absent =>
        {| Validation.isValid := false;
           Validation.error := Some "Only PDF and CSV files are allowed"%string;
           Validation.fileType := None |}
    | _ =>
        {| Validation.isValid := true;
           Validation.error := None;
           Validation.fileType := Some extension |}
    end.

(** A code unit the pattern [[^a-zA-Z0-9.-]] does not match. *)
Definition safeUnit (c : ascii) : bool :=
  let n := N_of_ascii c in
  ((97 <=? n) && (n <=? 122) || (65 <=? n) && (n <=? 90)
   || (48 <=? n) && (n <=? 57) || (n =? 46) || (n =? 45))%N.

(** [fileName.replace(/[^a-zA-Z0-9.-]/g, '_')] *)
Fixpoint sanitize (s : string) : string :=
  match s with
  | EmptyString => EmptyString
  | String c s' => String (if safeUnit c then c else "_"%char) (sanitize s')
  end.

(** The decimal text of an integer time value. *)
Definition numberToString (n : Z) : string := NilZero.string_of_int (Z.to_int n).

(** The [PutObjectCommand] that is signed. *)
Module PutObject.
Record t := {
  Bucket : option string;
  Key : string;
  ContentType : Upload.ContentType;
  originalName : string;
  uploadedBy : string;
  uploadTimestamp : string
}.
End PutObject.

(** What [getPresignedUrl] returns. *)
Module Presigned.
Record t := {
  uploadUrl : string;
  fileName : string;
  originalName : string;
  s3Key : string;
  fileId : string
}.
End Presigned.

Section Services.
(** The bucket named by the environment, and the signer of the storage
    service: the URL it issues for a command, or the message of the error
    it raises. *)
Variable S3_BUCKET_NAME : option string.
Variable getSignedUrl : PutObject.t -> string + string.

(** [getPresignedUrl]; [timestamp] is [Date.now()], [uuid] the answer of
    [randomUUID()] and [clock] the time value of the later [new Date()].
    When the content type is an inherited member and not a string, the
    record cannot be written as declared: the model stops there. *)
Definition getPresignedUrl (timestamp : Z) (uuid : string) (clock : Z)
    (userId fileName : string) (table : gmap string FileUpload.t)
  : Outcome Presigned.t * gmap string FileUpload.t :=
  let validation := validateFile fileName in
  if negb (Validation.isValid validation)
  then (Thrown (match Validation.error validation with
                | Some e => e
                | None => EmptyString
                end), table)
  else
    let sanitizedFileName := sanitize fileName in
    let uniqueFileName := (numberToString timestamp ++ "_" ++ sanitizedFileName)%string in
    let s3Key := ("users/" ++ userId ++ "/uploads/" ++ uniqueFileName)%string in
    let fileId := uuid in
    let command :=
      {| PutObject.Bucket := S3_BUCKET_NAME;
         PutObject.Key := s3Key;
         PutObject.ContentType := getContentType fileName;
         PutObject.originalName := fileName;
         PutObject.uploadedBy := userId;
         PutObject.uploadTimestamp := numberToString timestamp |} in
    match getSignedUrl command with
    | inr message => (Thrown message, table)
    | inl url =>
        match getContentType fileName, Validation.fileType validation with
        | Mime contentType, Some fileType =>
            let now := JsDate.toISOString clock in
            let fileUpload :=
              {| FileUpload.fileId := fileId;
                 FileUpload.userId := userId;
                 FileUpload.originalName := fileName;
                 FileUpload.fileName := uniqueFileName;
                 FileUpload.s3Key := s3Key;
                 FileUpload.fileType := fileType;
                 FileUpload.fileSize := None;
                 FileUpload.uploadedAt := now;
                 FileUpload.status := FileUpload.Pending;
                 FileUpload.contentType := contentType;
                 FileUpload.createdAt := now;
                 FileUpload.updatedAt := now |} in
            (Returned
               {| Presigned.uploadUrl := url;
                  Presigned.fileName := uniqueFileName;
                  Presigned.originalName := fileName;
                  Presigned.s3Key := s3Key;
                  Presigned.fileId := fileId |},
             <[fileId := fileUpload]> table)
        | _, _ => (Beyond, table)
        end
    end.
End Services.

(** [confirmFileUpload]; [fileSize] is written when it is given and not
    zero, and the update is conditional on the record. *)
Definition confirmFileUpload (clock : Z) (fileId : string) (fileSize : option Z)
    (table : gmap string FileUpload.t)
  : Outcome (option FileUpload.t) * gmap string FileUpload.t :=
  let now := JsDate.toISOString clock in
  match table !! fileId with
  | None => (Thrown "The conditional request failed", table)
  | Some r =>
      let updated :=
        {| FileUpload.fileId := FileUpload.fileId r;
           FileUpload.userId := FileUpload.userId r;
           FileUpload.originalName := FileUpload.originalName r;
           FileUpload.fileName := FileUpload.fileName r;
           FileUpload.s3Key := FileUpload.s3Key r;
           FileUpload.fileType := FileUpload.fileType r;
           FileUpload.fileSize :=
             match fileSize with
             | Some n => if n =? 0 then FileUpload.fileSize r else Some n
             | None => FileUpload.fileSize r
             end;
           FileUpload.uploadedAt := FileUpload.uploadedAt r;
           FileUpload.status := FileUpload.Uploaded;
           FileUpload.contentType := FileUpload.contentType r;
           FileUpload.createdAt := FileUpload.createdAt r;
           FileUpload.updatedAt := now |} in
      let table := <[fileId := updated]> table in
      (Returned (table !! fileId), table)
  end.

(** [getUserFiles]: the records of a user, in the order the index lists
    them. *)
Definition getUserFiles (userId : string) (table : gmap string FileUpload.t)
  : list FileUpload.t :=
  List.filter (fun r => String.eqb (FileUpload.userId r) userId)
    (map snd (map_to_list table)).

End Upload.

(** ** File upload routes *)

Module UploadRoute.

(** The bodies of the answers of the route [POST /presigned-url].  The
    [debug] object of a failure carries the time of the answer; the class
    name of the error, its other field, is left out. *)
Inductive Body :=
| ErrorBody (error : string)
| FailureBody (error : string) (message : string) (timestamp : string)
| SuccessBody (data : Upload.Presigned.t).

Record Response := {
  status : Z;
  body : Body
}.

Section Services.
Variable S3_BUCKET_NAME : option string.
Variable getSignedUrl : Upload.PutObject.t -> string + string.

(** The handler of [POST /presigned-url]; [fileName] is [req.body.fileName],
    [user] is [req.user?.sub] and [clock'] the time value of the [new Date()]
    of a failure.  A file name that is not a string has no [split]: the
    call raises a [TypeError].  The answer is [None] where the controller
    goes beyond the model. *)
Definition presignedUrl (timestamp : Z) (uuid : string) (clock clock' : Z)
    (fileName : JsValue) (user : option string) (table : gmap string FileUpload.t)
  : option Response * gmap string FileUpload.t :=
  if negb (truthy fileName)
  then (Some {| status := 400;
                body := ErrorBody "fileName is required in request body" |}, table)
  else if TransactionController.missing user
  then (Some {| status := 400; body := ErrorBody "User ID not found in token" |}, table)
  else
    let userId := TransactionController.userOf user in
    let failure message :=
      {| status := 500;
         body := FailureBody "Failed to generate upload URL" message
                   (JsDate.toISOString clock') |} in
    match fileName with
    | JsString fileName =>
        match Upload.getPresignedUrl S3_BUCKET_NAME getSignedUrl timestamp uuid clock
                userId fileName table with
        | (Upload.Returned result, table) =>
            (Some {| status := 200; body := SuccessBody result |}, table)
        | (Upload.Thrown message, table) => (Some (failure message), table)
        | (Upload.Beyond, table) => (None, table)
        end
    | _ => (Some (failure "fileName.split is not a function"), table)
    end.
End Services.

End UploadRoute.

(** ** The computations in double precision *)

(** The functions of the analytics, dashboard, insights and notification
    code once more, with the arithmetic of the language: an amount is a
    JavaScript number, of any value, and every sum, difference, product
    and quotient is rounded. *)
Module Ieee.

Record Transaction := {
  transactionId : string;
  userId : string;
  amount : Number.t;
  description : string;
  category : string;
  type : TransactionType;
  date : string;
  createdAt : string;
  updatedAt : string
}.

(** [transactions.filter(t => t.type === ty).reduce((sum, t) => sum + t.amount, 0)] *)
Definition sumOfType (ty : TransactionType) (transactions : list Transaction)
  : Number.t :=
  fold_left (fun sum t => Number.add sum (amount t))
    (List.filter (fun t => TransactionType_eqb (type t) ty) transactions)
    (Number.ofZ 0).

Module Summary.
Record t := {
  totalIncome : Number.t;
  totalExpenses : Number.t;
  netAmount : Number.t;
  transactionCount : Z
}.
End Summary.

(** The summary computed by [getAnalytics]. *)
Definition summarize (transactions : list Transaction) : Summary.t :=
  let totalIncome := sumOfType Income transactions in
  let totalExpenses := sumOfType Expense transactions in
  let netAmount := Number.sub totalIncome totalExpenses in
  {| Summary.totalIncome := totalIncome;
     Summary.totalExpenses := totalExpenses;
     Summary.netAmount := netAmount;
     Summary.transactionCount := Z.of_nat (List.length transactions) |}.

Module DayData.
Record t := {
  income : Number.t;
  expense : Number.t;
  transactions : list Transaction
}.
End DayData.

Module ChartPoint.
Record t := {
  date : string;
  income : Number.t;
  expense : Number.t;
  net : Number.t;
  cumulativeBalance : Number.t
}.
End ChartPoint.

Module Slice.
Record t := {
  category : string;
  amount : Number.t;
  percentage : Number.t
}.
End Slice.

Module CategoryBreakdown.
Record t := {
  income : list Slice.t;
  expense : list Slice.t
}.
End CategoryBreakdown.

(** The body of the [forEach] of [groupTransactionsByDate]. *)
Definition groupStep (grouped : JsObject.t DayData.t) (transaction : Transaction)
  : JsObject.t DayData.t :=
  let date := Analytics.splitT0 (date transaction) in
  let dayData :=
    match JsObject.get date grouped with
    | Some d => d
    | None =>
        {| DayData.income := Number.ofZ 0; DayData.expense := Number.ofZ 0;
           DayData.transactions := [] |}
    end in
  let dayData :=
    match type transaction with
    | Income =>
        {| DayData.income := Number.add (DayData.income dayData) (amount transaction);
           DayData.expense := DayData.expense dayData;
           DayData.transactions := DayData.transactions dayData |}
    | Expense =>
        {| DayData.income := DayData.income dayData;
           DayData.expense := Number.add (DayData.expense dayData) (amount transaction);
           DayData.transactions := DayData.transactions dayData |}
    end in
  JsObject.set date
    {| DayData.income := DayData.income dayData;
       DayData.expense := DayData.expense dayData;
       DayData.transactions := DayData.transactions dayData ++ [transaction] |}
    grouped.

Definition groupTransactionsByDate (transactions : list Transaction)
  : JsObject.t DayData.t :=
  fold_left groupStep transactions JsObject.empty.

(** The [map] of [generateChartData] over the sorted day keys, with the
    running [cumulativeBalance]. *)
Fixpoint chartPoints (groupedData : JsObject.t DayData.t) (sortedDates : list string)
    (cumulativeBalance : Number.t) : option (list ChartPoint.t) :=
  match sortedDates with
  | [] => Some []
  | date :: rest =>
      match JsObject.get date groupedData with
      | None => None
      | Some dayData =>
          let net := Number.sub (DayData.income dayData) (DayData.expense dayData) in
          let cumulativeBalance := Number.add cumulativeBalance net in
          match chartPoints groupedData rest cumulativeBalance with
          | None => None
          | Some points =>
              Some ({| ChartPoint.date := date;
                       ChartPoint.income := DayData.income dayData;
                       ChartPoint.expense := DayData.expense dayData;
                       ChartPoint.net := net;
                       ChartPoint.cumulativeBalance := cumulativeBalance |} :: points)
          end
      end
  end.

Definition generateChartData (groupedData : JsObject.t DayData.t)
    (startingBalance : Number.t) : option (list ChartPoint.t) :=
  let sortedDates := Array_sort stringAfter (JsObject.keys groupedData) in
  chartPoints groupedData sortedDates startingBalance.

(** The state of the [forEach] of [calculateCategoryBreakdown]. *)
Record Categories := {
  incomeCategories : JsObject.t Number.t;
  expenseCategories : JsObject.t Number.t;
  totalIncome : Number.t;
  totalExpenses : Number.t
}.

(** [(categories[c] || 0) + amount] *)
Definition addTo (categories : JsObject.t Number.t) (c : string) (amount : Number.t)
  : JsObject.t Number.t :=
  let old :=
    match JsObject.get c categories with
    | Some n => Number.orZero n
    | None => Number.ofZ 0
    end in
  JsObject.set c (Number.add old amount) categories.

Definition categoryStep (acc : Categories) (transaction : Transaction) : Categories :=
  match type transaction with
  | Income =>
      {| incomeCategories :=
           addTo (incomeCategories acc) (category transaction) (amount transaction);
         expenseCategories := expenseCategories acc;
         totalIncome := Number.add (totalIncome acc) (amount transaction);
         totalExpenses := totalExpenses acc |}
  | Expense =>
      {| incomeCategories := incomeCategories acc;
         expenseCategories :=
           addTo (expenseCategories acc) (category transaction) (amount transaction);
         totalIncome := totalIncome acc;
         totalExpenses := Number.add (totalExpenses acc) (amount transaction) |}
  end.

Definition collectCategories (transactions : list Transaction) : Categories :=
  fold_left categoryStep transactions
    {| incomeCategories := JsObject.empty; expenseCategories := JsObject.empty;
       totalIncome := Number.ofZ 0; totalExpenses := Number.ofZ 0 |}.

(** The comparator [(a, b) => b.amount - a.amount] is positive when [b]
    has the larger amount. *)
Definition sliceAfter (a b : Slice.t) : bool :=
  Number.gtb (Number.sub (Slice.amount b) (Slice.amount a)) (Number.ofZ 0).

(** [total > 0 ? Math.round((amount / total) * 100) : 0] *)
Definition percentageOf (amount total : Number.t) : Number.t :=
  if Number.gtb total (Number.ofZ 0)
  then Number.Math_round (Number.mul (Number.div amount total) (Number.ofZ 100))
  else Number.ofZ 0.

Definition toSlice (total : Number.t) (entry : string * Number.t) : Slice.t :=
  let '(category, amount) := entry in
  {| Slice.category := category;
     Slice.amount := amount;
     Slice.percentage := percentageOf amount total |}.

Definition formatCategories (categories : JsObject.t Number.t) (total : Number.t)
  : list Slice.t :=
  Array_sort sliceAfter (map (toSlice total) (JsObject.entries categories)).

Definition calculateCategoryBreakdown (transactions : list Transaction)
  : CategoryBreakdown.t :=
  let acc := collectCategories transactions in
  {| CategoryBreakdown.income := formatCategories (incomeCategories acc) (totalIncome acc);
     CategoryBreakdown.expense := formatCategories (expenseCategories acc) (totalExpenses acc) |}.

(** [calculateHealthScore] *)
Definition calculateHealthScore (income expenses : Number.t) : Number.t :=
  if Number.eqb income (Number.ofZ 0)
  then (if Number.eqb expenses (Number.ofZ 0) then Number.ofZ 100 else Number.ofZ 0)
  else
    let ratio := Number.div (Number.sub income expenses) income in
    Number.Math_max (Number.ofZ 0)
      (Number.Math_min (Number.ofZ 100)
         (Number.Math_round
            (Number.mul (Number.add ratio (Number.ofZ 1)) (Number.ofZ 50)))).

(** [calculatePercentageChange] *)
Definition calculatePercentageChange (current previous : Number.t) : Number.t :=
  if Number.eqb previous (Number.ofZ 0)
  then (if Number.gtb current (Number.ofZ 0) then Number.ofZ 100 else Number.ofZ 0)
  else
    Number.Math_round
      (Number.mul (Number.div (Number.sub current previous) previous) (Number.ofZ 100)).

Module Metric.
Record t := {
  value : Number.t;
  percentageChange : Number.t;
  trend : string
}.
End Metric.

Module DashboardData.
Record t := {
  monthlyIncome : Metric.t;
  monthlyExpense : Metric.t;
  currentBalance : Metric.t;
  healthScore : Metric.t
}.
End DashboardData.

(** [change >= 0 ? 'up' : 'down'] *)
Definition trendOf (change : Number.t) : string :=
  if Number.geb change (Number.ofZ 0) then "up"%string else "down"%string.

(** The [dashboard] object [getDashboard] answers with, from the stored
    balance and the transactions of the two months. *)
Definition dashboardOf (currentBalance : Number.t)
    (currentTransactions previousTransactions : list Transaction) : DashboardData.t :=
  let currentIncome := sumOfType Income currentTransactions in
  let currentExpenses := sumOfType Expense currentTransactions in
  let previousIncome := sumOfType Income previousTransactions in
  let previousExpenses := sumOfType Expense previousTransactions in
  let currentHealthScore := calculateHealthScore currentIncome currentExpenses in
  let previousHealthScore := calculateHealthScore previousIncome previousExpenses in
  let incomeChange := calculatePercentageChange currentIncome previousIncome in
  let expenseChange := calculatePercentageChange currentExpenses previousExpenses in
  let healthScoreChange :=
    calculatePercentageChange currentHealthScore previousHealthScore in
  let estimatedPreviousBalance :=
    Number.sub currentBalance (Number.sub currentIncome currentExpenses) in
  let balanceChange :=
    calculatePercentageChange currentBalance estimatedPreviousBalance in
  {| DashboardData.monthlyIncome :=
       {| Metric.value := currentIncome;
          Metric.percentageChange := incomeChange;
          Metric.trend := trendOf incomeChange |};
     DashboardData.monthlyExpense :=
       {| Metric.value := currentExpenses;
          Metric.percentageChange := expenseChange;
          Metric.trend := trendOf expenseChange |};
     DashboardData.currentBalance :=
       {| Metric.value := currentBalance;
          Metric.percentageChange := balanceChange;
          Metric.trend := trendOf balanceChange |};
     DashboardData.healthScore :=
       {| Metric.value := currentHealthScore;
          Metric.percentageChange := healthScoreChange;
          Metric.trend := trendOf healthScoreChange |} |}.

(** [calculateExpenseRatio] and [shouldSendAlert] *)
Definition calculateExpenseRatio (income expenses : Number.t) : Number.t :=
  if Number.eqb income (Number.ofZ 0)
  then (if Number.gtb expenses (Number.ofZ 0) then Number.ofZ 100 else Number.ofZ 0)
  else Number.Math_round (Number.mul (Number.div expenses income) (Number.ofZ 100)).

Definition shouldSendAlert (expenseRatio : Number.t) : bool :=
  Number.geb expenseRatio (Number.ofZ 80).

(** The three monthly averages of [buildFinancialContext]. *)
Module Averages.
Record t := {
  monthlyIncome : Number.t;
  monthlyExpenses : Number.t;
  netCashFlow : Number.t
}.
End Averages.

Definition averages (transactions : list Transaction) : Averages.t :=
  let totalIncome := sumOfType Income transactions in
  let totalExpenses := sumOfType Expense transactions in
  {| Averages.monthlyIncome :=
       Number.Math_round (Number.div totalIncome (Number.ofZ 3));
     Averages.monthlyExpenses :=
       Number.Math_round (Number.div totalExpenses (Number.ofZ 3));
     Averages.netCashFlow :=
       Number.Math_round
         (Number.div (Number.sub totalIncome totalExpenses) (Number.ofZ 3)) |}.

End Ieee.

(** ** Further auxiliary notions *)

(** The signed sum of the transactions a table holds for a user, and the
    balance a store would hold for the user without them. *)
Definition netIn (table : gmap string Transaction) (u : string) : Z :=
  sumZ (map signedAmount
          (List.filter (fun t => String.eqb (userId t) u)
             (map snd (map_to_list table)))).

Definition anchorOf (s : Store) (u : string) : Z :=
  balanceOf (USERS s !! u) - netIn (TRANSACTIONS s) u.

(** The transactions a grouping object lists for a day. *)
Definition bucketAt (g : JsObject.t DayData.t) (k : string) : list Transaction :=
  match JsObject.get k g with Some d => DayData.transactions d | None => [] end.

(** The transactions of a day, and those of the days up to a day in code
    unit order, in the order of the list. *)
Definition onDay (day : string) (transactions : list Transaction) : list Transaction :=
  List.filter (fun t => String.eqb (Analytics.splitT0 (date t)) day) transactions.


(** A name made of lower case letters and underscores. *)
Definition plainUnit (c : ascii) : bool :=
  let n := N_of_ascii c in
  ((97 <=? n) && (n <=? 122) || (n =? 95))%N.

Fixpoint plainName (s : string) : bool :=
  match s with
  | EmptyString => true
  | String c s' => plainUnit c && plainName s'
  end.

(** The extensions [validateFile] lets through. *)
Definition acceptedExtensions : list string :=
  ["pdf"; "csv"; "constructor"; "__proto__"]%string.

(** A command that reads. *)
Definition readOnly (c : Command) : bool :=
  match c with
  | GetUser _ | QueryTransactions _ _ _ => true
  | _ => false
  end.

(** A store that differs from another by commands that read. *)
Definition onlyRead (s s' : Store) : Prop :=
  TRANSACTIONS s' = TRANSACTIONS s /\ USERS s' = USERS s
  /\ exists log, sent s' = sent s ++ log /\ forallb readOnly log = true.


(** A transaction whose amount is an integer, as a transaction of the
    code in double precision; likewise a day, a point and a slice. *)
Definition toIeee (t : Transaction) : Ieee.Transaction :=
  {| Ieee.transactionId := transactionId t;
     Ieee.userId := userId t;
     Ieee.amount := Number.ofZ (amount t);
     Ieee.description := description t;
     Ieee.category := category t;
     Ieee.type := type t;
     Ieee.date := date t;
     Ieee.createdAt := createdAt t;
     Ieee.updatedAt := updatedAt t |}.

Definition dayToIeee (d : DayData.t) : Ieee.DayData.t :=
  {| Ieee.DayData.income := Number.ofZ (DayData.income d);
     Ieee.DayData.expense := Number.ofZ (DayData.expense d);
     Ieee.DayData.transactions := map toIeee (DayData.transactions d) |}.

Definition pointToIeee (p : ChartPoint.t) : Ieee.ChartPoint.t :=
  {| Ieee.ChartPoint.date := ChartPoint.date p;
     Ieee.ChartPoint.income := Number.ofZ (ChartPoint.income p);
     Ieee.ChartPoint.expense := Number.ofZ (ChartPoint.expense p);
     Ieee.ChartPoint.net := Number.ofZ (ChartPoint.net p);
     Ieee.ChartPoint.cumulativeBalance := Number.ofZ (ChartPoint.cumulativeBalance p) |}.

(** The values of an object under a function. *)
Definition mapValues {A B : Type} (f : A -> B) (o : JsObject.t A) : JsObject.t B :=
  map (fun kv => (fst kv, f (snd kv))) o.

(** A slice whose amount is an integer, with the percentage the code
    computes from it and from the total in double precision. *)
Definition sliceToIeee (total : Z) (s : Slice.t) : Ieee.Slice.t :=
  {| Ieee.Slice.category := Slice.category s;
     Ieee.Slice.amount := Number.ofZ (Slice.amount s);
     Ieee.Slice.percentage :=
       Ieee.percentageOf (Number.ofZ (Slice.amount s)) (Number.ofZ total) |}.

Definition categoriesToIeee (acc : Analytics.Categories) : Ieee.Categories :=
  {| Ieee.incomeCategories := mapValues Number.ofZ (Analytics.incomeCategories acc);
     Ieee.expenseCategories := mapValues Number.ofZ (Analytics.expenseCategories acc);
     Ieee.totalIncome := Number.ofZ (Analytics.totalIncome acc);
     Ieee.totalExpenses := Number.ofZ (Analytics.totalExpenses acc) |}.

(** The sizes of the amounts, added up. *)
Definition sumAbs (transactions : list Transaction) : Z :=
  sumZ (map (fun t => Z.abs (amount t)) transactions).

(** Integer amounts whose sizes add up, together with the size of an
    anchor balance, to at most [2^53]: every sum and difference the code
    forms of them is an integer within that bound, and is exact. *)
Definition safeAmounts (b : Z) (transactions : list Transaction) : Prop :=
  Z.abs b + sumAbs transactions <= 2 ^ 53.

(** No category names a member that an object literal inherits: on such
    a name [categories[c]] would read the inherited member. *)
Definition ownCategories (transactions : list Transaction) : bool :=
  forallb
    (fun t => negb (Analytics.includes Upload.objectPrototypeMembers (category t)))
    transactions.

(** The slices of one partition of a breakdown in double precision. *)
Definition slicesOfIeee (ty : TransactionType) (breakdown : Ieee.CategoryBreakdown.t)
  : list Ieee.Slice.t :=
  match ty with
  | Income => Ieee.CategoryBreakdown.income breakdown
  | Expense => Ieee.CategoryBreakdown.expense breakdown
  end.

(** Slices of equal amount follow a given order of the categories. *)
Definition tiesFollowIeee (order : list string) (ty : TransactionType)
    (transactions : list Transaction) (slices : list Ieee.Slice.t) : Prop :=
  forall v,
    Z.abs v <= 2 ^ 53 ->
    map Ieee.Slice.category
      (List.filter (fun s => Number.eqb (Ieee.Slice.amount s) (Number.ofZ v)) slices)
    = List.filter (fun c => Spec.categoryTotal ty c transactions =? v) order.

(** * Properties *)

(** ** Double precision: the rounding of a rational *)

Lemma pow2_pos (k : Z) : (0 < Number.pow2 k)%Q.
Proof. apply Qpower_0_lt. reflexivity. Qed.

Lemma pow2_add (a b : Z) : (Number.pow2 (a + b) == Number.pow2 a * Number.pow2 b)%Q.
Proof. apply Qpower_plus. discriminate. Qed.

Lemma pow2_le (a b : Z) : a <= b -> (Number.pow2 a <= Number.pow2 b)%Q.
Proof. intros H. apply Qpower_le_compat_l; [exact H | discriminate]. Qed.

Lemma pow2_lt (a b : Z) : a < b -> (Number.pow2 a < Number.pow2 b)%Q.
Proof. intros H. apply Qpower_lt_compat_l; [exact H | reflexivity]. Qed.

Lemma pow2_lt_inv (a b : Z) : (Number.pow2 a < Number.pow2 b)%Q -> a < b.
Proof. intros H. apply (Qpower_lt_compat_l_inv 2); [exact H | reflexivity]. Qed.

Lemma pow2_Z (k : Z) : 0 <= k -> (Number.pow2 k == inject_Z (2 ^ k))%Q.
Proof. intros H. unfold Number.pow2. rewrite Zpower_Qpower by exact H. reflexivity. Qed.

Lemma pow2_cancel (a : Z) : (Number.pow2 (- a) * Number.pow2 a == 1)%Q.
Proof. rewrite <- pow2_add. replace (- a + a) with 0 by lia. reflexivity. Qed.

Lemma pow2_succ (a : Z) : (Number.pow2 (a + 1) == 2 * Number.pow2 a)%Q.
Proof. rewrite pow2_add. unfold Number.pow2 at 2. rewrite Qpower_1_r. ring. Qed.

(** The logarithm brackets the rational. *)
Lemma ilog2_spec (q : Q) :
  ~ (q == 0)%Q -> (Number.pow2 (Number.ilog2 q) <= Qabs q /\ Qabs q < Number.pow2 (Number.ilog2 q + 1))%Q.
Proof.
  intros Hq. destruct q as [n d]. unfold Number.ilog2. cbn [Qnum Qden].
  assert (Hn : 0 < Z.abs n).
  { unfold Qeq in Hq. simpl in Hq. lia. }
  set (a := Z.log2 (Z.abs n)). set (b := Z.log2 (Z.pos d)).
  assert (Ha : 2 ^ a <= Z.abs n < 2 ^ (a + 1)).
  { pose proof (Z.log2_spec (Z.abs n) Hn) as H. unfold a.
    replace (Z.log2 (Z.abs n) + 1) with (Z.succ (Z.log2 (Z.abs n))) by lia. exact H. }
  assert (Hb : 2 ^ b <= Z.pos d < 2 ^ (b + 1)).
  { pose proof (Z.log2_spec (Z.pos d) ltac:(lia)) as H. unfold b.
    replace (Z.log2 (Z.pos d) + 1) with (Z.succ (Z.log2 (Z.pos d))) by lia. exact H. }
  assert (Ha0 : 0 <= a) by apply Z.log2_nonneg.
  assert (Hb0 : 0 <= b) by apply Z.log2_nonneg.
  assert (Habs : (Qabs (n # d) == inject_Z (Z.abs n) / inject_Z (Z.pos d))%Q).
  { unfold Qabs. rewrite (Qmake_Qdiv (Z.abs n) d). reflexivity. }
  assert (Hd : (0 < inject_Z (Z.pos d))%Q) by (unfold Qlt; simpl; lia).
  (* bounds of the quotient *)
  assert (Hlow : (Number.pow2 (a - b - 1) < Qabs (n # d))%Q).
  { rewrite Habs. apply Qlt_shift_div_l; [exact Hd |].
    apply Qlt_le_trans with (Number.pow2 (a - b - 1) * Number.pow2 (b + 1))%Q.
    - apply Qmult_lt_l; [apply pow2_pos |].
      rewrite (pow2_Z (b + 1)) by lia. rewrite <- Zlt_Qlt. lia.
    - rewrite <- pow2_add. replace (a - b - 1 + (b + 1)) with a by lia.
      rewrite (pow2_Z a) by lia. rewrite <- Zle_Qle. lia. }
  assert (Hhigh : (Qabs (n # d) < Number.pow2 (a - b + 1))%Q).
  { rewrite Habs. apply Qlt_shift_div_r; [exact Hd |].
    apply Qlt_le_trans with (Number.pow2 (a + 1)).
    - rewrite (pow2_Z (a + 1)) by lia. rewrite <- Zlt_Qlt. lia.
    - replace (a + 1) with (a - b + 1 + b) by lia. rewrite pow2_add.
      apply Qmult_le_l; [apply pow2_pos |].
      rewrite (pow2_Z b) by lia. rewrite <- Zle_Qle. lia. }
  destruct (Qle_bool (Number.pow2 (a - b)) (Qabs (n # d))) eqn:E.
  - apply Qle_bool_iff in E. split; [exact E | exact Hhigh].
  - split.
    + apply Qlt_le_weak. replace (a - b - 1) with (a - b - 1) by lia. exact Hlow.
    + replace (a - b - 1 + 1) with (a - b) by lia.
      apply Qnot_le_lt. intros H. apply Qle_bool_iff in H. congruence.
Qed.

Lemma ilog2_unique (q : Q) (e : Z) :
  (Number.pow2 e <= Qabs q)%Q -> (Qabs q < Number.pow2 (e + 1))%Q -> Number.ilog2 q = e.
Proof.
  intros H1 H2.
  assert (Hq : ~ (q == 0)%Q).
  { intros H. assert (H0 : (Qabs q == 0)%Q) by (rewrite H; reflexivity).
    pose proof (pow2_pos e). lra. }
  destruct (ilog2_spec q Hq) as [H3 H4].
  assert (Number.ilog2 q < e + 1) by (apply pow2_lt_inv; lra).
  assert (e < Number.ilog2 q + 1) by (apply pow2_lt_inv; lra).
  lia.
Qed.

Lemma roundHalfEven_near (x : Q) :
  (x - (1 # 2) <= inject_Z (Number.roundHalfEven x) <= x + (1 # 2))%Q.
Proof.
  unfold Number.roundHalfEven.
  pose proof (Qfloor_le x) as H1. pose proof (Qlt_floor x) as H2.
  rewrite inject_Z_plus in H2. change (inject_Z 1) with 1%Q in H2.
  destruct (x - inject_Z (Qfloor x) ?= 1 # 2)%Q eqn:E.
  - apply Qeq_alt in E.
    destruct (Z.even (Qfloor x)); [| rewrite inject_Z_plus; change (inject_Z 1) with 1%Q]; lra.
  - apply Qlt_alt in E. lra.
  - apply Qgt_alt in E. rewrite inject_Z_plus. change (inject_Z 1) with 1%Q. lra.
Qed.

Lemma roundHalfEven_comp (x y : Q) : (x == y)%Q -> Number.roundHalfEven x = Number.roundHalfEven y.
Proof.
  intros H. unfold Number.roundHalfEven. rewrite (Qfloor_comp _ _ H).
  assert (Hc : (x - inject_Z (Qfloor y) ?= 1 # 2)%Q = (y - inject_Z (Qfloor y) ?= 1 # 2)%Q).
  { apply Qcompare_comp; [rewrite H; reflexivity | reflexivity]. }
  rewrite Hc. reflexivity.
Qed.

Lemma roundHalfEven_Z (z : Z) : Number.roundHalfEven (inject_Z z) = z.
Proof.
  unfold Number.roundHalfEven. rewrite Qfloor_Z.
  assert (E : (inject_Z z - inject_Z z ?= 1 # 2)%Q = Lt).
  { apply (proj1 (Qlt_alt _ _)). lra. }
  rewrite E. reflexivity.
Qed.

Lemma roundHalfEven_nonneg (x : Q) : (0 <= x)%Q -> 0 <= Number.roundHalfEven x.
Proof.
  intros H. pose proof (roundHalfEven_near x) as [H1 _].
  assert (H2 : (inject_Z (-1) < inject_Z (Number.roundHalfEven x))%Q) by (change (inject_Z (-1)) with (-1)%Q; lra).
  rewrite <- Zlt_Qlt in H2. lia.
Qed.

Lemma roundHalfEven_nonpos (x : Q) : (x <= 0)%Q -> Number.roundHalfEven x <= 0.
Proof.
  intros H. pose proof (roundHalfEven_near x) as [_ H1].
  assert (H2 : (inject_Z (Number.roundHalfEven x) < inject_Z 1)%Q) by (change (inject_Z 1) with 1%Q; lra).
  rewrite <- Zlt_Qlt in H2. lia.
Qed.

Lemma ilog2_comp (q1 q2 : Q) : ~ (q1 == 0)%Q -> (q1 == q2)%Q -> Number.ilog2 q1 = Number.ilog2 q2.
Proof.
  intros H0 H. destruct (ilog2_spec q1 H0) as [H1 H2].
  symmetry. apply ilog2_unique; rewrite <- H; assumption.
Qed.

Lemma Qnum_neg_comp (q1 q2 : Q) : (q1 == q2)%Q -> (Qnum q1 <? 0) = (Qnum q2 <? 0).
Proof.
  intros H. unfold Qeq in H.
  destruct (Qnum q1 <? 0) eqn:E1, (Qnum q2 <? 0) eqn:E2; try reflexivity;
    rewrite ?Z.ltb_lt, ?Z.ltb_ge in *; nia.
Qed.

(** Rounding depends on the value only. *)
Lemma round_comp (q1 q2 : Q) : (q1 == q2)%Q -> Number.round q1 = Number.round q2.
Proof.
  intros H. unfold Number.round.
  destruct (Qeq_bool q1 0) eqn:E1.
  - apply Qeq_bool_iff in E1.
    assert (E2 : Qeq_bool q2 0 = true) by (apply Qeq_bool_iff; rewrite <- H; exact E1).
    rewrite E2. reflexivity.
  - assert (H0 : ~ (q1 == 0)%Q) by (intros Hc; apply Qeq_bool_iff in Hc; congruence).
    assert (E2 : Qeq_bool q2 0 = false).
    { destruct (Qeq_bool q2 0) eqn:E; [| reflexivity].
      apply Qeq_bool_iff in E. exfalso. apply H0. rewrite H. exact E. }
    rewrite E2, <- (ilog2_comp q1 q2 H0 H), (Qnum_neg_comp q1 q2 H).
    set (ex := Z.max (Number.ilog2 q1) (-1022) - 52).
    rewrite (roundHalfEven_comp (q2 * Number.pow2 (- ex)) (q1 * Number.pow2 (- ex)))
      by (rewrite H; reflexivity).
    reflexivity.
Qed.

Lemma round_not_NaN (q : Q) : Number.round q <> Number.NaN.
Proof.
  unfold Number.round. destruct (Qeq_bool q 0); [discriminate |].
  destruct (_ || _); discriminate.
Qed.

(** A rational below [2^(E+1)] in magnitude is rounded to a rational no
    further than [2^(E-53)] from it. *)
Lemma round_near (q : Q) (E : Z) :
  -1022 <= E <= 1022 -> (Qabs q < Number.pow2 (E + 1))%Q ->
  exists q', Number.round q = Number.Finite q' /\ (Qabs (q' - q) <= Number.pow2 (E - 53))%Q.
Proof.
  intros HE Hq. unfold Number.round.
  destruct (Qeq_bool q 0) eqn:E0.
  - apply Qeq_bool_iff in E0. exists 0%Q. split; [reflexivity |].
    assert (H : (Qabs (0 - q) == 0)%Q) by (rewrite E0; reflexivity).
    rewrite H. apply Qlt_le_weak, pow2_pos.
  - assert (H0 : ~ (q == 0)%Q) by (intros Hc; apply Qeq_bool_iff in Hc; congruence).
    destruct (ilog2_spec q H0) as [H1 H2].
    set (e := Number.ilog2 q) in *.
    assert (He : e <= E) by (assert (e < E + 1) by (apply pow2_lt_inv; lra); lia).
    set (ex := Z.max e (-1022) - 52).
    assert (Hex : ex <= E - 52) by lia.
    replace ((1024 <=? e) || ((e =? 1023) && _)) with false
      by (symmetry; apply orb_false_iff; split;
          [apply Z.leb_gt; lia
          | apply andb_false_iff; left; apply Z.eqb_neq; lia]).
    eexists. split; [reflexivity |].
    rewrite Qred_correct.
    set (m := Number.roundHalfEven (q * Number.pow2 (- ex))).
    pose proof (roundHalfEven_near (q * Number.pow2 (- ex))) as Hm. fold m in Hm.
    assert (Hq' : (q == q * Number.pow2 (- ex) * Number.pow2 ex)%Q).
    { rewrite <- Qmult_assoc, pow2_cancel. ring. }
    assert (Hd : (inject_Z m * Number.pow2 ex - q
                  == (inject_Z m - q * Number.pow2 (- ex)) * Number.pow2 ex)%Q).
    { rewrite Hq' at 1. ring. }
    rewrite Hd, Qabs_Qmult, (Qabs_pos (Number.pow2 ex)) by (apply Qlt_le_weak, pow2_pos).
    apply Qle_trans with ((1 # 2) * Number.pow2 ex)%Q.
    + apply Qmult_le_compat_r; [| apply Qlt_le_weak, pow2_pos].
      apply Qabs_Qle_condition. lra.
    + apply Qle_trans with ((1 # 2) * Number.pow2 (E - 52))%Q.
      * apply Qmult_le_l; [reflexivity | apply pow2_le; exact Hex].
      * replace (E - 52) with (E - 53 + 1) by lia. rewrite pow2_succ. lra.
Qed.

(** In the normal range the error is relative. *)
Lemma round_rel (q : Q) :
  (Number.pow2 (-1022) <= Qabs q)%Q -> (Qabs q < Number.pow2 1023)%Q ->
  exists q', Number.round q = Number.Finite q' /\ (Qabs (q' - q) <= Qabs q * Number.pow2 (-53))%Q.
Proof.
  intros Hlo Hhi.
  assert (H0 : ~ (q == 0)%Q).
  { intros H. assert (Ha : (Qabs q == 0)%Q) by (rewrite H; reflexivity).
    pose proof (pow2_pos (-1022)). lra. }
  destruct (ilog2_spec q H0) as [H1 H2].
  assert (He : -1022 <= Number.ilog2 q <= 1022).
  { assert (-1022 < Number.ilog2 q + 1) by (apply pow2_lt_inv; lra).
    assert (Number.ilog2 q < 1023) by (apply pow2_lt_inv; lra). lia. }
  destruct (round_near q (Number.ilog2 q) He H2) as (q' & Hr & Hq').
  exists q'. split; [exact Hr |].
  apply Qle_trans with (Number.pow2 (Number.ilog2 q - 53)); [exact Hq' |].
  replace (Number.ilog2 q - 53) with (Number.ilog2 q + - 53) by lia. rewrite pow2_add.
  apply Qmult_le_compat_r; [exact H1 | apply Qlt_le_weak, pow2_pos].
Qed.

(** An integer multiple of a power of two with fewer than 54 bits is
    rounded to itself. *)
Lemma round_exact (m k : Z) (q : Q) :
  Z.abs m < 2 ^ 53 -> -1074 <= k -> (q == inject_Z m * Number.pow2 k)%Q ->
  (Qabs q < Number.pow2 1023)%Q ->
  Number.round q = Number.Finite (Qred q).
Proof.
  intros Hm Hk Hq Hhi. unfold Number.round.
  destruct (Qeq_bool q 0) eqn:E0.
  - apply Qeq_bool_iff in E0. f_equal.
    apply Qred_complete in E0. rewrite E0. reflexivity.
  - assert (H0 : ~ (q == 0)%Q) by (intros Hc; apply Qeq_bool_iff in Hc; congruence).
    destruct (ilog2_spec q H0) as [H1 H2].
    set (e := Number.ilog2 q) in *.
    assert (He : e <= 1022) by (assert (e < 1023) by (apply pow2_lt_inv; lra); lia).
    assert (Habs : (Qabs q == inject_Z (Z.abs m) * Number.pow2 k)%Q).
    { rewrite Hq, Qabs_Qmult, (Qabs_pos (Number.pow2 k)) by (apply Qlt_le_weak, pow2_pos).
      reflexivity. }
    assert (He' : e < 53 + k).
    { apply pow2_lt_inv. apply Qle_lt_trans with (Qabs q); [exact H1 |].
      rewrite Habs, pow2_add. apply Qmult_lt_r; [apply pow2_pos |].
      rewrite (pow2_Z 53) by lia. rewrite <- Zlt_Qlt. exact Hm. }
    set (ex := Z.max e (-1022) - 52).
    assert (Hex : ex <= k) by lia.
    replace ((1024 <=? e) || ((e =? 1023) && _)) with false
      by (symmetry; apply orb_false_iff; split;
          [apply Z.leb_gt; lia
          | apply andb_false_iff; left; apply Z.eqb_neq; lia]).
    f_equal. apply Qred_complete.
    assert (Hint : (q * Number.pow2 (- ex) == inject_Z (m * 2 ^ (k - ex)))%Q).
    { rewrite Hq, inject_Z_mult, <- (pow2_Z (k - ex)) by lia.
      replace (k - ex) with (k + - ex) by lia. rewrite pow2_add. ring. }
    rewrite (roundHalfEven_comp _ _ Hint), roundHalfEven_Z.
    rewrite Hq, inject_Z_mult, <- (pow2_Z (k - ex)) by lia.
    replace (k - ex) with (k + - ex) by lia. rewrite pow2_add.
    rewrite <- !Qmult_assoc, pow2_cancel. ring.
Qed.

Lemma round_Z (z : Z) : Z.abs z <= 2 ^ 53 -> Number.round (inject_Z z) = Number.Finite (inject_Z z).
Proof.
  intros Hz.
  destruct (Z.eq_dec (Z.abs z) (2 ^ 53)) as [E | E].
  - destruct (Z.abs_spec z) as [[_ H] | [_ H]].
    + rewrite H in E. subst z. vm_compute. reflexivity.
    + assert (z = - 2 ^ 53) by lia. subst z. vm_compute. reflexivity.
  - rewrite (round_exact z 0 (inject_Z z)).
    + f_equal. apply inject_Z_Qred.
    + lia.
    + lia.
    + unfold Number.pow2. rewrite Qpower_0_r. ring.
    + change (Qabs (inject_Z z)) with (inject_Z (Z.abs z)).
      rewrite (pow2_Z 1023) by lia. rewrite <- Zlt_Qlt.
      assert (2 ^ 53 < 2 ^ 1023) by (apply Z.pow_lt_mono_r; lia). lia.
Qed.

Lemma round_sign (q : Q) :
  match Number.round q with
  | Number.Finite q' => ((0 <= q -> 0 <= q') /\ (q <= 0 -> q' <= 0))%Q
  | Number.Infinity s => if s then (q < 0)%Q else (0 < q)%Q
  | Number.NaN => False
  end.
Proof.
  unfold Number.round. destruct (Qeq_bool q 0) eqn:E0.
  - split; intros _; lra.
  - assert (H0 : ~ (q == 0)%Q) by (intros Hc; apply Qeq_bool_iff in Hc; congruence).
    destruct (_ || _).
    + destruct (Qnum q <? 0) eqn:E.
      * apply Z.ltb_lt in E. unfold Qlt. simpl. lia.
      * apply Z.ltb_ge in E. unfold Qlt, Qeq in *. simpl in *. lia.
    + rewrite Qred_correct.
      set (ex := Z.max (Number.ilog2 q) (-1022) - 52).
      pose proof (pow2_pos ex) as Hp. pose proof (pow2_pos (- ex)) as Hp'.
      split; intros Hq.
      * apply Qmult_le_0_compat; [| lra].
        replace 0%Q with (inject_Z 0) by reflexivity. rewrite <- Zle_Qle.
        apply roundHalfEven_nonneg. apply Qmult_le_0_compat; lra.
      * assert (H : Number.roundHalfEven (q * Number.pow2 (- ex)) <= 0).
        { apply roundHalfEven_nonpos.
          assert (0 <= (- q) * Number.pow2 (- ex))%Q by (apply Qmult_le_0_compat; lra). lra. }
        rewrite Zle_Qle in H. change (inject_Z 0) with 0%Q in H.
        assert (0 <= (- inject_Z (Number.roundHalfEven (q * Number.pow2 (- ex)))) * Number.pow2 ex)%Q
          by (apply Qmult_le_0_compat; lra).
        lra.
Qed.



(** ** Rounding *)


Lemma rounds_unique (x : Q) (r1 r2 : Z) :
  Spec.rounds x r1 -> Spec.rounds x r2 -> r1 = r2.
Proof.
  unfold Spec.rounds. intros [H1 H2] [H3 H4].
  assert (Ha : (inject_Z r1 < inject_Z (r2 + 1))%Q).
  { rewrite inject_Z_plus. change (inject_Z 1) with 1%Q. lra. }
  assert (Hb : (inject_Z r2 < inject_Z (r1 + 1))%Q).
  { rewrite inject_Z_plus. change (inject_Z 1) with 1%Q. lra. }
  rewrite <- Zlt_Qlt in Ha, Hb. lia.
Qed.

Lemma Math_round_comp (x y : Q) : (x == y)%Q -> Math_round x = Math_round y.
Proof.
  intros H. unfold Math_round. apply Qfloor_comp. rewrite H. reflexivity.
Qed.

(** [Math.round] of a quotient of integers is [nearestHalfUp]. *)
Lemma Math_round_div (num den : Z) :
  den <> 0 ->
  Math_round (inject_Z num / inject_Z den)%Q = Spec.nearestHalfUp num den.
Proof.
  intros Hden. unfold Math_round, Spec.nearestHalfUp.
  rewrite Zdiv_Qdiv. apply Qfloor_comp.
  rewrite !inject_Z_plus, !inject_Z_mult.
  assert (Hq : ~ (inject_Z den == 0)%Q).
  { intros H. apply Hden. apply (inject_Z_injective den 0). exact H. }
  field. exact Hq.
Qed.


Lemma inject_Z_nonzero (z : Z) : z <> 0 -> ~ (inject_Z z == 0)%Q.
Proof. intros Hz H. apply Hz. apply (inject_Z_injective z 0). exact H. Qed.

(** The rounding is within half a unit of the quotient, a tie going up. *)
Lemma nearestHalfUp_bounds (num den : Z) :
  0 < den ->
  let r := Spec.nearestHalfUp num den in
  2 * den * r - den <= 2 * num < 2 * den * r + den.
Proof.
  intros Hden r. subst r. unfold Spec.nearestHalfUp.
  pose proof (Z.div_mod (2 * num + den) (2 * den) ltac:(lia)) as Hdm.
  pose proof (Z.mod_pos_bound (2 * num + den) (2 * den) ltac:(lia)) as Hm.
  lia.
Qed.


(** ** C6: the health score *)





(** ** C7: percentage change and trend labels *)

Lemma calculatePercentageChange_spec (current previous : Z) :
  Dashboard.calculatePercentageChange current previous
  = Spec.percentageChange current previous.
Proof.
  unfold Dashboard.calculatePercentageChange, Spec.percentageChange.
  destruct (previous =? 0) eqn:Hp; [reflexivity |].
  apply Z.eqb_neq in Hp.
  rewrite <- Math_round_div by exact Hp.
  apply Math_round_comp.
  rewrite !inject_Z_mult.
  pose proof (inject_Z_nonzero previous Hp) as Hq.
  change (inject_Z 100) with 100%Q. field. exact Hq.
Qed.






(** ** Sums over lists *)

Lemma sumZ_app (l1 l2 : list Z) : sumZ (l1 ++ l2) = sumZ l1 + sumZ l2.
Proof. induction l1 as [| x l1 IH]; simpl; [reflexivity | rewrite IH; lia]. Qed.

Lemma sumZ_Permutation (l1 l2 : list Z) : l1 ≡ₚ l2 -> sumZ l1 = sumZ l2.
Proof.
  induction 1 as [| x l1 l2 _ IH | x y l | l1 l2 l3 _ IH1 _ IH2]; simpl; lia.
Qed.

Lemma fold_left_add {A : Type} (f : A -> Z) (l : list A) (a : Z) :
  fold_left (fun sum t => sum + f t) l a = a + sumZ (map f l).
Proof.
  revert a. induction l as [| x l IH]; intros a; simpl; [lia |].
  rewrite IH. lia.
Qed.

(** ** [Array.prototype.sort] *)

Section ArraySortFacts.
Context {A : Type} (after : A -> A -> bool).

Lemma insertSorted_Permutation (x : A) (l : list A) :
  insertSorted after x l ≡ₚ x :: l.
Proof.
  induction l as [| y l IH]; simpl; [reflexivity |].
  destruct (after x y); [| reflexivity].
  rewrite IH. apply Permutation_swap.
Qed.

Lemma Array_sort_Permutation (l : list A) : Array_sort after l ≡ₚ l.
Proof.
  induction l as [| x l IH]; simpl; [reflexivity |].
  unfold Array_sort in *. simpl.
  rewrite insertSorted_Permutation, IH. reflexivity.
Qed.

Lemma Array_sort_length (l : list A) : List.length (Array_sort after l) = List.length l.
Proof. apply Permutation_length, Array_sort_Permutation. Qed.

Hypothesis mayPrecede_trans : forall x y z,
  mayPrecede after x y -> mayPrecede after y z -> mayPrecede after x z.
Hypothesis mayPrecede_total : forall x y, mayPrecede after x y \/ mayPrecede after y x.

Lemma insertSorted_sorted (x : A) (l : list A) :
  StronglySorted (mayPrecede after) l ->
  StronglySorted (mayPrecede after) (insertSorted after x l).
Proof.
  induction l as [| y l IH]; intros Hs; simpl.
  - repeat constructor.
  - destruct (after x y) eqn:E.
    + inversion Hs as [| ? ? Hs' Hall]; subst.
      constructor; [apply IH; exact Hs' |].
      rewrite (insertSorted_Permutation x l). constructor; [| exact Hall].
      destruct (mayPrecede_total x y) as [H | H]; [| exact H].
      unfold mayPrecede in H. congruence.
    + constructor; [exact Hs |].
      inversion Hs as [| ? ? Hs' Hall]; subst.
      constructor; [exact E |].
      eapply Forall_impl; [exact Hall |].
      intros z Hz. eapply mayPrecede_trans; [exact E | exact Hz].
Qed.

Lemma Array_sort_sorted (l : list A) : 
  StronglySorted (mayPrecede after) (Array_sort after l).
Proof.
  induction l as [| x l IH]; simpl; [constructor |].
  apply insertSorted_sorted. exact IH.
Qed.
End ArraySortFacts.

(** Stability: the elements that satisfy a predicate under which any two of
    them are tied keep their order. *)
Section ArraySortStable.
Context {A : Type} (after : A -> A -> bool) (P : A -> bool).
Hypothesis tied : forall x y, P x = true -> P y = true -> after x y = false.


End ArraySortStable.

(** ** Objects *)

Section JsObjectFacts.
Context {V : Type}.
Implicit Types (o : JsObject.t V) (k : string) (v : V).

Lemma get_set_eq k v o : JsObject.get k (JsObject.set k v o) = Some v.
Proof.
  induction o as [| [k' v'] o IH]; simpl.
  - rewrite String.eqb_refl. reflexivity.
  - destruct (String.eqb k k') eqn:E; simpl.
    + rewrite String.eqb_refl. reflexivity.
    + rewrite E. exact IH.
Qed.

Lemma get_set_ne k k' v o :
  k <> k' -> JsObject.get k' (JsObject.set k v o) = JsObject.get k' o.
Proof.
  intros Hne. induction o as [| [k0 v0] o IH]; simpl.
  - destruct (String.eqb k' k) eqn:E; [| reflexivity].
    apply String.eqb_eq in E. congruence.
  - destruct (String.eqb k k0) eqn:E; simpl.
    + apply String.eqb_eq in E. subst k0.
      destruct (String.eqb k' k) eqn:E'; [| reflexivity].
      apply String.eqb_eq in E'. congruence.
    + rewrite IH. reflexivity.
Qed.

Lemma get_None_keys k o : JsObject.get k o = None <-> ~ In k (map fst o).
Proof.
  induction o as [| [k' v'] o IH]; simpl.
  - split; [intros _ [] | reflexivity].
  - destruct (String.eqb k k') eqn:E.
    + apply String.eqb_eq in E. subst. split; [discriminate | intros H; exfalso; auto].
    + apply String.eqb_neq in E. rewrite IH. split.
      * intros H [H' | H']; [congruence | auto].
      * intros H H'. apply H. right. exact H'.
Qed.

Lemma get_Some_In k v o : JsObject.get k o = Some v -> In (k, v) o.
Proof.
  induction o as [| [k' v'] o IH]; simpl; [discriminate |].
  destruct (String.eqb k k') eqn:E.
  - apply String.eqb_eq in E. subst. intros [= ->]. left. reflexivity.
  - intros H. right. apply IH. exact H.
Qed.

(** The keys after an assignment: unchanged for an own key, extended at
    the end for a new one. *)
Lemma keys_set k v o :
  map fst (JsObject.set k v o)
  = match JsObject.get k o with
    | Some _ => map fst o
    | None => map fst o ++ [k]
    end.
Proof.
  induction o as [| [k' v'] o IH]; simpl; [reflexivity |].
  destruct (String.eqb k k') eqn:E; simpl.
  - apply String.eqb_eq in E. subst. reflexivity.
  - rewrite IH. destruct (JsObject.get k o); reflexivity.
Qed.

Lemma NoDup_set k v o :
  List.NoDup (map fst o) -> List.NoDup (map fst (JsObject.set k v o)).
Proof.
  intros Hnd. rewrite keys_set. destruct (JsObject.get k o) eqn:E; [exact Hnd |].
  apply get_None_keys in E.
  apply NoDup_ListNoDup. apply NoDup_ListNoDup in Hnd.
  apply NoDup_app. repeat split.
  - exact Hnd.
  - intros x Hx Hx'. apply list_elem_of_In in Hx. apply list_elem_of_In in Hx'.
    destruct Hx' as [<- | []]. auto.
  - apply NoDup_singleton.
Qed.

Lemma entries_Permutation o : JsObject.entries o ≡ₚ o.
Proof.
  unfold JsObject.entries. rewrite Array_sort_Permutation.
  induction o as [| kv o IH]; simpl; [reflexivity |].
  destruct (JsObject.isArrayIndex (fst kv)); simpl.
  - rewrite IH. reflexivity.
  - rewrite <- Permutation_middle, IH. reflexivity.
Qed.

Lemma keys_Permutation o : JsObject.keys o ≡ₚ map fst o.
Proof. unfold JsObject.keys. rewrite entries_Permutation. reflexivity. Qed.

(** The sum of a quantity over the own properties. *)
Lemma sum_set (f : V -> Z) k v o :
  sumZ (map (fun kv => f (snd kv)) (JsObject.set k v o))
  = sumZ (map (fun kv => f (snd kv)) o)
    - match JsObject.get k o with Some v0 => f v0 | None => 0 end
    + f v.
Proof.
  induction o as [| [k' v'] o IH]; simpl; [lia |].
  destruct (String.eqb k k') eqn:E; simpl; [lia |].
  rewrite IH. lia.
Qed.

(** Reading every own key gives back every own value. *)
Lemma sum_get_keys (f : V -> Z) o :
  List.NoDup (map fst o) ->
  sumZ (map (fun k => match JsObject.get k o with Some v => f v | None => 0 end)
          (map fst o))
  = sumZ (map (fun kv => f (snd kv)) o).
Proof.
  induction o as [| [k v] o IH]; simpl; intros Hnd; [reflexivity |].
  rewrite String.eqb_refl. inversion Hnd as [| ? ? Hnotin Hnd']; subst.
  f_equal. rewrite <- (IH Hnd'). f_equal.
  apply map_ext_in. intros k' Hin.
  destruct (String.eqb k' k) eqn:E; [| reflexivity].
  apply String.eqb_eq in E. subst. contradiction.
Qed.
End JsObjectFacts.

(** ** Strings in code unit order *)

Lemma leb_trans (x y z : string) :
  String.leb x y = true -> String.leb y z = true -> String.leb x z = true.
Proof.
  intros H1 H2. apply Is_true_true. apply Is_true_true in H1, H2.
  exact (transitivity (R := String.le) H1 H2).
Qed.

Lemma leb_total (x y : string) : String.leb x y = true \/ String.leb y x = true.
Proof. apply String.leb_total. Qed.

Lemma stringAfter_mayPrecede (x y : string) :
  mayPrecede stringAfter x y <-> String.leb x y = true.
Proof.
  unfold mayPrecede, stringAfter. destruct (String.leb x y); simpl; split; congruence.
Qed.

Lemma sort_strings_sorted (l : list string) :
  StronglySorted (fun x y => String.leb x y = true) (Array_sort stringAfter l).
Proof.
  assert (H : StronglySorted (mayPrecede stringAfter) (Array_sort stringAfter l)).
  { apply Array_sort_sorted.
    - intros x y z. rewrite !stringAfter_mayPrecede. apply leb_trans.
    - intros x y. rewrite !stringAfter_mayPrecede. apply leb_total. }
  induction H as [| x l' Hs IH Hall]; constructor; [exact IH |].
  eapply Forall_impl; [exact Hall |].
  intros y Hy. apply stringAfter_mayPrecede. exact Hy.
Qed.

(** ** Grouping by day *)

Lemma signedSum_map (ts : list Transaction) :
  Spec.signedSum ts = sumZ (map signedAmount ts).
Proof. induction ts as [| t ts IH]; simpl; [reflexivity | rewrite IH; reflexivity]. Qed.

Lemma groupStep_keys (g : JsObject.t DayData.t) (t : Transaction) :
  map fst (Analytics.groupStep g t)
  = match JsObject.get (Analytics.splitT0 (date t)) g with
    | Some _ => map fst g
    | None => map fst g ++ [Analytics.splitT0 (date t)]
    end.
Proof. unfold Analytics.groupStep. apply keys_set. Qed.

Lemma groupStep_NoDup (g : JsObject.t DayData.t) (t : Transaction) :
  List.NoDup (map fst g) -> List.NoDup (map fst (Analytics.groupStep g t)).
Proof. unfold Analytics.groupStep. apply NoDup_set. Qed.

Lemma groupStep_net (g : JsObject.t DayData.t) (t : Transaction) :
  sumZ (map (fun kv => netOf (snd kv)) (Analytics.groupStep g t))
  = sumZ (map (fun kv => netOf (snd kv)) g) + signedAmount t.
Proof.
  unfold Analytics.groupStep. rewrite sum_set.
  unfold signedAmount, netOf.
  destruct (JsObject.get (Analytics.splitT0 (date t)) g) as [d |];
    destruct (type t); simpl; lia.
Qed.

Lemma group_fold_NoDup (ts : list Transaction) (g : JsObject.t DayData.t) :
  List.NoDup (map fst g) -> List.NoDup (map fst (fold_left Analytics.groupStep ts g)).
Proof.
  revert g. induction ts as [| t ts IH]; intros g Hg; simpl; [exact Hg |].
  apply IH, groupStep_NoDup, Hg.
Qed.

Lemma group_fold_net (ts : list Transaction) (g : JsObject.t DayData.t) :
  sumZ (map (fun kv => netOf (snd kv)) (fold_left Analytics.groupStep ts g))
  = sumZ (map (fun kv => netOf (snd kv)) g) + Spec.signedSum ts.
Proof.
  revert g. induction ts as [| t ts IH]; intros g; simpl; [lia |].
  rewrite IH, groupStep_net. unfold signedAmount. lia.
Qed.

Lemma group_fold_keys (ts : list Transaction) (g : JsObject.t DayData.t) (k : string) :
  In k (map fst (fold_left Analytics.groupStep ts g))
  <-> In k (map fst g) \/ exists t, In t ts /\ Analytics.splitT0 (date t) = k.
Proof.
  revert g. induction ts as [| t ts IH]; intros g; simpl.
  - split; [auto | intros [H | (t & [] & _)]; exact H].
  - rewrite IH, groupStep_keys.
    destruct (JsObject.get (Analytics.splitT0 (date t)) g) eqn:E.
    + split.
      * intros [H | (t' & Hin & Hk)]; [auto | right; eauto].
      * intros [H | (t' & [-> | Hin] & Hk)]; [auto | | right; eauto].
        left. subst k. apply get_Some_In in E.
        apply (in_map fst) in E. exact E.
    + rewrite in_app_iff. simpl. split.
      * intros [[H | [H | []]] | (t' & Hin & Hk)]; [auto | right; eauto | right; eauto].
      * intros [H | (t' & [-> | Hin] & Hk)]; [auto | auto | right; eauto].
Qed.

Lemma groupTransactionsByDate_NoDup (ts : list Transaction) :
  List.NoDup (map fst (Analytics.groupTransactionsByDate ts)).
Proof. apply group_fold_NoDup. constructor. Qed.

Lemma groupTransactionsByDate_keys (ts : list Transaction) (k : string) :
  In k (map fst (Analytics.groupTransactionsByDate ts))
  <-> exists t, In t ts /\ Analytics.splitT0 (date t) = k.
Proof.
  unfold Analytics.groupTransactionsByDate. rewrite group_fold_keys. simpl.
  split; [intros [[] | H]; exact H | auto].
Qed.

Lemma groupTransactionsByDate_net (ts : list Transaction) :
  sumZ (map (fun kv => netOf (snd kv)) (Analytics.groupTransactionsByDate ts))
  = Spec.signedSum ts.
Proof. unfold Analytics.groupTransactionsByDate. rewrite group_fold_net. simpl. lia. Qed.

(** ** The daily series *)

Lemma chartPoints_total (g : JsObject.t DayData.t) (dates : list string) (b : Z) :
  (forall k, In k dates -> In k (map fst g)) ->
  exists points, Analytics.chartPoints g dates b = Some points.
Proof.
  revert b. induction dates as [| k dates IH]; intros b Hin; simpl; [eauto |].
  destruct (JsObject.get k g) as [d |] eqn:E.
  - destruct (IH (b + (DayData.income d - DayData.expense d))
                (fun k' H => Hin k' (or_intror H))) as [pts ->].
    eauto.
  - apply get_None_keys in E. exfalso. apply E, Hin. left. reflexivity.
Qed.

Lemma chartPoints_dates (g : JsObject.t DayData.t) (dates : list string) (b : Z)
    (points : list ChartPoint.t) :
  Analytics.chartPoints g dates b = Some points ->
  map ChartPoint.date points = dates.
Proof.
  revert b points. induction dates as [| k dates IH]; intros b points; simpl.
  - intros [= <-]. reflexivity.
  - destruct (JsObject.get k g) as [d |]; [| discriminate].
    destruct (Analytics.chartPoints g dates _) as [pts |] eqn:E; [| discriminate].
    intros [= <-]. simpl. f_equal. eapply IH. exact E.
Qed.

Lemma chartPoints_last (g : JsObject.t DayData.t) (dates : list string) (b : Z)
    (points : list ChartPoint.t) (p : ChartPoint.t) :
  Analytics.chartPoints g dates b = Some points ->
  last points = Some p ->
  ChartPoint.cumulativeBalance p = b + sumZ (map (netAt g) dates).
Proof.
  revert b points. induction dates as [| k dates IH]; intros b points; simpl.
  - intros [= <-]. discriminate.
  - unfold netAt at 1. destruct (JsObject.get k g) as [d |]; [| discriminate].
    destruct (Analytics.chartPoints g dates _) as [pts |] eqn:E; [| discriminate].
    intros [= <-]. destruct pts as [| q pts].
    + simpl. intros [= <-]. simpl.
      destruct dates; [simpl; unfold netOf; lia |].
      simpl in E. destruct (JsObject.get _ g); [| discriminate].
      destruct (Analytics.chartPoints g dates _); discriminate.
    + intros Hlast. change (last (q :: pts) = Some p) in Hlast.
      rewrite (IH _ _ E Hlast). unfold netOf. lia.
Qed.

Lemma sumOfType_spec (ty : TransactionType) (ts : list Transaction) :
  sumOfType ty ts = Spec.sumWhere ty ts.
Proof.
  unfold sumOfType. rewrite fold_left_add. simpl.
  induction ts as [| t ts IH]; simpl; [reflexivity |].
  destruct (TransactionType_eqb (type t) ty); simpl; lia.
Qed.

Lemma signedSum_sumWhere (ts : list Transaction) :
  Spec.signedSum ts = Spec.sumWhere Income ts - Spec.sumWhere Expense ts.
Proof.
  induction ts as [| t ts IH]; simpl; [reflexivity |].
  rewrite IH. destruct (type t); simpl; lia.
Qed.

Lemma generateChartData_total (ts : list Transaction) (b : Z) :
  exists chart,
    Analytics.generateChartData (Analytics.groupTransactionsByDate ts) b = Some chart.
Proof.
  unfold Analytics.generateChartData. apply chartPoints_total.
  intros k Hk.
  eapply Permutation_in in Hk; [| apply Array_sort_Permutation].
  eapply Permutation_in in Hk; [| apply keys_Permutation].
  exact Hk.
Qed.

Lemma generateChartData_dates (g : JsObject.t DayData.t) (b : Z)
    (chart : list ChartPoint.t) :
  Analytics.generateChartData g b = Some chart ->
  map ChartPoint.date chart = Array_sort stringAfter (JsObject.keys g).
Proof. unfold Analytics.generateChartData. apply chartPoints_dates. Qed.

(** ** C1: balance reconciliation *)

(** The fold of the running balance over the sorted days ends at the
    starting balance plus the signed sum of all transactions. *)
Lemma chart_last_signedSum (ts : list Transaction) (b : Z)
    (chart : list ChartPoint.t) (p : ChartPoint.t) :
  Analytics.generateChartData (Analytics.groupTransactionsByDate ts) b = Some chart ->
  last chart = Some p ->
  ChartPoint.cumulativeBalance p = b + Spec.signedSum ts.
Proof.
  intros Hchart Hlast. unfold Analytics.generateChartData in Hchart.
  rewrite (chartPoints_last _ _ _ _ _ Hchart Hlast). f_equal.
  rewrite <- groupTransactionsByDate_net.
  rewrite <- (sum_get_keys netOf) by apply groupTransactionsByDate_NoDup.
  apply sumZ_Permutation. apply Permutation_map.
  rewrite Array_sort_Permutation. apply keys_Permutation.
Qed.

Lemma summarize_netAmount (ts : list Transaction) :
  Summary.netAmount (Analytics.summarize ts) = Spec.signedSum ts.
Proof.
  unfold Analytics.summarize. simpl.
  rewrite !sumOfType_spec, signedSum_sumWhere. reflexivity.
Qed.


(** In the answer of the analytics endpoint the series is seeded with the
    stored balance minus the net amount of the period, so that its last
    point lands on the stored balance. *)
Lemma getAnalytics_reconciles (clock : Z) (req : Request.t) (s : Store)
    (period : string) (dateRange : string * string) (summary : Summary.t)
    (chartData : list ChartPoint.t) (categoryBreakdown : CategoryBreakdown.t)
    (p : ChartPoint.t) :
  body (fst (AnalyticsController.getAnalytics clock req s))
  = AnalyticsBody period dateRange summary chartData categoryBreakdown ->
  last chartData = Some p ->
  ChartPoint.cumulativeBalance p
  = balanceOf (USERS s !! TransactionController.userOf (Request.user req)).
Proof.
  unfold AnalyticsController.getAnalytics.
  destruct (TransactionController.missing (Request.user req)); [discriminate |].
  destruct (negb _); [discriminate |].
  unfold getUser, queryTransactions. cbv beta iota zeta.
  match goal with
  | |- context [Analytics.generateChartData (Analytics.groupTransactionsByDate ?ts) ?b] =>
      destruct (Analytics.generateChartData (Analytics.groupTransactionsByDate ts) b)
        as [chart |] eqn:E; [| discriminate];
      intros Hbody Hlast; simpl in Hbody; injection Hbody as _ _ _ <- _;
      rewrite (chart_last_signedSum ts _ _ _ E Hlast), summarize_netAmount
  end.
  simpl. lia.
Qed.

(** ** C2: aggregation *)




(** ** C3: shape and order of the daily series *)

Lemma groupStep_dayValueAt (ty : TransactionType) (g : JsObject.t DayData.t)
    (t : Transaction) (k : string) :
  dayValueAt ty (Analytics.groupStep g t) k
  = dayValueAt ty g k
    + (if TransactionType_eqb (type t) ty && String.eqb (Analytics.splitT0 (date t)) k
       then amount t else 0).
Proof.
  unfold Analytics.groupStep, dayValueAt.
  destruct (String.eqb (Analytics.splitT0 (date t)) k) eqn:E.
  - apply String.eqb_eq in E. subst k. rewrite get_set_eq.
    destruct (JsObject.get (Analytics.splitT0 (date t)) g) as [d |];
      destruct ty, (type t); simpl; lia.
  - apply String.eqb_neq in E. rewrite get_set_ne by exact E.
    rewrite andb_false_r. lia.
Qed.

Lemma group_fold_dayValueAt (ty : TransactionType) (ts : list Transaction)
    (g : JsObject.t DayData.t) (k : string) :
  dayValueAt ty (fold_left Analytics.groupStep ts g) k
  = dayValueAt ty g k + Spec.dayTotal ty k ts.
Proof.
  revert g. induction ts as [| t ts IH]; intros g; simpl; [lia |].
  rewrite IH, groupStep_dayValueAt. lia.
Qed.

Lemma groupTransactionsByDate_dayValueAt (ty : TransactionType)
    (ts : list Transaction) (k : string) :
  dayValueAt ty (Analytics.groupTransactionsByDate ts) k = Spec.dayTotal ty k ts.
Proof.
  unfold Analytics.groupTransactionsByDate. rewrite group_fold_dayValueAt.
  reflexivity.
Qed.

(** Every point of the series carries the sums of its day. *)
Lemma chartPoints_values (g : JsObject.t DayData.t) (dates : list string) (b : Z)
    (points : list ChartPoint.t) (p : ChartPoint.t) :
  Analytics.chartPoints g dates b = Some points ->
  In p points ->
  (forall ty, pointValue ty p = dayValueAt ty g (ChartPoint.date p))
  /\ ChartPoint.net p = ChartPoint.income p - ChartPoint.expense p.
Proof.
  revert b points. induction dates as [| k dates IH]; intros b points; simpl.
  - intros [= <-] [].
  - destruct (JsObject.get k g) as [d |] eqn:Ek; [| discriminate].
    destruct (Analytics.chartPoints g dates _) as [pts |] eqn:E; [| discriminate].
    intros [= <-] [<- | Hin].
    + simpl. split; [| reflexivity].
      intros ty. unfold dayValueAt. rewrite Ek. destruct ty; reflexivity.
    + eapply IH; eauto.
Qed.

Lemma ltb_of_leb_ne (x y : string) :
  String.leb x y = true -> x <> y -> String.ltb x y = true.
Proof.
  unfold String.leb, String.ltb. intros Hle Hne.
  destruct (String.compare x y) eqn:E; try reflexivity; try discriminate.
  apply String.compare_eq_iff in E. contradiction.
Qed.

Lemma strictly_sorted (l : list string) :
  StronglySorted (fun x y => String.leb x y = true) l ->
  List.NoDup l ->
  StronglySorted (fun x y => String.ltb x y = true) l.
Proof.
  induction 1 as [| x l Hs IH Hall]; intros Hnd; constructor.
  - apply IH. inversion Hnd; assumption.
  - inversion Hnd as [| ? ? Hnotin Hnd']; subst.
    rewrite Forall_forall in Hall |- *. intros y Hy.
    apply ltb_of_leb_ne; [apply Hall; exact Hy |].
    intros ->. apply Hnotin. apply list_elem_of_In. exact Hy.
Qed.

Lemma sorted_keys_NoDup (ts : list Transaction) :
  List.NoDup
    (Array_sort stringAfter (JsObject.keys (Analytics.groupTransactionsByDate ts))).
Proof.
  apply NoDup_ListNoDup.
  rewrite Array_sort_Permutation, keys_Permutation.
  apply NoDup_ListNoDup, groupTransactionsByDate_NoDup.
Qed.

(** C3.  The daily series of any list of transactions exists; its dates are
    exactly the day keys (the text of the date before the first ['T']) of
    the transactions, each once, in strictly ascending order, so that no day
    without a transaction has a point; every point carries the income and
    expense sums of its day and their difference; and the series is empty
    exactly for the empty list. *)
Theorem daily_series_shape (transactions : list Transaction) (b : Z) :
  exists chart,
    Analytics.generateChartData (Analytics.groupTransactionsByDate transactions) b
    = Some chart
    /\ (forall day,
          In day (map ChartPoint.date chart)
          <-> exists t, In t transactions /\ Analytics.splitT0 (date t) = day)
    /\ List.NoDup (map ChartPoint.date chart)
    /\ StronglySorted (fun x y => String.ltb x y = true) (map ChartPoint.date chart)
    /\ (forall p, In p chart ->
          ChartPoint.income p = Spec.dayTotal Income (ChartPoint.date p) transactions
          /\ ChartPoint.expense p
             = Spec.dayTotal Expense (ChartPoint.date p) transactions
          /\ ChartPoint.net p = ChartPoint.income p - ChartPoint.expense p)
    /\ (transactions = [] <-> chart = []).
Proof.
  destruct (generateChartData_total transactions b) as [chart Hchart].
  exists chart. split; [exact Hchart |].
  pose proof (generateChartData_dates _ _ _ Hchart) as Hdates.
  assert (Hkeys : forall day,
            In day (map ChartPoint.date chart)
            <-> exists t, In t transactions /\ Analytics.splitT0 (date t) = day).
  { intros day. rewrite Hdates, <- groupTransactionsByDate_keys.
    split; intros H.
    - eapply Permutation_in in H; [| apply Array_sort_Permutation].
      eapply Permutation_in in H; [| apply keys_Permutation]. exact H.
    - eapply Permutation_in; [symmetry; apply Array_sort_Permutation |].
      eapply Permutation_in; [symmetry; apply keys_Permutation |]. exact H. }
  split; [exact Hkeys |]. rewrite Hdates.
  split; [apply sorted_keys_NoDup |].
  split; [apply strictly_sorted; [apply sort_strings_sorted | apply sorted_keys_NoDup] |].
  split; [| split].
  - intros p Hp. unfold Analytics.generateChartData in Hchart.
    destruct (chartPoints_values _ _ _ _ p Hchart Hp) as [Hv Hnet].
    rewrite <- !groupTransactionsByDate_dayValueAt.
    split; [exact (Hv Income) |]. split; [exact (Hv Expense) | exact Hnet].
  - intros ->. vm_compute in Hchart. congruence.
  - intros ->. destruct transactions as [| t ts]; [reflexivity |].
    exfalso. apply (proj2 (Hkeys (Analytics.splitT0 (date t)))).
    exists t. split; [left; reflexivity | reflexivity].
Qed.

(** ** Grouping by category *)






Lemma addOfType_NoDup (ty : TransactionType) (g : JsObject.t Z) (t : Transaction) :
  List.NoDup (map fst g) -> List.NoDup (map fst (addOfType ty g t)).
Proof.
  unfold addOfType, Analytics.addTo.
  destruct (TransactionType_eqb (type t) ty); [apply NoDup_set | auto].
Qed.

Lemma fold_addOfType_NoDup (ty : TransactionType) (ts : list Transaction)
    (g : JsObject.t Z) :
  List.NoDup (map fst g) -> List.NoDup (map fst (fold_left (addOfType ty) ts g)).
Proof.
  revert g. induction ts as [| t ts IH]; intros g Hg; simpl; [exact Hg |].
  apply IH, addOfType_NoDup, Hg.
Qed.

Lemma includes_In (l : list string) (x : string) :
  Analytics.includes l x = true <-> In x l.
Proof.
  unfold Analytics.includes. rewrite existsb_exists. split.
  - intros (y & Hy & E). apply String.eqb_eq in E. subst. exact Hy.
  - intros H. exists x. split; [exact H | apply String.eqb_refl].
Qed.




Lemma firstSeen_In (l : list string) (x : string) : In x (Spec.firstSeen l) <-> In x l.
Proof.
  induction l as [| y l IH]; simpl; [reflexivity |].
  rewrite filter_In, IH. split.
  - intros [H | [H _]]; auto.
  - intros [H | H]; [auto |].
    destruct (String.eqb x y) eqn:E.
    + apply String.eqb_eq in E. auto.
    + right. split; [exact H | reflexivity].
Qed.









(** ** Formatting the categories *)





Lemma formatCategories_Permutation (o : JsObject.t Z) (total : Z) :
  Analytics.formatCategories o total ≡ₚ map (Analytics.toSlice total) o.
Proof.
  unfold Analytics.formatCategories.
  rewrite Array_sort_Permutation, entries_Permutation. reflexivity.
Qed.



Lemma toSlice_percentage (total : Z) (c : string) (a : Z) :
  Slice.percentage (Analytics.toSlice total (c, a))
  = if total >? 0 then Spec.nearestHalfUp (a * 100) total else 0.
Proof.
  simpl. destruct (total >? 0) eqn:E; [| reflexivity].
  rewrite Z.gtb_ltb in E. apply Z.ltb_lt in E.
  rewrite <- Math_round_div by lia.
  apply Math_round_comp. rewrite inject_Z_mult.
  pose proof (inject_Z_nonzero total ltac:(lia)) as Hq.
  change (inject_Z 100) with 100%Q. field. exact Hq.
Qed.



(** ** C4: the category breakdown *)




Example breakdown_scenario :
  CategoryBreakdown.expense
    (Analytics.calculateCategoryBreakdown
       [sample Expense "A" 60 "2024-01-01"; sample Expense "B" 40 "2024-01-02"])
  = [ {| Slice.category := "A"; Slice.amount := 60; Slice.percentage := 60 |};
      {| Slice.category := "B"; Slice.amount := 40; Slice.percentage := 40 |} ].
Proof. vm_compute. reflexivity. Qed.



(** ** C5: percentage closure *)

(** The roundings of the shares of a total, summed: each is within half a
    unit of its share. *)
Lemma shares_sum (total : Z) (l : list (string * Z)) :
  0 < total ->
  let percentages := map (fun kv => Spec.nearestHalfUp (snd kv * 100) total) l in
  let n := Z.of_nat (List.length l) in
  2 * total * sumZ percentages - n * total <= 200 * sumZ (map snd l)
  /\ (l <> [] -> 200 * sumZ (map snd l) < 2 * total * sumZ percentages + n * total)
  /\ 200 * sumZ (map snd l) <= 2 * total * sumZ percentages + n * total.
Proof.
  intros Ht. induction l as [| [c a] l IH]; simpl.
  - repeat split; try lia. intros H. contradiction.
  - simpl in IH. destruct IH as (IH1 & _ & IH3).
    pose proof (nearestHalfUp_bounds (a * 100) total Ht) as Hb. simpl in Hb.
    set (r := Spec.nearestHalfUp (a * 100) total) in *.
    set (S := sumZ (map (fun kv => Spec.nearestHalfUp (snd kv * 100) total) l)) in *.
    set (A := sumZ (map snd l)) in *.
    rewrite Nat2Z.inj_succ.
    set (n := Z.of_nat (List.length l)) in *.
    replace (2 * total * (r + S)) with (2 * total * r + 2 * total * S) by ring.
    replace (Z.succ n * total) with (n * total + total) by ring.
    repeat split; intros; lia.
Qed.

Lemma share_range (total a : Z) :
  0 < total -> 0 <= a <= total -> 0 <= Spec.nearestHalfUp (a * 100) total <= 100.
Proof.
  intros Ht Ha. pose proof (nearestHalfUp_bounds (a * 100) total Ht) as Hb.
  simpl in Hb. nia.
Qed.

Lemma sumZ_nonneg (l : list (string * Z)) :
  (forall x, In x l -> 0 <= snd x) -> 0 <= sumZ (map snd l).
Proof.
  induction l as [| x l IH]; simpl; intros Hpos; [lia |].
  pose proof (Hpos x (or_introl eq_refl)).
  assert (0 <= sumZ (map snd l)); [| lia].
  apply IH. intros z Hz. apply Hpos. right. exact Hz.
Qed.

Lemma sumZ_nonneg_le (l : list (string * Z)) (kv : string * Z) :
  (forall x, In x l -> 0 <= snd x) -> In kv l -> snd kv <= sumZ (map snd l).
Proof.
  induction l as [| x l IH]; simpl; intros Hpos Hin; [contradiction |].
  assert (Hl : forall z, In z l -> 0 <= snd z)
    by (intros z Hz; apply Hpos; right; exact Hz).
  pose proof (sumZ_nonneg l Hl) as H0.
  pose proof (Hpos x (or_introl eq_refl)) as Hx.
  destruct Hin as [<- | Hin]; [lia |].
  specialize (IH Hl Hin). lia.
Qed.

Lemma map_toSlice_percentage (total : Z) (l : list (string * Z)) :
  0 < total ->
  map Slice.percentage (map (Analytics.toSlice total) l)
  = map (fun kv => Spec.nearestHalfUp (snd kv * 100) total) l.
Proof.
  intros Ht. rewrite map_map. apply map_ext. intros [c a].
  rewrite toSlice_percentage.
  destruct (total >? 0) eqn:E; [reflexivity |].
  rewrite Z.gtb_ltb in E. apply Z.ltb_ge in E. lia.
Qed.

(** C5.  When the amounts of a category object are non-negative and their
    sum, the partition total, is positive, the percentages of its [n]
    slices sum to a value between [100 - (n - 1)] and [100 + (n - 1)], each
    percentage lies between 0 and 100, and there is at least one slice. *)
Theorem percentage_closure (categories : JsObject.t Z) (total : Z) :
  (forall kv, In kv categories -> 0 <= snd kv) ->
  sumZ (map snd categories) = total ->
  0 < total ->
  let slices := Analytics.formatCategories categories total in
  let n := Z.of_nat (List.length slices) in
  1 <= n
  /\ 100 - (n - 1) <= sumZ (map Slice.percentage slices) <= 100 + (n - 1)
  /\ (forall s, In s slices -> 0 <= Slice.percentage s <= 100).
Proof.
  intros Hpos Hsum Ht slices n. subst slices n.
  pose proof (formatCategories_Permutation categories total) as Hperm.
  rewrite (Permutation_length Hperm), length_map.
  rewrite (sumZ_Permutation _ _ (Permutation_map Slice.percentage Hperm)).
  rewrite map_toSlice_percentage by exact Ht.
  destruct (shares_sum total categories Ht) as (H1 & H2 & _).
  rewrite Hsum in H1, H2.
  assert (Hne : categories <> []).
  { intros ->. simpl in Hsum. lia. }
  specialize (H2 Hne).
  assert (Hn : 1 <= Z.of_nat (List.length categories)).
  { destruct categories; [contradiction | simpl; lia]. }
  split; [exact Hn |]. split.
  - set (S := sumZ _) in *. set (n := Z.of_nat _) in *. nia.
  - intros s Hs. eapply Permutation_in in Hs; [| exact Hperm].
    apply in_map_iff in Hs. destruct Hs as ([c a] & <- & Hin).
    rewrite toSlice_percentage.
    destruct (total >? 0); [| lia].
    apply share_range; [exact Ht |]. split.
    + apply (Hpos (c, a) Hin).
    + rewrite <- Hsum. apply (sumZ_nonneg_le categories (c, a) Hpos Hin).
Qed.

Lemma percentage_closure_witness :
  let categories := JsObject.set "C" 1 (JsObject.set "B" 1 (JsObject.set "A" 1 JsObject.empty)) in
  map Slice.percentage (Analytics.formatCategories categories 3) = [33; 33; 33]
  /\ 100 - (3 - 1) <= sumZ (map Slice.percentage (Analytics.formatCategories categories 3))
     <= 100 + (3 - 1).
Proof.
  intros categories. split; [vm_compute; reflexivity |].
  assert (Hpos : forall kv, In kv categories -> 0 <= snd kv).
  { intros kv [<- | [<- | [<- | []]]]; simpl; lia. }
  destruct (percentage_closure categories 3 Hpos eq_refl ltac:(lia)) as (_ & H & _).
  exact H.
Defined.



(** ** C8: rejection of period tokens *)

Lemma includes_validPeriods (token : string) :
  Analytics.includes Analytics.validPeriods token = true
  <-> In token ["7d"; "30d"; "90d"; "1y"]%string.
Proof. apply includes_In. Qed.

Lemma getAnalytics_ok (clock : Z) (req : Request.t) (s : Store) (token : string) :
  Request.period req = Some token ->
  TransactionController.missing (Request.user req) = false ->
  Analytics.includes Analytics.validPeriods token = true ->
  status (fst (AnalyticsController.getAnalytics clock req s)) = 200
  /\ sent (snd (AnalyticsController.getAnalytics clock req s)) <> sent s.
Proof.
  intros Hp Hu Hv. unfold AnalyticsController.getAnalytics.
  rewrite Hp. cbv beta iota zeta. rewrite Hu, Hv.
  unfold getUser, queryTransactions. cbv beta iota zeta.
  match goal with
  | |- context [Analytics.generateChartData (Analytics.groupTransactionsByDate ?ts) ?b] =>
      destruct (generateChartData_total ts b) as [chart ->]
  end.
  simpl. split; [reflexivity |].
  intros H. apply (f_equal (@List.length Command)) in H.
  rewrite !length_app in H. simpl in H. lia.
Qed.

Lemma getTransactionsByPeriod_ok (clock : Z) (req : Request.t) (s : Store)
    (token : string) :
  Request.period req = Some token ->
  TransactionController.missing (Request.user req) = false ->
  Analytics.includes Analytics.validPeriods token = true ->
  status (fst (TransactionController.getTransactionsByPeriod clock req s)) = 200
  /\ sent (snd (TransactionController.getTransactionsByPeriod clock req s)) <> sent s.
Proof.
  intros Hp Hu Hv. unfold TransactionController.getTransactionsByPeriod.
  rewrite Hp, Hu. cbv beta iota zeta.
  unfold TransactionController.includesParam.
  change (Analytics.includes _ token) with
    (Analytics.includes Analytics.validPeriods token). rewrite Hv.
  unfold queryTransactions. simpl.
  split; [reflexivity |].
  intros H. apply (f_equal (@List.length Command)) in H.
  rewrite !length_app in H. simpl in H. lia.
Qed.

(** C8.  For a period token outside 7d, 30d, 90d, 1y the period-summary and
    the analytics endpoints answer 400 and leave the store as it was, no
    command sent; the answer is the invalid-period error whenever the
    request carries a user identifier (without one the earlier guard
    answers 400).  For a token of the set, and a user identifier, both
    endpoints answer 200 after sending their queries. *)
Theorem invalid_period_rejected (clock : Z) (req : Request.t) (s : Store)
    (token : string) :
  Request.period req = Some token ->
  (~ In token ["7d"; "30d"; "90d"; "1y"]%string ->
     status (fst (TransactionController.getTransactionsByPeriod clock req s)) = 400
     /\ snd (TransactionController.getTransactionsByPeriod clock req s) = s
     /\ status (fst (AnalyticsController.getAnalytics clock req s)) = 400
     /\ snd (AnalyticsController.getAnalytics clock req s) = s
     /\ (TransactionController.missing (Request.user req) = false ->
           TransactionController.getTransactionsByPeriod clock req s
           = (Spec.InvalidPeriod, s)
           /\ AnalyticsController.getAnalytics clock req s = (Spec.InvalidPeriod, s)))
  /\ (In token ["7d"; "30d"; "90d"; "1y"]%string ->
        TransactionController.missing (Request.user req) = false ->
        status (fst (TransactionController.getTransactionsByPeriod clock req s)) = 200
        /\ sent (snd (TransactionController.getTransactionsByPeriod clock req s))
           <> sent s
        /\ status (fst (AnalyticsController.getAnalytics clock req s)) = 200
        /\ sent (snd (AnalyticsController.getAnalytics clock req s)) <> sent s).
Proof.
  intros Hp. split.
  - intros Hbad.
    assert (Hv : Analytics.includes Analytics.validPeriods token = false).
    { destruct (Analytics.includes Analytics.validPeriods token) eqn:E; [| reflexivity].
      apply includes_validPeriods in E. contradiction. }
    unfold TransactionController.getTransactionsByPeriod,
      AnalyticsController.getAnalytics.
    rewrite Hp. cbv beta iota zeta.
    unfold TransactionController.includesParam.
    change (Analytics.includes _ token) with
      (Analytics.includes Analytics.validPeriods token).
    rewrite Hv.
    destruct (TransactionController.missing (Request.user req)); simpl.
    + do 4 (split; [reflexivity |]). intros H. discriminate H.
    + do 4 (split; [reflexivity |]). intros _. split; reflexivity.
  - intros Hin Hu. apply includes_validPeriods in Hin.
    destruct (getTransactionsByPeriod_ok clock req s token Hp Hu Hin) as [H1 H2].
    destruct (getAnalytics_ok clock req s token Hp Hu Hin) as [H3 H4].
    auto.
Qed.

Lemma invalid_period_rejected_witness :
  TransactionController.getTransactionsByPeriod 0
    (sampleRequest (Some "5d"%string) JsUndefined) emptyStore
  = (Spec.InvalidPeriod, emptyStore)
  /\ AnalyticsController.getAnalytics 0
       (sampleRequest (Some "5d"%string) JsUndefined) emptyStore
     = (Spec.InvalidPeriod, emptyStore).
Proof.
  destruct (invalid_period_rejected 0 (sampleRequest (Some "5d"%string) JsUndefined)
              emptyStore "5d" eq_refl) as [H _].
  assert (Hbad : ~ In "5d"%string ["7d"; "30d"; "90d"; "1y"]%string).
  { intros [E | [E | [E | [E | []]]]]; discriminate E. }
  destruct (H Hbad) as (_ & _ & _ & _ & H5).
  exact (H5 eq_refl).
Defined.

(** ** C9: the month ranges *)

(** The end of the previous month is a whole second before the start of
    the current month, whatever the clock and the offset of local time. *)
Lemma month_ends_one_second_early (tz now : Z) :
  let d := Dashboard.monthDates tz now in
  Dashboard.prevMonthEnd d + 1000 = Dashboard.currentMonthStart d.
Proof.
  unfold Dashboard.monthDates, JsDate.newDate, JsDate.UTC, JsDate.MakeDate,
    JsDate.MakeDay, JsDate.MakeTime, JsDate.msPerDay. simpl.
  lia.
Qed.

(** C9, at a failing input.  With local time equal to UTC and the clock at
    2024-11-15T12:00:00.000Z the two ranges end at 23:59:59.000 of the last
    day of their month, and a transaction dated 2024-10-31T23:59:59.500Z
    lies between the start of the previous range and the end of the current
    one but in neither range; in general the previous range ends a whole
    second before the current range starts. *)
Theorem month_ranges_leave_gap :
  let ranges := Dashboard.getMonthRanges 0 1731672000000 in
  let d := "2024-10-31T23:59:59.500Z"%string in
  ranges
  = {| MonthRanges.current :=
         {| Range.start := "2024-11-01T00:00:00.000Z";
            Range.finish := "2024-11-30T23:59:59.000Z" |};
       MonthRanges.previous :=
         {| Range.start := "2024-10-01T00:00:00.000Z";
            Range.finish := "2024-10-31T23:59:59.000Z" |} |}
  /\ String.leb (Range.start (MonthRanges.previous ranges)) d = true
  /\ String.leb d (Range.finish (MonthRanges.current ranges)) = true
  /\ Range.between d (MonthRanges.previous ranges) = false
  /\ Range.between d (MonthRanges.current ranges) = false
  /\ (forall tz now,
        Dashboard.prevMonthEnd (Dashboard.monthDates tz now) + 1
        < Dashboard.currentMonthStart (Dashboard.monthDates tz now)).
Proof.
  split; [vm_compute; reflexivity |].
  split; [vm_compute; reflexivity |].
  split; [vm_compute; reflexivity |].
  split; [vm_compute; reflexivity |].
  split; [vm_compute; reflexivity |].
  intros tz now. pose proof (month_ends_one_second_early tz now) as H.
  cbv zeta in H. lia.
Qed.

(** ** C10: amounts at creation *)

Lemma amountRejected_bad (v : JsValue) : amountRejected v = true <-> Spec.badAmount v.
Proof.
  unfold amountRejected. destruct v; simpl; try tauto.
  rewrite Z.leb_le. reflexivity.
Qed.

Lemma amountAccepted_positive (v : JsValue) :
  amountRejected v = false -> exists n, v = JsNumber n /\ 0 < n.
Proof.
  unfold amountRejected. destruct v; simpl; try discriminate.
  intros H. apply Z.leb_gt in H. eauto.
Qed.

(** The two outcomes of [createTransaction]: a 400 answer that leaves the
    store as it was, or a 201 answer for a positive amount, whose
    transaction is the one item put into the table. *)
Lemma createTransaction_cases (uuid : string) (clock : Z) (req : Request.t) (s : Store) :
  let r := TransactionController.createTransaction uuid clock req s in
  (exists error, r = (badRequest error, s))
  \/ (amountRejected (Request.amount req) = false
      /\ exists t balance,
           fst r = {| status := 201;
                      body := CreatedBody "Transaction added successfully" t balance |}
           /\ amount t = numberOf (Request.amount req)
           /\ transactionId t = uuid
           /\ TRANSACTIONS (snd r) = <[uuid := t]> (TRANSACTIONS s)).
Proof.
  unfold TransactionController.createTransaction.
  destruct (TransactionController.missing (Request.user req)); [left; eexists; reflexivity |].
  destruct (negb (truthy (Request.type req)) || _); [left; eexists; reflexivity |].
  fold (amountRejected (Request.amount req)).
  destruct (amountRejected (Request.amount req)) eqn:Ha; [left; eexists; reflexivity |].
  destruct (negb (truthy (Request.description req)) || _); [left; eexists; reflexivity |].
  right. split; [reflexivity |].
  unfold addBalance, putTransaction, setBalance, getUser, record. simpl.
  destruct (USERS s !! TransactionController.userOf (Request.user req));
    simpl; eexists; eexists; repeat split; reflexivity.
Qed.

Lemma legacy_createTransaction_cases (validate : Legacy.Doc.t -> option string)
    (clock : Z) (req : Request.t) (s : Legacy.Store) :
  let r := Legacy.createTransaction validate clock req s in
  (Legacy.status (fst r) = 400 /\ snd r = s)
  \/ (amountRejected (Request.amount req) = false
      /\ (Legacy.saved (snd r) = Legacy.saved s
          \/ exists t, Legacy.Doc.amount t = numberOf (Request.amount req)
                       /\ Legacy.saved (snd r) = Legacy.saved s ++ [t])).
Proof.
  unfold Legacy.createTransaction.
  destruct (negb (truthy (Request.type req)) || _); [left; split; reflexivity |].
  fold (amountRejected (Request.amount req)).
  destruct (amountRejected (Request.amount req)) eqn:Ha; [left; split; reflexivity |].
  destruct (negb (truthy (Request.description req)) || _); [left; split; reflexivity |].
  right. split; [reflexivity |].
  destruct (Request.user req) as [user |]; [| left; reflexivity].
  destruct (validate _); [left; reflexivity |]. simpl.
  destruct (Legacy.balances s !! user); simpl; right; eexists;
    (split; [| reflexivity]); reflexivity.
Qed.

(** C10.  A [createTransaction] request whose amount is not a number, is
    [NaN], or is not positive (zero included) is answered 400 and leaves
    the store as it was: no transaction stored, no balance changed, no
    command sent; this holds for the handler on the key-value store and for
    the earlier handler on the document store.  Consequently the
    transaction of every 201 answer has a positive amount, and the
    positivity of all stored amounts is preserved by every request. *)
Theorem nonpositive_amount_rejected (uuid : string) (clock : Z) (req : Request.t)
    (s : Store) (validate : Legacy.Doc.t -> option string) (ls : Legacy.Store) :
  Spec.badAmount (Request.amount req) ->
  (status (fst (TransactionController.createTransaction uuid clock req s)) = 400
   /\ snd (TransactionController.createTransaction uuid clock req s) = s
   /\ Legacy.status (fst (Legacy.createTransaction validate clock req ls)) = 400
   /\ snd (Legacy.createTransaction validate clock req ls) = ls)
  /\ (forall req' message t balance,
        body (fst (TransactionController.createTransaction uuid clock req' s))
        = CreatedBody message t balance ->
        0 < amount t
        /\ TRANSACTIONS (snd (TransactionController.createTransaction uuid clock req' s))
             !! uuid = Some t)
  /\ (forall req',
        (forall id t, TRANSACTIONS s !! id = Some t -> 0 < amount t) ->
        forall id t,
          TRANSACTIONS (snd (TransactionController.createTransaction uuid clock req' s))
            !! id = Some t ->
          0 < amount t)
  /\ (forall req',
        Forall (fun t => 0 < Legacy.Doc.amount t) (Legacy.saved ls) ->
        Forall (fun t => 0 < Legacy.Doc.amount t)
          (Legacy.saved (snd (Legacy.createTransaction validate clock req' ls)))).
Proof.
  intros Hbad. apply amountRejected_bad in Hbad.
  split; [| split; [| split]].
  - destruct (createTransaction_cases uuid clock req s) as [[e He] | [H _]];
      [| congruence].
    rewrite He. simpl.
    destruct (legacy_createTransaction_cases validate clock req ls)
      as [[H3 H4] | [H _]]; [| congruence].
    auto.
  - intros req' message t balance Hbody.
    destruct (createTransaction_cases uuid clock req' s)
      as [[e He] | (Ha & t' & b' & Hr & Hamt & _ & Htab)].
    + rewrite He in Hbody. discriminate Hbody.
    + rewrite Hr in Hbody. simpl in Hbody. injection Hbody as _ <- _.
      destruct (amountAccepted_positive _ Ha) as (n & Hn & Hpos).
      rewrite Htab, lookup_insert_eq. split; [| reflexivity].
      rewrite Hamt, Hn. exact Hpos.
  - intros req' Hinv id t Hlook.
    destruct (createTransaction_cases uuid clock req' s)
      as [[e He] | (Ha & t' & b' & _ & Hamt & _ & Htab)].
    + rewrite He in Hlook. eapply Hinv. exact Hlook.
    + rewrite Htab in Hlook.
      destruct (decide (uuid = id)) as [<- | Hne].
      * rewrite lookup_insert_eq in Hlook. injection Hlook as <-.
        destruct (amountAccepted_positive _ Ha) as (n & Hn & Hpos).
        rewrite Hamt, Hn. exact Hpos.
      * rewrite lookup_insert_ne in Hlook by exact Hne. eapply Hinv. exact Hlook.
  - intros req' Hinv.
    destruct (legacy_createTransaction_cases validate clock req' ls)
      as [[_ H2] | (Ha & [H | (t & Hamt & H)])].
    + rewrite H2. exact Hinv.
    + rewrite H. exact Hinv.
    + rewrite H. apply Forall_app. split; [exact Hinv |].
      constructor; [| constructor].
      destruct (amountAccepted_positive _ Ha) as (n & Hn & Hpos).
      rewrite Hamt, Hn. exact Hpos.
Qed.

Lemma nonpositive_amount_rejected_witness :
  TransactionController.createTransaction "id-1" 1731672000000
    (sampleRequest None (JsNumber 0)) emptyStore
  = (badRequest "Amount must be a positive number", emptyStore)
  /\ status
       (fst (TransactionController.createTransaction "id-1" 1731672000000
               (sampleRequest None (JsNumber 0)) emptyStore)) = 400.
Proof.
  assert (Hbad : Spec.badAmount (Request.amount (sampleRequest None (JsNumber 0))))
    by (simpl; lia).
  destruct (nonpositive_amount_rejected "id-1" 1731672000000
              (sampleRequest None (JsNumber 0)) emptyStore
              (fun _ => None) {| Legacy.saved := []; Legacy.balances := ∅ |} Hbad)
    as ((H1 & _) & _).
  split; [reflexivity | exact H1].
Defined.

Example createTransaction_accepts :
  let r := TransactionController.createTransaction "id-1" 1731672000000
             (sampleRequest None (JsNumber 250)) emptyStore in
  status (fst r) = 201
  /\ balanceOf (USERS (snd r) !! "u1"%string) = -250
  /\ sent (snd r)
     = [PutTransaction
          {| transactionId := "id-1"; userId := "u1"; amount := 250;
             description := "rent"; category := "General Expense"; type := Expense;
             date := "2024-11-15T12:00:00.000Z";
             createdAt := "2024-11-15T12:00:00.000Z";
             updatedAt := "2024-11-15T12:00:00.000Z" |};
        AddBalance "u1" (-250) "2024-11-15T12:00:00.000Z";
        SetBalance "u1" (-250) "2024-11-15T12:00:00.000Z";
        GetUser "u1"]%string.
Proof. vm_compute. repeat split; reflexivity. Qed.

Example series_scenario :
  let transactions :=
    [sample Income "Sales" 100 "2024-01-01T09:00:00.000Z";
     sample Expense "Rent" 40 "2024-01-01T17:30:00.000Z";
     sample Income "Sales" 50 "2024-01-02T08:00:00.000Z"] in
  Analytics.generateChartData (Analytics.groupTransactionsByDate transactions) 0
  = Some
      [ {| ChartPoint.date := "2024-01-01"; ChartPoint.income := 100;
           ChartPoint.expense := 40; ChartPoint.net := 60;
           ChartPoint.cumulativeBalance := 60 |};
        {| ChartPoint.date := "2024-01-02"; ChartPoint.income := 50;
           ChartPoint.expense := 0; ChartPoint.net := 50;
           ChartPoint.cumulativeBalance := 110 |} ]
  /\ Analytics.summarize transactions
     = {| Summary.totalIncome := 150; Summary.totalExpenses := 40;
          Summary.netAmount := 110; Summary.transactionCount := 3 |}.
Proof. vm_compute. split; reflexivity. Qed.

(** ** The model of dates and objects on known values *)

Example toISOString_known :
  JsDate.toISOString 1728950400000 = "2024-10-15T00:00:00.000Z"%string
  /\ JsDate.toISOString (-1) = "1969-12-31T23:59:59.999Z"%string.
Proof. vm_compute. split; reflexivity. Qed.

Example toISOString_calendar :
  forallb (fun '(t, text) => String.eqb (JsDate.toISOString t) text)
    [
     (1709251199999, "2024-02-29T23:59:59.999Z");
     (1704067199000, "2023-12-31T23:59:59.000Z");
     (951825600000, "2000-02-29T12:00:00.000Z");
     ((-2203891200000), "1900-03-01T00:00:00.000Z");
     ((-86399999), "1969-12-31T00:00:00.001Z");
     (4107538800000, "2100-02-28T23:00:00.000Z");
     ((-11676096000000), "1600-01-01T00:00:00.000Z");
     (253402300799999, "9999-12-31T23:59:59.999Z");
     ((-62135596800000), "0001-01-01T00:00:00.000Z");
     (1735689600000, "2025-01-01T00:00:00.000Z");
     (105280200184840, "5306-03-13T20:03:04.840Z");
     (214906500238519, "8780-02-12T18:03:58.519Z");
     (48850349164246, "3518-01-03T13:26:04.246Z");
     ((-15219871643874), "1487-09-14T01:52:36.126Z");
     (53296250616599, "3658-11-21T18:03:36.599Z");
     (142953644154136, "6500-01-08T01:35:54.136Z");
     (87586592856315, "4745-07-05T17:07:36.315Z");
     (227552384256654, "9180-11-06T03:37:36.654Z");
     (35010035104577, "3079-06-04T17:45:04.577Z");
     ((-31311821785563), "0977-10-07T15:43:34.437Z")
    ]%string = true.
Proof. vm_compute. reflexivity. Qed.

Example newDate_month_overflow :
  JsDate.toISOString (JsDate.newDate 0 2024 12 0 23 59 59)
  = "2024-12-31T23:59:59.000Z"%string
  /\ JsDate.toISOString (JsDate.newDate 0 2024 (-1) 1 0 0 0)
     = "2023-12-01T00:00:00.000Z"%string.
Proof. vm_compute. split; reflexivity. Qed.

Example getMonthRanges_known :
  Dashboard.getMonthRanges 0 1710489600000
  = {| MonthRanges.current :=
         {| Range.start := "2024-03-01T00:00:00.000Z";
            Range.finish := "2024-03-31T23:59:59.000Z" |};
       MonthRanges.previous :=
         {| Range.start := "2024-02-01T00:00:00.000Z";
            Range.finish := "2024-02-29T23:59:59.000Z" |} |}
  /\ Dashboard.getMonthRanges 0 1736467200000
     = {| MonthRanges.current :=
            {| Range.start := "2025-01-01T00:00:00.000Z";
               Range.finish := "2025-01-31T23:59:59.000Z" |};
          MonthRanges.previous :=
            {| Range.start := "2024-12-01T00:00:00.000Z";
               Range.finish := "2024-12-31T23:59:59.000Z" |} |}
  /\ Dashboard.getMonthRanges 3600000 1735687800000
     = {| MonthRanges.current :=
            {| Range.start := "2024-12-31T23:00:00.000Z";
               Range.finish := "2025-01-31T22:59:59.000Z" |};
          MonthRanges.previous :=
            {| Range.start := "2024-11-30T23:00:00.000Z";
               Range.finish := "2024-12-31T22:59:59.000Z" |} |}.
Proof. vm_compute. repeat split; reflexivity. Qed.

Example local_calendar_known :
  JsDate.getFullYear 3600000 1735687800000 = 2025
  /\ JsDate.getMonth 3600000 1735687800000 = 0
  /\ JsDate.getFullYear 0 1735687800000 = 2024
  /\ JsDate.getMonth 0 1735687800000 = 11.
Proof. vm_compute. repeat split; reflexivity. Qed.

Example keys_order_known :
  JsObject.keys
    (JsObject.set "1" 5
       (JsObject.set "2" 5 (JsObject.set "b" 5 (JsObject.set "01" 3 JsObject.empty))))
  = ["1"; "2"; "01"; "b"]%string.
Proof. vm_compute. reflexivity. Qed.

(** * Further properties of the code *)

(** ** Monotonicity of the rounding *)


(** ** The health score falls with expenses and rises with income *)



(** ** The sign of a percentage change *)

Lemma nearestHalfUp_nonneg_pos (num den : Z) :
  0 < den -> (0 <= Spec.nearestHalfUp num den <-> - den <= 2 * num).
Proof.
  intros Hd. pose proof (nearestHalfUp_bounds num den Hd) as H. simpl in H.
  split; intros; nia.
Qed.

Lemma nearestHalfUp_opp (num den : Z) :
  Spec.nearestHalfUp num den = Spec.nearestHalfUp (- num) (- den).
Proof.
  unfold Spec.nearestHalfUp.
  destruct (Z.eq_dec den 0) as [-> | Hne].
  - change (2 * 0) with 0. change (2 * - 0) with 0.
    rewrite !Z.div_0_r. reflexivity.
  - replace (2 * - num + - den) with (- (2 * num + den)) by ring.
    replace (2 * - den) with (- (2 * den)) by ring.
    rewrite Z.div_opp_opp by lia. reflexivity.
Qed.

(** Against a positive baseline the change is at least zero, and the trend
    "up", exactly when the current value is at least 99.5% of the baseline;
    against a negative baseline exactly when the current value is at most
    99.5% of it, so that a negative balance that improves by more than half
    a percent is labelled "down". *)
Theorem percentage_change_sign (current previous : Z) :
  (0 < previous ->
     (Dashboard.trendOf (Dashboard.calculatePercentageChange current previous)
      = "up"%string
      <-> 199 * previous <= 200 * current))
  /\ (previous < 0 ->
        (Dashboard.trendOf (Dashboard.calculatePercentageChange current previous)
         = "up"%string
         <-> 200 * current <= 199 * previous)).
Proof.
  assert (Hup : forall c, Dashboard.trendOf c = "up"%string <-> 0 <= c).
  { intros c. unfold Dashboard.trendOf. destruct (c >=? 0) eqn:E.
    - apply Z.geb_le in E. tauto.
    - rewrite Z.geb_leb in E. apply Z.leb_gt in E.
      split; [discriminate | lia]. }
  assert (Hneg : previous < 0 ->
            (0 <= Dashboard.calculatePercentageChange current previous
             <-> 200 * current <= 199 * previous)).
  { intros Hp. rewrite calculatePercentageChange_spec. unfold Spec.percentageChange.
    destruct (previous =? 0) eqn:E; [apply Z.eqb_eq in E; lia |].
    rewrite nearestHalfUp_opp, nearestHalfUp_nonneg_pos by lia. lia. }
  split.
  - intros Hp. rewrite Hup, calculatePercentageChange_spec.
    unfold Spec.percentageChange.
    destruct (previous =? 0) eqn:E; [apply Z.eqb_eq in E; lia |].
    rewrite nearestHalfUp_nonneg_pos by lia. lia.
  - intros Hp. rewrite Hup. apply Hneg, Hp.
Qed.

Example balance_trend_inverted :
  Dashboard.calculatePercentageChange (-500) (-1000) = -50
  /\ Dashboard.trendOf (Dashboard.calculatePercentageChange (-500) (-1000))
     = "down"%string
  /\ Dashboard.trendOf (Dashboard.calculatePercentageChange 996 1000) = "up"%string.
Proof. vm_compute. repeat split; reflexivity. Qed.

Lemma percentage_change_sign_witness :
  Dashboard.trendOf (Dashboard.calculatePercentageChange 995 1000) = "up"%string
  /\ Dashboard.trendOf (Dashboard.calculatePercentageChange (-1100) (-1000))
     = "up"%string.
Proof.
  split.
  - apply (proj1 (percentage_change_sign 995 1000)); lia.
  - apply (proj2 (percentage_change_sign (-1100) (-1000))); lia.
Defined.

(** ** The expense ratio and the alert *)





(** ** The financial context of the insights *)



Example monthly_averages_differ :
  let f := Insights.financials 0
             [sample Income "Sales" 4 "2024-01-01"; sample Expense "Rent" 2 "2024-01-02"] in
  Financials.monthlyIncome f = 1 /\ Financials.monthlyExpenses f = 1
  /\ Financials.netCashFlow f = 1.
Proof. vm_compute. repeat split; reflexivity. Qed.











(** ** Creating and deleting transactions *)

Lemma missing_false (user : option string) :
  TransactionController.missing user = false ->
  exists u, user = Some u /\ u <> EmptyString
            /\ TransactionController.userOf user = u.
Proof.
  destruct user as [u |]; simpl; [| discriminate].
  intros H. apply String.eqb_neq in H. eauto.
Qed.

Lemma balanceOf_insert (users : gmap string User.t) (u : string) (b : Z)
    (now : string) :
  balanceOf (<[u := {| User.startingBalance := Some b; User.updatedAt := now |}]> users
               !! u) = b.
Proof. rewrite lookup_insert_eq. reflexivity. Qed.

(** What a request that passes the four checks does. *)
Lemma createTransaction_accepted (uuid : string) (clock : Z) (req : Request.t)
    (s : Store) (u ty d : string) (n : Z) :
  Request.user req = Some u -> u <> EmptyString ->
  Request.type req = JsString ty -> (ty = "income" \/ ty = "expense")%string ->
  Request.amount req = JsNumber n -> 0 < n ->
  Request.description req = JsString d -> d <> EmptyString ->
  let now := JsDate.toISOString clock in
  let t :=
    {| transactionId := uuid; userId := u; amount := n; description := d;
       category :=
         TransactionController.orElse (Request.category req)
           (TransactionController.categorizeTransaction d n ty);
       type := TransactionController.asType ty;
       date := TransactionController.orElse (Request.date req) now;
       createdAt := now; updatedAt := now |} in
  let b := balanceOf (USERS s !! u) + signedAmount t in
  exists log,
    TransactionController.createTransaction uuid clock req s
    = ({| status := 201;
          body := CreatedBody "Transaction added successfully" t b |},
       {| TRANSACTIONS := <[uuid := t]> (TRANSACTIONS s);
          USERS := <[u := {| User.startingBalance := Some b; User.updatedAt := now |}]>
                     (USERS s);
          sent := log |}).
Proof.
  intros Hu Hne Hty Hty' Ha Hn Hd Hdne now t b.
  assert (H1 : TransactionController.missing (Some u) = false)
    by (simpl; apply String.eqb_neq; exact Hne).
  assert (H2 : negb (truthy (JsString ty))
               || negb (includesValue ["income"; "expense"]%string (JsString ty))
               = false)
    by (destruct Hty' as [-> | ->]; reflexivity).
  assert (H3 : negb (typeofNumber (JsNumber n)) || isNaN (JsNumber n)
               || leZero (JsNumber n) = false)
    by (simpl; apply Z.leb_gt; exact Hn).
  assert (H4 : negb (truthy (JsString d)) || negb (typeofString (JsString d)) = false).
  { simpl. apply String.eqb_neq in Hdne. rewrite Hdne. reflexivity. }
  assert (Hsigned : (if String.eqb ty "income" then n else - n) = signedAmount t).
  { unfold signedAmount, t, TransactionController.asType. simpl.
    destruct (String.eqb ty "income"); reflexivity. }
  unfold TransactionController.createTransaction.
  rewrite Hu, Hty, Ha, Hd, H1, H2, H3, H4.
  cbv beta iota zeta delta [TransactionController.userOf stringOf numberOf].
  fold now. fold t. rewrite Hsigned.
  unfold addBalance, putTransaction, setBalance, getUser, record.
  cbn [TRANSACTIONS USERS sent].
  destruct (USERS s !! u) as [item |] eqn:Eu.
  - cbn [TRANSACTIONS USERS sent fst snd]. rewrite lookup_insert_eq.
    eexists. reflexivity.
  - cbn [TRANSACTIONS USERS sent fst snd]. rewrite ?Eu, lookup_insert_eq.
    eexists. reflexivity.
Qed.

Lemma missing_true_iff (user : option string) (u : string) :
  user = Some u -> u <> EmptyString -> TransactionController.missing user = false.
Proof. intros -> H. simpl. apply String.eqb_neq. exact H. Qed.

(** The answers of [deleteTransaction] that leave the store as it is. *)
Lemma deleteTransaction_refused (clock : Z) (user id : option string) (s : Store)
    (u i : string) :
  user = Some u -> u <> EmptyString -> id = Some i -> i <> EmptyString ->
  (TRANSACTIONS s !! i = None ->
     Ledger.deleteTransaction clock user id s
     = ({| Ledger.status := 404; Ledger.body := Ledger.ErrorBody "Transaction not found" |},
        s))
  /\ (forall t, TRANSACTIONS s !! i = Some t -> userId t <> u ->
        Ledger.deleteTransaction clock user id s
        = ({| Ledger.status := 403;
              Ledger.body := Ledger.ErrorBody "Not authorized to delete this transaction" |},
           s)).
Proof.
  intros Hu Hune Hi Hine.
  unfold Ledger.deleteTransaction, Ledger.getTransaction.
  rewrite (missing_true_iff user u Hu Hune), (missing_true_iff id i Hi Hine).
  rewrite Hu, Hi. simpl. split.
  - intros ->. reflexivity.
  - intros t -> Hne. apply String.eqb_neq in Hne. rewrite Hne. reflexivity.
Qed.

(** What deleting an own transaction does, with and without a user item. *)
Lemma deleteTransaction_own (clock : Z) (user id : option string) (s : Store)
    (u i : string) (t : Transaction) :
  user = Some u -> u <> EmptyString -> id = Some i -> i <> EmptyString ->
  TRANSACTIONS s !! i = Some t -> userId t = u ->
  let now := JsDate.toISOString clock in
  match USERS s !! u with
  | Some item =>
      let b := balanceOf (USERS s !! u) - signedAmount t in
      exists log,
        Ledger.deleteTransaction clock user id s
        = ({| Ledger.status := 200;
              Ledger.body := Ledger.DeletedBody "Transaction deleted successfully" i b |},
           {| TRANSACTIONS := delete i (TRANSACTIONS s);
              USERS := <[u := {| User.startingBalance := Some b; User.updatedAt := now |}]>
                         (USERS s);
              sent := log |})
  | None =>
      exists log,
        Ledger.deleteTransaction clock user id s
        = ({| Ledger.status := 500;
              Ledger.body := Ledger.ErrorBody "The conditional request failed" |},
           {| TRANSACTIONS := delete i (TRANSACTIONS s); USERS := USERS s; sent := log |})
  end.
Proof.
  intros Hu Hune Hi Hine Ht Hown now.
  unfold Ledger.deleteTransaction, Ledger.getTransaction.
  rewrite (missing_true_iff user u Hu Hune), (missing_true_iff id i Hi Hine).
  rewrite Hu, Hi.
  cbv beta iota zeta delta [TransactionController.userOf].
  rewrite Ht, Hown, String.eqb_refl.
  cbv beta iota zeta delta [negb].
  assert (Hsigned : match type t with Income => - amount t | Expense => amount t end
                    = - signedAmount t).
  { unfold signedAmount. destruct (type t); lia. }
  rewrite Hsigned.
  unfold addBalance, Ledger.deleteItem, getUser, record.
  cbn [TRANSACTIONS USERS sent].
  destruct (USERS s !! u) as [item |] eqn:Eu.
  - cbn [TRANSACTIONS USERS sent fst snd]. rewrite lookup_insert_eq.
    eexists. unfold balanceOf at 1. cbn [User.startingBalance].
    replace (balanceOf (Some item) - signedAmount t)
      with (match User.startingBalance item with Some b0 => b0 | None => 0 end
            + - signedAmount t) by (unfold balanceOf; lia).
    reflexivity.
  - eexists. reflexivity.
Qed.

(** ** The balance ledger *)

Lemma netIn_Permutation (l1 l2 : list (string * Transaction)) (u : string) :
  l1 ≡ₚ l2 ->
  sumZ (map signedAmount (List.filter (fun t => String.eqb (userId t) u) (map snd l1)))
  = sumZ (map signedAmount (List.filter (fun t => String.eqb (userId t) u) (map snd l2))).
Proof.
  induction 1 as [| x l1 l2 _ IH | x y l | l1 l2 l3 _ IH1 _ IH2]; simpl.
  - reflexivity.
  - destruct (String.eqb (userId (snd x)) u); simpl; lia.
  - destruct (String.eqb (userId (snd x)) u), (String.eqb (userId (snd y)) u);
      simpl; lia.
  - lia.
Qed.

Lemma netIn_insert (table : gmap string Transaction) (id : string) (t : Transaction)
    (u : string) :
  table !! id = None ->
  netIn (<[id := t]> table) u
  = netIn table u + (if String.eqb (userId t) u then signedAmount t else 0).
Proof.
  intros Hfresh. unfold netIn.
  rewrite (netIn_Permutation _ _ u (map_to_list_insert table id t Hfresh)).
  simpl. destruct (String.eqb (userId t) u); simpl; lia.
Qed.

Lemma netIn_delete (table : gmap string Transaction) (id : string) (t : Transaction)
    (u : string) :
  table !! id = Some t ->
  netIn (delete id table) u
  = netIn table u - (if String.eqb (userId t) u then signedAmount t else 0).
Proof.
  intros Hin. unfold netIn.
  rewrite <- (netIn_Permutation _ _ u (map_to_list_delete table id t Hin)).
  simpl. destruct (String.eqb (userId t) u); simpl; lia.
Qed.

(** Every request is either turned away with 400 before anything is
    written, or passes the four checks. *)
Lemma createTransaction_outcome (uuid : string) (clock : Z) (req : Request.t)
    (s : Store) :
  (exists error,
     TransactionController.createTransaction uuid clock req s = (badRequest error, s))
  \/ (exists u ty d n,
        Request.user req = Some u /\ u <> EmptyString
        /\ Request.type req = JsString ty /\ (ty = "income" \/ ty = "expense")%string
        /\ Request.amount req = JsNumber n /\ 0 < n
        /\ Request.description req = JsString d /\ d <> EmptyString).
Proof.
  unfold TransactionController.createTransaction.
  destruct (TransactionController.missing (Request.user req)) eqn:Hm;
    [left; eexists; reflexivity |].
  destruct (negb (truthy (Request.type req)) || _) eqn:Hty;
    [left; eexists; reflexivity |].
  fold (amountRejected (Request.amount req)).
  destruct (amountRejected (Request.amount req)) eqn:Ha; [left; eexists; reflexivity |].
  destruct (negb (truthy (Request.description req)) || _) eqn:Hd;
    [left; eexists; reflexivity |].
  right.
  destruct (missing_false _ Hm) as (u & Hu & Hune & _).
  destruct (amountAccepted_positive _ Ha) as (n & Hn & Hpos).
  apply orb_false_iff in Hty. destruct Hty as [_ Hty].
  apply negb_false_iff in Hty.
  destruct (Request.type req) as [| | | | | ty |] eqn:Ety; try discriminate Hty.
  change (Analytics.includes ["income"; "expense"]%string ty = true) in Hty.
  apply includes_In in Hty.
  apply orb_false_iff in Hd. destruct Hd as [Hd1 Hd2].
  destruct (Request.description req) as [| | | | | d |] eqn:Ed; try discriminate Hd2.
  simpl in Hd1. apply negb_false_iff, negb_true_iff, String.eqb_neq in Hd1.
  exists u, ty, d, n. repeat split; try assumption; try reflexivity.
  destruct Hty as [<- | [<- | []]]; [left | right]; reflexivity.
Qed.


(** Whatever the request, creating a transaction under an identifier that
    the table does not hold yet keeps, for every user, the difference
    between the stored balance and the signed sum of the user's stored
    transactions. *)
Theorem createTransaction_keeps_ledger (uuid : string) (clock : Z) (req : Request.t)
    (s : Store) (v : string) :
  TRANSACTIONS s !! uuid = None ->
  anchorOf (snd (TransactionController.createTransaction uuid clock req s)) v
  = anchorOf s v.
Proof.
  intros Hfresh.
  destruct (createTransaction_outcome uuid clock req s)
    as [[e ->] | (u & ty & d & n & Hu & Hune & Hty & Hty' & Ha & Hn & Hd & Hdne)];
    [reflexivity |].
  destruct (createTransaction_accepted uuid clock req s u ty d n
              Hu Hune Hty Hty' Ha Hn Hd Hdne) as [log ->].
  unfold anchorOf. cbn [snd TRANSACTIONS USERS].
  rewrite (netIn_insert _ _ _ v Hfresh). cbn [userId].
  destruct (String.eqb u v) eqn:E.
  - apply String.eqb_eq in E. subst v. rewrite lookup_insert_eq. simpl. lia.
  - apply String.eqb_neq in E. rewrite lookup_insert_ne by exact E. lia.
Qed.

Lemma createTransaction_keeps_ledger_witness :
  TRANSACTIONS emptyStore !! "id-1"%string = None
  /\ anchorOf
       (snd (TransactionController.createTransaction "id-1" 1731672000000
               (sampleRequest None (JsNumber 250)) emptyStore)) "u1"
     = anchorOf emptyStore "u1".
Proof.
  split; [reflexivity |].
  apply (createTransaction_keeps_ledger "id-1" 1731672000000
           (sampleRequest None (JsNumber 250)) emptyStore "u1").
  reflexivity.
Defined.

(** Every call of [deleteTransaction] is either answered 400, 404 or 403
    with the store as it was, or concerns a stored transaction of the
    caller. *)
Lemma deleteTransaction_outcome (clock : Z) (user id : option string) (s : Store) :
  let r := Ledger.deleteTransaction clock user id s in
  ((Ledger.status (fst r) = 400 \/ Ledger.status (fst r) = 404
    \/ Ledger.status (fst r) = 403) /\ snd r = s)
  \/ (exists u i t,
        user = Some u /\ u <> EmptyString /\ id = Some i /\ i <> EmptyString
        /\ TRANSACTIONS s !! i = Some t /\ userId t = u).
Proof.
  intros r. subst r. unfold Ledger.deleteTransaction.
  destruct (TransactionController.missing user) eqn:Hu; [left; split; [simpl; auto | reflexivity] |].
  destruct (TransactionController.missing id) eqn:Hi; [left; split; [simpl; auto | reflexivity] |].
  destruct (missing_false _ Hu) as (u & -> & Hune & _).
  destruct (missing_false _ Hi) as (i & -> & Hine & _).
  cbv beta iota zeta delta [TransactionController.userOf Ledger.getTransaction].
  destruct (TRANSACTIONS s !! i) as [t |] eqn:Et; [| left; split; [simpl; auto | reflexivity]].
  destruct (String.eqb (userId t) u) eqn:E; [| left; split; [simpl; auto | reflexivity]].
  apply String.eqb_eq in E. right. exists u, i, t.
  repeat split; assumption || reflexivity.
Qed.

(** [deleteTransaction] touches nothing but the named transaction of the
    caller and the caller's own user item: for every call, no transaction
    is added or changed, every transaction other than the named one and
    every transaction of another user stays stored, and the user items of
    all other users stay as they were. *)
Theorem deleteTransaction_isolation (clock : Z) (user id : option string) (s : Store) :
  let s' := snd (Ledger.deleteTransaction clock user id s) in
  (forall j t, TRANSACTIONS s' !! j = Some t -> TRANSACTIONS s !! j = Some t)
  /\ (forall j t, TRANSACTIONS s !! j = Some t ->
        id <> Some j \/ user <> Some (userId t) ->
        TRANSACTIONS s' !! j = Some t)
  /\ (forall v, user <> Some v -> USERS s' !! v = USERS s !! v).
Proof.
  intros s'. subst s'.
  destruct (deleteTransaction_outcome clock user id s)
    as [[_ ->] | (u & i & t & Hu & Hune & Hi & Hine & Ht & Hown)].
  { repeat split; auto. }
  pose proof (deleteTransaction_own clock user id s u i t Hu Hune Hi Hine Ht Hown) as H.
  cbv zeta in H.
  assert (Hkeep : forall j t', TRANSACTIONS s !! j = Some t' ->
                    id <> Some j \/ user <> Some (userId t') -> j <> i).
  { intros j t' Hj [Hne | Hne] ->; [congruence |].
    rewrite Ht in Hj. injection Hj as <-. congruence. }
  destruct (USERS s !! u) as [item |] eqn:Eu; destruct H as [log ->];
    cbn [snd TRANSACTIONS USERS]; repeat split.
  - intros j t' Hj. apply lookup_delete_Some in Hj. tauto.
  - intros j t' Hj Hne. apply lookup_delete_Some. split; [| exact Hj].
    intros <-. exact (Hkeep _ _ Hj Hne eq_refl).
  - intros v Hv. apply lookup_insert_ne. congruence.
  - intros j t' Hj. apply lookup_delete_Some in Hj. tauto.
  - intros j t' Hj Hne. apply lookup_delete_Some. split; [| exact Hj].
    intros <-. exact (Hkeep _ _ Hj Hne eq_refl).
Qed.

(** A 200 answer of [deleteTransaction] means that the named transaction
    was stored and belonged to the caller; it is then removed from the
    table, and the balance of the answer, which is the balance stored
    afterwards, is the former balance minus the signed amount of the
    transaction. *)
Theorem deleteTransaction_effect (clock : Z) (user id : option string) (s : Store) :
  let r := Ledger.deleteTransaction clock user id s in
  Ledger.status (fst r) = 200 ->
  exists u i t,
    user = Some u /\ id = Some i
    /\ TRANSACTIONS s !! i = Some t /\ userId t = u
    /\ TRANSACTIONS (snd r) = delete i (TRANSACTIONS s)
    /\ Ledger.body (fst r)
       = Ledger.DeletedBody "Transaction deleted successfully" i
           (balanceOf (USERS s !! u) - signedAmount t)
    /\ balanceOf (USERS (snd r) !! u) = balanceOf (USERS s !! u) - signedAmount t.
Proof.
  intros r. subst r.
  destruct (deleteTransaction_outcome clock user id s)
    as [[Hst _] | (u & i & t & Hu & Hune & Hi & Hine & Ht & Hown)].
  { intros H200. rewrite H200 in Hst. destruct Hst as [? | [? | ?]]; discriminate. }
  pose proof (deleteTransaction_own clock user id s u i t Hu Hune Hi Hine Ht Hown) as H.
  cbv zeta in H.
  destruct (USERS s !! u) as [item |] eqn:Eu; destruct H as [log ->];
    cbn [fst snd TRANSACTIONS USERS Ledger.status Ledger.body]; [| discriminate].
  intros _. exists u, i, t. rewrite ?Eu.
  repeat split; try assumption.
  rewrite lookup_insert_eq. reflexivity.
Qed.

Lemma deleteTransaction_effect_witness :
  exists u i t,
    Some "u1"%string = Some u /\ Some "id-1"%string = Some i
    /\ TRANSACTIONS
         (snd (TransactionController.createTransaction "id-1" 1731672000000
                 (sampleRequest None (JsNumber 250)) emptyStore)) !! i = Some t
    /\ signedAmount t = -250
    /\ userId t = u.
Proof.
  destruct (deleteTransaction_effect 1731672060000 (Some "u1"%string)
              (Some "id-1"%string)
              (snd (TransactionController.createTransaction "id-1" 1731672000000
                      (sampleRequest None (JsNumber 250)) emptyStore)))
    as (u & i & t & Hu & Hi & Ht & Hown & _).
  { vm_compute. reflexivity. }
  exists u, i, t. repeat split; try assumption.
  injection Hi as <-. vm_compute in Ht. injection Ht as <-. reflexivity.
Defined.

(** A caller without a user item can create a transaction, but deleting an
    own transaction then fails half way: the transaction is removed, no
    balance is written, the answer is 500, and the difference between the
    stored balance and the signed sum of the stored transactions moves by
    the signed amount of the lost transaction. *)
Theorem deleteTransaction_without_user_item (clock : Z) (s : Store) (u i : string)
    (t : Transaction) :
  u <> EmptyString -> i <> EmptyString ->
  TRANSACTIONS s !! i = Some t -> userId t = u -> USERS s !! u = None ->
  let r := Ledger.deleteTransaction clock (Some u) (Some i) s in
  fst r = {| Ledger.status := 500;
             Ledger.body := Ledger.ErrorBody "The conditional request failed" |}
  /\ TRANSACTIONS (snd r) = delete i (TRANSACTIONS s)
  /\ USERS (snd r) = USERS s
  /\ anchorOf (snd r) u = anchorOf s u + signedAmount t.
Proof.
  intros Hune Hine Ht Hown Eu r. subst r.
  pose proof (deleteTransaction_own clock (Some u) (Some i) s u i t
                eq_refl Hune eq_refl Hine Ht Hown) as H.
  cbv zeta in H. rewrite Eu in H. destruct H as [log ->].
  cbn [fst snd TRANSACTIONS USERS]. repeat split.
  unfold anchorOf. cbn [TRANSACTIONS USERS].
  rewrite (netIn_delete _ _ _ u Ht), Hown, String.eqb_refl. lia.
Qed.

(** A table holding one expense of 250 of user "u1" and no user item. *)
Lemma deleteTransaction_without_user_item_witness :
  let s := {| TRANSACTIONS := {[ "id-1"%string := sample Expense "rent" 250 "2024-11-15" ]};
              USERS := ∅; sent := [] |} in
  let r := Ledger.deleteTransaction 1731672000000 (Some "u1"%string)
             (Some "id-1"%string) s in
  Ledger.status (fst r) = 500 /\ TRANSACTIONS (snd r) !! "id-1"%string = None.
Proof.
  intros s r.
  destruct (deleteTransaction_without_user_item 1731672000000 s "u1" "id-1"
              (sample Expense "rent" 250 "2024-11-15"))
    as (H1 & H2 & _); try reflexivity; try discriminate.
  fold r in H1, H2. rewrite H1, H2. split; [reflexivity |].
  apply lookup_delete_eq.
Defined.

(** Unless it answers 500, [deleteTransaction] keeps, for every user, the
    difference between the stored balance and the signed sum of the user's
    stored transactions. *)
Theorem deleteTransaction_keeps_ledger (clock : Z) (user id : option string)
    (s : Store) (v : string) :
  let r := Ledger.deleteTransaction clock user id s in
  Ledger.status (fst r) <> 500 ->
  anchorOf (snd r) v = anchorOf s v.
Proof.
  intros r. subst r.
  destruct (deleteTransaction_outcome clock user id s)
    as [[_ ->] | (u & i & t & Hu & Hune & Hi & Hine & Ht & Hown)];
    [reflexivity |].
  pose proof (deleteTransaction_own clock user id s u i t Hu Hune Hi Hine Ht Hown) as H.
  cbv zeta in H.
  destruct (USERS s !! u) as [item |] eqn:Eu; destruct H as [log ->];
    cbn [fst snd TRANSACTIONS USERS Ledger.status]; [| congruence].
  intros _. unfold anchorOf. cbn [TRANSACTIONS USERS].
  rewrite (netIn_delete _ _ _ v Ht), Hown.
  destruct (String.eqb u v) eqn:E.
  - apply String.eqb_eq in E. subst v. rewrite lookup_insert_eq, Eu. simpl. lia.
  - apply String.eqb_neq in E. rewrite lookup_insert_ne by exact E. lia.
Qed.

Lemma deleteTransaction_keeps_ledger_witness :
  let s := snd (TransactionController.createTransaction "id-1" 1731672000000
                  (sampleRequest None (JsNumber 250)) emptyStore) in
  anchorOf (snd (Ledger.deleteTransaction 1731672060000 (Some "u1"%string)
                   (Some "id-1"%string) s)) "u1"
  = anchorOf s "u1".
Proof.
  intros s.
  apply (deleteTransaction_keeps_ledger 1731672060000 (Some "u1"%string)
           (Some "id-1"%string) s "u1").
  vm_compute. discriminate.
Defined.

(** Deleting a transaction right after creating it, under an identifier
    that was free, answers 200 with the balance the caller had before the
    creation, and restores the table of transactions and every stored
    balance; the creation has made sure that the caller has a user item. *)
Theorem create_then_delete (uuid : string) (clock clock' : Z) (req : Request.t)
    (s : Store) :
  let r := TransactionController.createTransaction uuid clock req s in
  status (fst r) = 201 -> uuid <> EmptyString -> TRANSACTIONS s !! uuid = None ->
  let r' := Ledger.deleteTransaction clock' (Request.user req) (Some uuid) (snd r) in
  fst r'
  = {| Ledger.status := 200;
       Ledger.body :=
         Ledger.DeletedBody "Transaction deleted successfully" uuid
           (balanceOf (USERS s !! TransactionController.userOf (Request.user req))) |}
  /\ TRANSACTIONS (snd r') = TRANSACTIONS s
  /\ (forall v, balanceOf (USERS (snd r') !! v) = balanceOf (USERS s !! v)).
Proof.
  intros r. subst r.
  destruct (createTransaction_outcome uuid clock req s)
    as [[e ->] | (u & ty & d & n & Hu & Hune & Hty & Hty' & Ha & Hn & Hd & Hdne)];
    [discriminate |].
  destruct (createTransaction_accepted uuid clock req s u ty d n
              Hu Hune Hty Hty' Ha Hn Hd Hdne) as [log ->].
  cbn [fst snd status]. intros _ Hne Hfresh. cbv zeta.
  match goal with
  | |- context [Ledger.deleteTransaction _ _ _ ?s1] => set (s1' := s1)
  end.
  match goal with
  | s1' := {| TRANSACTIONS := <[uuid := ?t0]> _; USERS := _; sent := _ |} |- _ =>
      set (t := t0) in *
  end.
  pose proof (deleteTransaction_own clock' (Request.user req) (Some uuid) s1' u uuid t
                Hu Hune eq_refl Hne) as H.
  assert (Ht : TRANSACTIONS s1' !! uuid = Some t) by apply lookup_insert_eq.
  specialize (H Ht eq_refl). cbv zeta in H.
  assert (Eu : exists item, USERS s1' !! u = Some item)
    by (eexists; apply lookup_insert_eq).
  destruct Eu as [item Eu]. rewrite Eu in H. destruct H as [log' ->].
  cbn [fst snd TRANSACTIONS USERS].
  assert (Hb : balanceOf (Some item) - signedAmount t = balanceOf (USERS s !! u)).
  { rewrite <- Eu. unfold s1'. cbn [USERS]. rewrite lookup_insert_eq. simpl. lia. }
  rewrite Hb, Hu. cbn [TransactionController.userOf].
  split; [reflexivity |]. split.
  - unfold s1'. cbn [TRANSACTIONS]. rewrite delete_insert_eq. apply delete_id.
    exact Hfresh.
  - intros v. destruct (String.eqb u v) eqn:E.
    + apply String.eqb_eq in E. subst v. rewrite lookup_insert_eq. reflexivity.
    + apply String.eqb_neq in E. rewrite lookup_insert_ne by exact E.
      unfold s1'. cbn [USERS]. rewrite lookup_insert_ne by exact E. reflexivity.
Qed.

Lemma create_then_delete_witness :
  let r := TransactionController.createTransaction "id-1" 1731672000000
             (sampleRequest None (JsNumber 250)) emptyStore in
  let r' := Ledger.deleteTransaction 1731672060000 (Some "u1"%string)
              (Some "id-1"%string) (snd r) in
  Ledger.status (fst r') = 200 /\ TRANSACTIONS (snd r') = ∅.
Proof.
  intros r r'.
  destruct (create_then_delete "id-1" 1731672000000 1731672060000
              (sampleRequest None (JsNumber 250)) emptyStore)
    as (H1 & H2 & _); try reflexivity; try discriminate.
  change (fst r' = {| Ledger.status := 200;
                      Ledger.body :=
                        Ledger.DeletedBody "Transaction deleted successfully" "id-1"
                          (balanceOf (USERS emptyStore !! "u1"%string)) |}) in H1.
  change (TRANSACTIONS (snd r') = TRANSACTIONS emptyStore) in H2.
  rewrite H1, H2. split; reflexivity.
Defined.

(** [getTransactions] lists the stored transactions of the caller and no
    others, counts them, and leaves the store as it was; without a caller
    it answers 400. *)
Theorem getTransactions_lists_own (user : option string) (s : Store) :
  let r := Ledger.getTransactions user s in
  snd r = s
  /\ (TransactionController.missing user = true -> Ledger.status (fst r) = 400)
  /\ (forall u, user = Some u -> u <> EmptyString ->
        exists items,
          fst r = {| Ledger.status := 200;
                     Ledger.body := Ledger.ListBody items (Z.of_nat (List.length items)) |}
          /\ (forall t, In t items <->
                userId t = u /\ exists i, TRANSACTIONS s !! i = Some t)
          /\ sumZ (map signedAmount items) = netIn (TRANSACTIONS s) u).
Proof.
  intros r. subst r. unfold Ledger.getTransactions.
  destruct (TransactionController.missing user) eqn:Hm.
  - split; [reflexivity |]. split; [reflexivity |].
    intros u -> Hne. simpl in Hm. apply String.eqb_eq in Hm. contradiction.
  - split; [reflexivity |]. split; [discriminate |].
    intros u -> Hne. cbn [TransactionController.userOf].
    eexists. split; [reflexivity |]. split; [| reflexivity].
    intros t. unfold Ledger.queryUser. rewrite filter_In, String.eqb_eq, in_map_iff.
    split.
    + intros [[[i t'] [E Hin]] Hown]. simpl in E. subst t'.
      split; [exact Hown |]. exists i.
      apply elem_of_map_to_list. apply list_elem_of_In. exact Hin.
    + intros [Hown [i Hi]]. split; [| exact Hown].
      exists (i, t). split; [reflexivity |].
      apply list_elem_of_In, elem_of_map_to_list. exact Hi.
Qed.

(** ** The day buckets *)

Lemma groupStep_bucketAt (g : JsObject.t DayData.t) (t : Transaction) (k : string) :
  bucketAt (Analytics.groupStep g t) k
  = bucketAt g k ++ (if String.eqb (Analytics.splitT0 (date t)) k then [t] else []).
Proof.
  unfold Analytics.groupStep, bucketAt.
  destruct (String.eqb (Analytics.splitT0 (date t)) k) eqn:E.
  - apply String.eqb_eq in E. subst k. rewrite get_set_eq.
    destruct (JsObject.get (Analytics.splitT0 (date t)) g) as [d |];
      destruct (type t); reflexivity.
  - apply String.eqb_neq in E. rewrite get_set_ne by exact E.
    rewrite app_nil_r. reflexivity.
Qed.

Lemma group_fold_bucketAt (ts : list Transaction) (g : JsObject.t DayData.t)
    (k : string) :
  bucketAt (fold_left Analytics.groupStep ts g) k = bucketAt g k ++ onDay k ts.
Proof.
  revert g. induction ts as [| t ts IH]; intros g; simpl; [rewrite app_nil_r; reflexivity |].
  rewrite IH, groupStep_bucketAt, <- app_assoc. f_equal.
  destruct (String.eqb (Analytics.splitT0 (date t)) k); reflexivity.
Qed.

Lemma dayTotal_onDay (ty : TransactionType) (k : string) (ts : list Transaction) :
  Spec.dayTotal ty k ts = sumOfType ty (onDay k ts).
Proof.
  rewrite sumOfType_spec. induction ts as [| t ts IH]; simpl; [reflexivity |].
  rewrite IH. destruct (String.eqb (Analytics.splitT0 (date t)) k); simpl.
  - rewrite andb_true_r. reflexivity.
  - rewrite andb_false_r. reflexivity.
Qed.

(** [groupTransactionsByDate] has a bucket exactly for the days on which
    there is a transaction; the bucket of a day lists the transactions of
    that day, all of them and no others, in the order of the input, and its
    two sums are the sums of the listed transactions by type. *)
Theorem day_buckets (transactions : list Transaction) (day : string) :
  match JsObject.get day (Analytics.groupTransactionsByDate transactions) with
  | Some d =>
      DayData.transactions d = onDay day transactions
      /\ DayData.transactions d <> []
      /\ DayData.income d = sumOfType Income (DayData.transactions d)
      /\ DayData.expense d = sumOfType Expense (DayData.transactions d)
  | None => onDay day transactions = []
  end.
Proof.
  pose proof (group_fold_bucketAt transactions JsObject.empty day) as Hb.
  pose proof (groupTransactionsByDate_dayValueAt Income transactions day) as Hi.
  pose proof (groupTransactionsByDate_dayValueAt Expense transactions day) as He.
  pose proof (groupTransactionsByDate_keys transactions day) as Hk.
  fold (Analytics.groupTransactionsByDate transactions) in Hb.
  unfold bucketAt, dayValueAt in Hb, Hi, He. simpl in Hb.
  destruct (JsObject.get day (Analytics.groupTransactionsByDate transactions))
    as [d |] eqn:E.
  - rewrite Hb. split; [reflexivity |]. split.
    + apply get_Some_In in E. apply (in_map fst) in E. apply Hk in E.
      destruct E as (t & Hin & Hday). intros Hnil.
      assert (Ht : In t (onDay day transactions)).
      { apply filter_In. split; [exact Hin | apply String.eqb_eq; exact Hday]. }
      rewrite Hnil in Ht. exact Ht.
    + simpl in Hi, He. rewrite Hi, He, !dayTotal_onDay. split; reflexivity.
  - symmetry. exact Hb.
Qed.

(** ** The running balance *)








(** ** The parts of an analytics answer agree *)









(** ** File names *)

Lemma lowerUnit_idem (c : ascii) : Upload.lowerUnit (Upload.lowerUnit c) = Upload.lowerUnit c.
Proof. destruct c as [[] [] [] [] [] [] [] []]; vm_compute; reflexivity. Qed.

Lemma toLowerCase_idem (s : string) :
  Upload.toLowerCase (Upload.toLowerCase s) = Upload.toLowerCase s.
Proof.
  induction s as [| c s IH]; simpl; [reflexivity |].
  rewrite lowerUnit_idem, IH. reflexivity.
Qed.

(** Of the inherited members only the two without a capital letter can be
    met by a lower-cased extension. *)
Lemma ALLOWED_FILE_TYPES_lower (e : string) :
  Upload.toLowerCase e = e ->
  (Upload.ALLOWED_FILE_TYPES e = Upload.Own "application/pdf" /\ e = "pdf"%string)
  \/ (Upload.ALLOWED_FILE_TYPES e = Upload.Own "text/csv" /\ e = "csv"%string)
  \/ (Upload.ALLOWED_FILE_TYPES e = Upload.Inherited
      /\ (e = "constructor" \/ e = "__proto__")%string)
  \/ (Upload.ALLOWED_FILE_TYPES e = Upload.Absent /\ ~ In e acceptedExtensions).
Proof.
  intros Hlow. unfold Upload.ALLOWED_FILE_TYPES.
  destruct (String.eqb e "pdf") eqn:E1;
    [apply String.eqb_eq in E1; left; split; [reflexivity | exact E1] |].
  destruct (String.eqb e "csv") eqn:E2;
    [apply String.eqb_eq in E2; right; left; split; [reflexivity | exact E2] |].
  apply String.eqb_neq in E1, E2.
  destruct (Analytics.includes Upload.objectPrototypeMembers e) eqn:E3.
  - right. right. left. split; [reflexivity |].
    apply includes_In in E3. unfold Upload.objectPrototypeMembers in E3. simpl in E3.
    repeat (destruct E3 as [E3 | E3];
            [first [left; symmetry; exact E3 | right; symmetry; exact E3
                   | exfalso; rewrite <- E3 in Hlow; vm_compute in Hlow; discriminate Hlow]
            |]).
    destruct E3.
  - right. right. right. split; [reflexivity |].
    intros [H | [H | [H | [H | []]]]]; try congruence;
      subst e; vm_compute in E3; discriminate E3.
Qed.

Lemma validateFile_accepts_aux (fileName : string) :
  Upload.Validation.isValid (Upload.validateFile fileName) = true
  <-> In (Upload.toLowerCase (Upload.lastSegment fileName)) acceptedExtensions.
Proof.
  unfold Upload.validateFile.
  set (extension := Upload.toLowerCase (Upload.lastSegment fileName)).
  pose proof (ALLOWED_FILE_TYPES_lower extension (toLowerCase_idem _)) as H.
  destruct (String.eqb extension "") eqn:E0.
  - apply String.eqb_eq in E0. rewrite E0. simpl.
    split; [discriminate |].
    intros [H' | [H' | [H' | [H' | []]]]]; discriminate H'.
  - destruct H as [[-> He] | [[-> He] | [[-> He] | [-> He]]]]; simpl.
    + split; [intros _ | reflexivity]. rewrite He. left. reflexivity.
    + split; [intros _ | reflexivity]. rewrite He. right. left. reflexivity.
    + split; [intros _ | reflexivity].
      destruct He as [-> | ->]; [right; right; left | right; right; right; left];
        reflexivity.
    + split; [discriminate | intros Hin; contradiction].
Qed.

(** [validateFile] accepts a name exactly when the lower case of the text
    after its last dot (of the whole name when it has no dot) is [pdf],
    [csv], or one of the two lower-case members every object inherits,
    [constructor] and [__proto__]; an accepted name gets that text as its
    file type and no error, and a refused one gets the error of the check
    that refused it. *)
Theorem validateFile_accepts (fileName : string) :
  let extension := Upload.toLowerCase (Upload.lastSegment fileName) in
  let v := Upload.validateFile fileName in
  (Upload.Validation.isValid v = true <-> In extension acceptedExtensions)
  /\ (Upload.Validation.isValid v = true ->
      Upload.Validation.fileType v = Some extension
      /\ Upload.Validation.error v = None)
  /\ (Upload.Validation.isValid v = false ->
      Upload.Validation.fileType v = None
      /\ Upload.Validation.error v
         = Some (if String.eqb extension ""
                 then "File must have an extension"
                 else "Only PDF and CSV files are allowed")%string).
Proof.
  intros extension v. subst v. unfold Upload.validateFile. fold extension.
  pose proof (ALLOWED_FILE_TYPES_lower extension (toLowerCase_idem _)) as H.
  destruct (String.eqb extension "") eqn:E0.
  - apply String.eqb_eq in E0. rewrite E0. simpl. split; [| split].
    + split; [discriminate |].
      intros [H' | [H' | [H' | [H' | []]]]]; discriminate H'.
    + discriminate.
    + intros _. split; reflexivity.
  - destruct H as [[-> He] | [[-> He] | [[-> He] | [-> He]]]]; simpl.
    + split; [| split]; [| auto | discriminate].
      split; [intros _ | reflexivity]. rewrite He. left. reflexivity.
    + split; [| split]; [| auto | discriminate].
      split; [intros _ | reflexivity]. rewrite He. right. left. reflexivity.
    + split; [| split]; [| auto | discriminate].
      split; [intros _ | reflexivity].
      destruct He as [-> | ->]; [right; right; left | right; right; right; left];
        reflexivity.
    + split; [| split]; [| discriminate | auto].
      split; [discriminate | intros Hin; contradiction].
Qed.

Lemma sanitizeUnit_idem (c : ascii) :
  let c' := if Upload.safeUnit c then c else "_"%char in
  (if Upload.safeUnit c' then c' else "_"%char) = c'
  /\ (Upload.safeUnit c' = true \/ c' = "_"%char)
  /\ Ascii.eqb c' "." = Ascii.eqb c ".".
Proof.
  destruct c as [[] [] [] [] [] [] [] []]; vm_compute; auto.
Qed.

Lemma hasDot_sanitize (s : string) : Upload.hasDot (Upload.sanitize s) = Upload.hasDot s.
Proof.
  induction s as [| c s IH]; simpl; [reflexivity |].
  rewrite IH. destruct (sanitizeUnit_idem c) as (_ & _ & ->). reflexivity.
Qed.

Lemma lastSegment_sanitize (s : string) :
  Upload.lastSegment (Upload.sanitize s) = Upload.sanitize (Upload.lastSegment s).
Proof.
  induction s as [| c s IH]; [reflexivity |].
  change (Upload.sanitize (String c s))
    with (String (if Upload.safeUnit c then c else "_"%char) (Upload.sanitize s)).
  change (Upload.lastSegment (String ?a ?b))
    with (if Upload.hasDot (String a b) then Upload.lastSegment b else String a b).
  change (Upload.hasDot (String ?a ?b)) with (Ascii.eqb a "." || Upload.hasDot b).
  rewrite hasDot_sanitize. destruct (sanitizeUnit_idem c) as (_ & _ & ->).
  destruct (Ascii.eqb c "." || Upload.hasDot s); [exact IH | reflexivity].
Qed.

(** The replacement that makes the stored file name keeps the length of
    the name, leaves in it only letters, digits, dots, hyphens and
    underscores, changes nothing when applied again, and commutes with
    taking the text after the last dot. *)
Theorem sanitize_shape (fileName : string) :
  String.length (Upload.sanitize fileName) = String.length fileName
  /\ Forall (fun c => Upload.safeUnit c = true \/ c = "_"%char)
       (list_ascii_of_string (Upload.sanitize fileName))
  /\ Upload.sanitize (Upload.sanitize fileName) = Upload.sanitize fileName
  /\ Upload.lastSegment (Upload.sanitize fileName)
     = Upload.sanitize (Upload.lastSegment fileName).
Proof.
  split; [| split; [| split]].
  - induction fileName as [| c s IH]; simpl; [reflexivity | rewrite IH; reflexivity].
  - induction fileName as [| c s IH]; simpl; constructor; [| exact IH].
    apply (sanitizeUnit_idem c).
  - induction fileName as [| c s IH]; simpl; [reflexivity |].
    rewrite IH. destruct (sanitizeUnit_idem c) as (-> & _). reflexivity.
  - apply lastSegment_sanitize.
Qed.

Lemma plainUnit_sanitize (c : ascii) :
  plainUnit (Upload.lowerUnit c) = true ->
  (if Upload.safeUnit c then c else "_"%char) = c.
Proof.
  destruct c as [[] [] [] [] [] [] [] []]; intros H;
    first [reflexivity | vm_compute in H; discriminate H].
Qed.

Lemma plainName_sanitize (e : string) :
  plainName (Upload.toLowerCase e) = true -> Upload.sanitize e = e.
Proof.
  induction e as [| c e IH]; simpl; [reflexivity |].
  intros H. apply andb_true_iff in H. destruct H as [Hc He].
  rewrite (plainUnit_sanitize c Hc), (IH He). reflexivity.
Qed.

(** The stored name of an accepted file keeps the extension of the
    original name as it was typed, so that the stored name is accepted as
    well, with the same file type and the same content type. *)
Theorem sanitize_keeps_extension (fileName : string) :
  Upload.Validation.isValid (Upload.validateFile fileName) = true ->
  Upload.lastSegment (Upload.sanitize fileName) = Upload.lastSegment fileName
  /\ Upload.validateFile (Upload.sanitize fileName) = Upload.validateFile fileName
  /\ Upload.getContentType (Upload.sanitize fileName) = Upload.getContentType fileName.
Proof.
  intros Hvalid.
  apply (proj1 (validateFile_accepts_aux fileName)) in Hvalid.
  assert (Hplain : plainName (Upload.toLowerCase (Upload.lastSegment fileName)) = true).
  { unfold acceptedExtensions in Hvalid. simpl in Hvalid.
    destruct Hvalid as [<- | [<- | [<- | [<- | []]]]]; reflexivity. }
  assert (H : Upload.lastSegment (Upload.sanitize fileName) = Upload.lastSegment fileName).
  { rewrite lastSegment_sanitize. apply plainName_sanitize. exact Hplain. }
  split; [exact H |].
  unfold Upload.validateFile, Upload.getContentType. rewrite H. split; reflexivity.
Qed.

Lemma sanitize_keeps_extension_witness :
  Upload.sanitize "Bank statement (May).PDF" = "Bank_statement__May_.PDF"%string
  /\ Upload.lastSegment (Upload.sanitize "Bank statement (May).PDF") = "PDF"%string.
Proof.
  split; [reflexivity |].
  rewrite (proj1 (sanitize_keeps_extension "Bank statement (May).PDF" eq_refl)).
  reflexivity.
Defined.

(** ** Presigned uploads *)



Lemma confirm_Permutation (l1 l2 : list (string * FileUpload.t)) (u : string) :
  l1 ≡ₚ l2 ->
  List.filter (fun r => String.eqb (FileUpload.userId r) u) (map snd l1)
  ≡ₚ List.filter (fun r => String.eqb (FileUpload.userId r) u) (map snd l2).
Proof.
  induction 1 as [| x l1 l2 _ IH | x y l | l1 l2 l3 _ IH1 _ IH2]; simpl.
  - reflexivity.
  - destruct (String.eqb (FileUpload.userId (snd x)) u); [constructor |]; exact IH.
  - destruct (String.eqb (FileUpload.userId (snd x)) u),
      (String.eqb (FileUpload.userId (snd y)) u); try reflexivity.
    apply perm_swap.
  - etransitivity; eassumption.
Qed.

(** [confirmFileUpload] creates no record and touches no other record: it
    throws, with the table as it was, when the identifier is unknown;
    otherwise it returns the record as stored afterwards, which is the
    former record marked as uploaded, with the time of the call as its
    update time and with the size when one is given and is not zero.  The
    owner, the names, the storage key and the time of upload stay as they
    were, so that every user is listed the same files as before. *)
Theorem confirmFileUpload_preserves (clock : Z) (fileId : string) (fileSize : option Z)
    (table : gmap string FileUpload.t) :
  let r := Upload.confirmFileUpload clock fileId fileSize table in
  (forall j, j <> fileId -> snd r !! j = table !! j)
  /\ match table !! fileId with
     | None => r = (Upload.Thrown "The conditional request failed", table)
     | Some old =>
         exists new,
           fst r = Upload.Returned (Some new)
           /\ snd r = <[fileId := new]> table
           /\ FileUpload.status new = FileUpload.Uploaded
           /\ FileUpload.updatedAt new = JsDate.toISOString clock
           /\ FileUpload.fileSize new
              = match fileSize with
                | Some n => if n =? 0 then FileUpload.fileSize old else Some n
                | None => FileUpload.fileSize old
                end
           /\ FileUpload.fileId new = FileUpload.fileId old
           /\ FileUpload.userId new = FileUpload.userId old
           /\ FileUpload.originalName new = FileUpload.originalName old
           /\ FileUpload.fileName new = FileUpload.fileName old
           /\ FileUpload.s3Key new = FileUpload.s3Key old
           /\ FileUpload.fileType new = FileUpload.fileType old
           /\ FileUpload.contentType new = FileUpload.contentType old
           /\ FileUpload.uploadedAt new = FileUpload.uploadedAt old
           /\ FileUpload.createdAt new = FileUpload.createdAt old
     end
  /\ (forall u,
        map FileUpload.s3Key (Upload.getUserFiles u (snd r))
        ≡ₚ map FileUpload.s3Key (Upload.getUserFiles u table)).
Proof.
  intros r. subst r. unfold Upload.confirmFileUpload.
  destruct (table !! fileId) as [old |] eqn:E; cbn [fst snd].
  - split; [intros j Hj; apply lookup_insert_ne; congruence |]. split.
    + eexists. rewrite lookup_insert_eq. split; [reflexivity |].
      split; [reflexivity |]. cbn. repeat split; reflexivity.
    + intros u. unfold Upload.getUserFiles.
      match goal with
      | |- context [<[fileId := ?x]> table] => set (new := x)
      end.
      rewrite <- (insert_delete_eq table fileId new).
      rewrite (confirm_Permutation _ _ u
                 (map_to_list_insert (delete fileId table) fileId new
                    (lookup_delete_eq table fileId))).
      rewrite <- (confirm_Permutation _ _ u (map_to_list_delete table fileId old E)).
      simpl. destruct (String.eqb (FileUpload.userId old) u); reflexivity.
  - split; [reflexivity |]. split; [reflexivity |]. reflexivity.
Qed.



(** ** Handlers that only read *)

Lemma onlyRead_refl (s : Store) : onlyRead s s.
Proof.
  split; [reflexivity |]. split; [reflexivity |].
  exists []. rewrite app_nil_r. split; reflexivity.
Qed.

Ltac solve_onlyRead :=
  unfold onlyRead; cbn [fst snd TRANSACTIONS USERS sent];
  split; [reflexivity |]; split; [reflexivity |];
  eexists; split; [rewrite <- ?app_assoc; reflexivity | reflexivity].

(** The period, analytics, dashboard and listing handlers write nothing:
    whatever the request, both tables are afterwards as they were, and the
    commands sent are reads of the user item and queries of the
    transactions. *)
Theorem read_handlers_write_nothing (LocalTZA clock : Z) (req : Request.t) (s : Store) :
  onlyRead s (snd (TransactionController.getTransactionsByPeriod clock req s))
  /\ onlyRead s (snd (AnalyticsController.getAnalytics clock req s))
  /\ onlyRead s (snd (DashboardController.getDashboard LocalTZA clock req s))
  /\ snd (Ledger.getTransactions (Request.user req) s) = s.
Proof.
  split; [| split; [| split]].
  - unfold TransactionController.getTransactionsByPeriod.
    destruct (TransactionController.missing (Request.user req)); [apply onlyRead_refl |].
    destruct (negb _); [apply onlyRead_refl |].
    unfold queryTransactions, record. solve_onlyRead.
  - unfold AnalyticsController.getAnalytics.
    destruct (TransactionController.missing (Request.user req)); [apply onlyRead_refl |].
    destruct (negb _); [apply onlyRead_refl |].
    unfold getUser, queryTransactions, record. cbv beta iota zeta.
    match goal with
    | |- context [Analytics.generateChartData ?g ?b] =>
        destruct (Analytics.generateChartData g b)
    end; solve_onlyRead.
  - unfold DashboardController.getDashboard.
    destruct (TransactionController.missing (Request.user req)); [apply onlyRead_refl |].
    unfold getUser, queryTransactions, record. solve_onlyRead.
  - unfold Ledger.getTransactions.
    destruct (TransactionController.missing (Request.user req)); reflexivity.
Qed.

(** ** The period endpoint and the analytics endpoint on the same request *)



(** ** The earlier controller: a transaction without a balance *)

(** The earlier [createTransaction] saves the transaction before it
    updates the balance: a 404 answer, given when the caller has no user
    document, has added the transaction to the saved ones and changed no
    balance. *)
Theorem legacy_not_found_after_save (validate : Legacy.Doc.t -> option string)
    (clock : Z) (req : Request.t) (s : Legacy.Store) :
  let r := Legacy.createTransaction validate clock req s in
  Legacy.status (fst r) = 404 ->
  exists t,
    Legacy.saved (snd r) = Legacy.saved s ++ [t]
    /\ Request.user req = Some (Legacy.Doc.userId t)
    /\ Legacy.Doc.amount t = numberOf (Request.amount req)
    /\ Legacy.balances s !! Legacy.Doc.userId t = None
    /\ Legacy.balances (snd r) = Legacy.balances s.
Proof.
  intros r. subst r. unfold Legacy.createTransaction.
  destruct (negb (truthy (Request.type req)) || _); [discriminate |].
  fold (amountRejected (Request.amount req)).
  destruct (amountRejected (Request.amount req)); [discriminate |].
  destruct (negb (truthy (Request.description req)) || _); [discriminate |].
  destruct (Request.user req) as [user |]; [| discriminate].
  destruct (validate _); [discriminate |]. cbn [Legacy.saved Legacy.balances].
  destruct (Legacy.balances s !! user) eqn:E; [discriminate |].
  intros _. eexists. cbn [fst snd Legacy.saved Legacy.balances Legacy.Doc.userId
                          Legacy.Doc.amount].
  repeat split. exact E.
Qed.

Lemma legacy_not_found_after_save_witness :
  let r := Legacy.createTransaction (fun _ => None) 1731672000000
             (sampleRequest None (JsNumber 250))
             {| Legacy.saved := []; Legacy.balances := ∅ |} in
  Legacy.status (fst r) = 404 /\ List.length (Legacy.saved (snd r)) = 1%nat.
Proof.
  intros r.
  assert (H404 : Legacy.status (fst r) = 404) by (vm_compute; reflexivity).
  destruct (legacy_not_found_after_save (fun _ => None) 1731672000000
              (sampleRequest None (JsNumber 250))
              {| Legacy.saved := []; Legacy.balances := ∅ |} H404)
    as (t & H & _).
  split; [exact H404 |]. fold r in H. rewrite H. reflexivity.
Defined.

(** ** The phone number of a subscription *)

Lemma removeNonDigits_digits (s : string) :
  Forall (fun c => Notification.isDigit c = true)
    (list_ascii_of_string (Notification.removeNonDigits s)).
Proof.
  induction s as [| c s IH]; simpl; [constructor |].
  destruct (Notification.isDigit c) eqn:E; [| exact IH].
  simpl. constructor; [exact E | exact IH].
Qed.

Lemma removeNonDigits_fixed (s : string) :
  Forall (fun c => Notification.isDigit c = true) (list_ascii_of_string s) ->
  Notification.removeNonDigits s = s.
Proof.
  induction s as [| c s IH]; simpl; [reflexivity |].
  intros H. inversion H as [| ? ? Hc Hs]; subst.
  rewrite Hc, (IH Hs). reflexivity.
Qed.

(** The number a subscription is made with always starts with a plus
    sign, and formatting it again changes nothing.  A number that comes
    with a plus sign is used as it is, whatever else it contains; any
    other number is reduced to its digits, in their order, behind [+1]. *)
Theorem formattedPhone_shape (phoneNumber : string) :
  Notification.startsWithPlus (Notification.formattedPhone phoneNumber) = true
  /\ Notification.formattedPhone (Notification.formattedPhone phoneNumber)
     = Notification.formattedPhone phoneNumber
  /\ (Notification.startsWithPlus phoneNumber = true ->
      Notification.formattedPhone phoneNumber = phoneNumber)
  /\ (Notification.startsWithPlus phoneNumber = false ->
      exists digits,
        Notification.formattedPhone phoneNumber = ("+1" ++ digits)%string
        /\ Forall (fun c => Notification.isDigit c = true) (list_ascii_of_string digits)
        /\ list_ascii_of_string digits
           = List.filter Notification.isDigit (list_ascii_of_string phoneNumber)).
Proof.
  unfold Notification.formattedPhone.
  destruct (Notification.startsWithPlus phoneNumber) eqn:E.
  - rewrite E. repeat split; try reflexivity; try assumption. discriminate.
  - split; [reflexivity |]. split; [reflexivity |]. split; [discriminate |].
    intros _. exists (Notification.removeNonDigits phoneNumber).
    split; [reflexivity |]. split; [apply removeNonDigits_digits |].
    clear E. induction phoneNumber as [| c s IH]; simpl; [reflexivity |].
    destruct (Notification.isDigit c); simpl; rewrite IH; reflexivity.
Qed.

Example formattedPhone_known :
  Notification.formattedPhone "(555) 010-9999" = "+15550109999"%string
  /\ Notification.formattedPhone "+44 20 7946 0000" = "+44 20 7946 0000"%string
  /\ Notification.formattedPhone "44 20 7946 0000" = "+1442079460000"%string.
Proof. repeat split. Qed.

(** ** The route of the presigned URLs *)


Example presigned_url_refuses_with_500 :
  fst (UploadRoute.presignedUrl (Some "bucket"%string) (fun _ => inl "https://s3/put"%string)
         1731672000000 "f-1" 1731672000123 1731672000456 (JsString "photo.png")
         (Some "u1"%string) ∅)
  = Some {| UploadRoute.status := 500;
            UploadRoute.body :=
              UploadRoute.FailureBody "Failed to generate upload URL"
                "Only PDF and CSV files are allowed" "2024-11-15T12:00:00.456Z" |}.
Proof. vm_compute. reflexivity. Qed.
